(** * DREAMSCAPE ML dataset pipeline: a shallow embedding of the ETL stages

    The Python pipeline (ai/ml/etl, ai/ml/utils/validators.py and
    ai/ml/scripts/run_etl.py) works on pandas DataFrames.  A DataFrame is
    embedded as a list of named, typed columns together with a list of rows;
    a row maps column names to cells.  Library code the repository calls but
    does not define (the date parser of [pd.to_datetime], [hashlib.sha256],
    numpy's seeded permutation, sklearn's [train_test_split], Python's number
    printing) is taken as a parameter of the functions that call it. *)

From Stdlib Require Import QArith Qround Lqa.
From stdpp Require Import base option list strings gmap.

Local Open Scope string_scope.
Local Open Scope Z_scope.
Local Open Scope list_scope.

(** ** Exceptions and results *)

Inductive Exn : Type :=
  | KeyError (key : string)
  | TypeError
  | ValueError
  | ParserError
  | AttributeError
  | ZeroDivisionError.

Inductive Result (A : Type) : Type :=
  | Ok (a : A)
  | Raise (e : Exn).
Arguments Ok {A} a.
Arguments Raise {A} e.

(** Sequencing: an exception of the first computation skips the rest. *)
Definition bind {A B : Type} (m : Result A) (f : A -> Result B) : Result B :=
  match m with Ok a => f a | Raise e => Raise e end.

Notation "'let*' x ':=' m 'in' k" := (bind m (fun x => k))
  (at level 10, x name, m at level 100, k at level 200).

Definition is_Ok {A} (m : Result A) : Prop := exists a, m = Ok a.

(** [for x in l: body], where the body may raise and threads a state. *)
Fixpoint foldM {A S : Type} (f : S -> A -> Result S) (s : S) (l : list A) : Result S :=
  match l with
  | [] => Ok s
  | x :: l' => let* s' := f s x in foldM f s' l'
  end.

(** An elementwise operation that may raise, over a column. *)
Fixpoint mapM {A B : Type} (f : A -> Result B) (l : list A) : Result (list B) :=
  match l with
  | [] => Ok []
  | x :: l' => let* y := f x in let* ys := mapM f l' in Ok (y :: ys)
  end.

(** ** Cells, rows and frames *)

(** pandas dtypes that the stages tell apart. *)
Inductive Dtype : Type := DFloat | DInt | DObject | DBool | DDatetime | DCategory.

#[global] Instance Dtype_eq_dec : EqDecision Dtype.
Proof. solve_decision. Defined.

(** A cell.  [VNull] stands for None, NaN and NaT alike ([pd.isna] is true of
    all three).  Numbers are exact rationals: the float columns of the
    pipeline hold the scores 5.0, 3.0, 1.0, 0.0, -1.0, vector components and
    counters.  Timestamps are nanoseconds since the epoch, as in
    datetime64[ns]. *)
Inductive Cell : Type :=
  | VNull
  | VNum (q : Q)
  | VStr (s : string)
  | VBool (b : bool)
  | VTime (ns : Z).

Abbreviation Row := (gmap string Cell).

Record DataFrame : Type := mkDF {
  columns : list (string * Dtype);
  rows : list Row
}.

(** [row.get(col)]: None when the column is absent. *)
Definition get (r : Row) (col : string) : Cell := default VNull (r !! col).

(** [pd.isna] / [pd.notna] on a scalar. *)
Definition isna (c : Cell) : bool := match c with VNull => true | _ => false end.
Definition notna (c : Cell) : bool := negb (isna c).

(** [col in df.columns] *)
Definition has_column (df : DataFrame) (col : string) : bool :=
  existsb (fun cd => String.eqb cd.1 col) (columns df).

Definition dtype_of (df : DataFrame) (col : string) : option Dtype :=
  snd <$> find (fun cd => String.eqb cd.1 col) (columns df).

(** [df[col]] as the list of its cells, in row order. *)
Definition column (df : DataFrame) (col : string) : list Cell :=
  map (fun r => get r col) (rows df).

(** [df[col] = ...] on the column index: an existing column keeps its place
    and takes the new dtype (every column of that name does), a new column is
    appended. *)
Definition set_dtype (cols : list (string * Dtype)) (col : string) (d : Dtype)
  : list (string * Dtype) :=
  if existsb (fun cd => String.eqb cd.1 col) cols
  then map (fun cd => if String.eqb cd.1 col then (cd.1, d) else cd) cols
  else cols ++ [(col, d)].

(** [df[col] = df.apply(f, axis=1)] and the like: one new value per row. *)
Definition assign (df : DataFrame) (col : string) (d : Dtype) (f : Row -> Cell) : DataFrame :=
  mkDF (set_dtype (columns df) col d) (map (fun r => <[col := f r]> r) (rows df)).

(** [df[col] = df[col].op(...)]: the cells of an existing column are
    rewritten in place. *)
Definition update (df : DataFrame) (col : string) (g : Cell -> Cell) : DataFrame :=
  mkDF (columns df) (map (alter g col) (rows df)).

(** [df.drop(columns=cols)] *)
Definition drop_columns (df : DataFrame) (cols : list string) : DataFrame :=
  mkDF (List.filter (fun cd => negb (existsb (String.eqb cd.1) cols)) (columns df))
       (map (fun r => foldr (fun c r' => delete c r') r cols) (rows df)).

(** [df[mask]] with the mask computed row by row. *)
Definition select (df : DataFrame) (keep : Row -> bool) : DataFrame :=
  mkDF (columns df) (List.filter keep (rows df)).

(** ** Comparisons of a column with a number *)

Definition Qltb (a b : Q) : bool := negb (Qle_bool b a).

(** [int(x)] of a float: truncation toward zero. *)
Definition Qtrunc (x : Q) : Z := Z.quot (Qnum x) (Zpos (Qden x)).

(** The number an ordering comparison sees in a cell: nulls compare false,
    booleans count as 0 and 1, a string or a timestamp against a number
    raises TypeError. *)
Definition cmp_value (c : Cell) : Result (option Q) :=
  match c with
  | VNull => Ok None
  | VNum q => Ok (Some q)
  | VBool b => Ok (Some (if b then 1%Q else 0%Q))
  | VStr _ => Raise TypeError
  | VTime _ => Raise TypeError
  end.

(** [x < k] and [x > k] for one cell. *)
Definition lt_scalar (k : Q) (c : Cell) : Result bool :=
  let* v := cmp_value c in Ok (match v with Some q => Qltb q k | None => false end).
Definition gt_scalar (k : Q) (c : Cell) : Result bool :=
  let* v := cmp_value c in Ok (match v with Some q => Qltb k q | None => false end).

(** [x == k] never raises: a cell that is not a number is simply different. *)
Definition eq_scalar (k : Q) (c : Cell) : bool :=
  match c with
  | VNum q => Qeq_bool q k
  | VBool b => Qeq_bool (if b then 1%Q else 0%Q) k
  | _ => false
  end.

(** [df[col]] for a comparison: KeyError without the column; datetime and
    categorical columns refuse the comparison with a number as a whole. *)
Definition comparable_column (df : DataFrame) (col : string) : Result unit :=
  match dtype_of df col with
  | None => Raise (KeyError col)
  | Some DDatetime => Raise TypeError
  | Some DCategory => Raise TypeError
  | Some _ => Ok tt
  end.

(** [df[mask]] where computing the mask may raise. *)
Fixpoint filterM {A : Type} (p : A -> Result bool) (l : list A) : Result (list A) :=
  match l with
  | [] => Ok []
  | x :: l' =>
      let* b := p x in
      let* t := filterM p l' in
      Ok (if b : bool then x :: t else t)
  end.

(** [df.take(idx)]: the rows at the given positions, in that order. *)
Definition take_rows {A : Type} (l : list A) (idx : list nat) : list A :=
  omap (fun i : nat => l !! i) idx.

(** ** Dates *)

Section Dates.
(** The date parser behind [pd.to_datetime] on a string: [None] when the
    string cannot be parsed, [Some None] when it parses to NaT. *)
Variable parse_datetime : string -> option (option Z).

(** [pd.to_datetime(x)] on one value, with the default [errors='raise'].
    A number is read as nanoseconds since the epoch. *)
Definition to_datetime (c : Cell) : Result (option Z) :=
  match c with
  | VNull => Ok None
  | VTime t => Ok (Some t)
  | VStr s =>
      match parse_datetime s with
      | Some t => Ok t
      | None => Raise ParserError
      end
  | VNum q => Ok (Some (Qfloor q))
  | VBool _ => Raise TypeError
  end.

Definition cell_of_time (t : option Z) : Cell :=
  match t with Some ns => VTime ns | None => VNull end.

(** [pd.to_datetime(x, errors='coerce')]: what cannot be converted is NaT. *)
Definition to_datetime_coerce (c : Cell) : Cell :=
  match to_datetime c with
  | Ok t => cell_of_time t
  | Raise _ => VNull
  end.
End Dates.

Definition ns_per_day : Z := 86400000000000.

(** [Timedelta.days]: whole days, rounded toward minus infinity. *)
Definition days_of_ns (ns : Z) : Z := ns / ns_per_day.

(** [Timestamp.dayofweek], Monday = 0; 1970-01-01 was a Thursday. *)
Definition dayofweek (ns : Z) : Z := (days_of_ns ns + 3) mod 7.

(** [Timestamp.month] in the proleptic Gregorian calendar, computed from the
    day number by the usual era / day-of-era decomposition. *)
Definition month (ns : Z) : Z :=
  let z := days_of_ns ns + 719468 in
  let era := z / 146097 in
  let doe := z - era * 146097 in
  let yoe := (doe - doe / 1460 + doe / 36524 - doe / 146096) / 365 in
  let doy := doe - (365 * yoe + yoe / 4 - yoe / 100) in
  let mp := (5 * doy + 2) / 153 in
  if mp <? 10 then mp + 3 else mp - 9.

(** ** [str(x)] *)

Section PyStr.
(** Python's printing of a number and of a timestamp. *)
Variable str_num : Q -> string.
Variable str_time : Z -> string.

(** [str(x)], also what [astype(str)] applies to each cell. *)
Definition py_str (c : Cell) : string :=
  match c with
  | VNull => "None"
  | VNum q => str_num q
  | VStr s => s
  | VBool true => "True"
  | VBool false => "False"
  | VTime t => str_time t
  end.
End PyStr.

(** ** Strings: [sub in s], [s.startswith(p)], [s.endswith(p)] *)

Fixpoint contains (sub s : string) : bool :=
  String.prefix sub s ||
  match s with
  | EmptyString => false
  | String _ s' => contains sub s'
  end.

Definition startswith (p s : string) : bool := String.prefix p s.

Definition endswith (p s : string) : bool :=
  String.eqb (String.substring (String.length s - String.length p) (String.length p) s) p
  && (String.length p <=? String.length s)%nat.

(** ** Column statistics *)

(** The numbers of a column as [mean], [std] and [median] see them: nulls are
    skipped, a string makes the reduction raise TypeError. *)
Definition numeric_values (cells : list Cell) : Result (list Q) :=
  let* vs := mapM cmp_value cells in Ok (omap id vs).

Definition Qsum (xs : list Q) : Q := foldr Qplus 0%Q xs.

(** [Series.mean()]; NaN ([None]) on an empty column. *)
Definition mean (xs : list Q) : option Q :=
  match xs with
  | [] => None
  | _ => Some (Qsum xs / inject_Z (Z.of_nat (length xs)))%Q
  end.

(** The sample variance (ddof = 1), the square of [Series.std()]; NaN with
    fewer than two values. *)
Definition variance (xs : list Q) : option Q :=
  match mean xs with
  | Some m =>
      if (2 <=? length xs)%nat then
        Some (Qsum (map (fun x => (x - m) * (x - m))%Q xs)
              / inject_Z (Z.of_nat (length xs - 1)))%Q
      else None
  | None => None
  end.

Fixpoint insert_sorted (x : Q) (l : list Q) : list Q :=
  match l with
  | [] => [x]
  | y :: l' => if Qle_bool x y then x :: l else y :: insert_sorted x l'
  end.

Definition sort_values (xs : list Q) : list Q := foldr insert_sorted [] xs.

(** [Series.median()]: the middle value, or the mean of the two middle ones. *)
Definition median (xs : list Q) : option Q :=
  let s := sort_values xs in
  let n := length s in
  if (n =? 0)%nat then None
  else if Nat.odd n then s !! (n / 2)%nat
  else
    match s !! (n / 2 - 1)%nat, s !! (n / 2)%nat with
    | Some a, Some b => Some ((a + b) / 2)%Q
    | _, _ => None
    end.

(** Equality of two cells as pandas' hashing of values sees it: nulls are
    equal to each other, numbers are compared by value, True is 1. *)
Definition cell_eqb (a b : Cell) : bool :=
  match a, b with
  | VNull, VNull => true
  | VStr x, VStr y => String.eqb x y
  | VTime x, VTime y => Z.eqb x y
  | VNum x, VNum y => Qeq_bool x y
  | VNum x, VBool y => Qeq_bool x (if y then 1%Q else 0%Q)
  | VBool x, VNum y => Qeq_bool (if x then 1%Q else 0%Q) y
  | VBool x, VBool y => Bool.eqb x y
  | _, _ => false
  end.

(** ** Column operations shared by the stages *)

(** [Series.fillna(v)] on one cell. *)
Definition fillna (v : Cell) (c : Cell) : Cell := if isna c then v else c.

(** [df[col].isna().sum()] *)
Definition missing_count (df : DataFrame) (col : string) : nat :=
  length (List.filter isna (column df col)).

(** [df.select_dtypes(include=[...]).columns] *)
Definition select_dtypes (df : DataFrame) (include : list Dtype) : list string :=
  map fst (List.filter (fun cd => bool_decide (cd.2 ∈ include)) (columns df)).

(** [Series.clip(0, 1)] on one cell. *)
Definition clip01 (c : Cell) : Cell :=
  match c with
  | VNum q => if Qltb q 0 then VNum 0 else if Qltb 1 q then VNum 1 else VNum q
  | _ => c
  end.

(** [((df[col] < 0) | (df[col] > 1)).sum()] *)
Definition out_of_range_cell (c : Cell) : Result bool :=
  let* lo := lt_scalar 0 c in let* hi := gt_scalar 1 c in Ok (lo || hi).

Definition out_of_range (df : DataFrame) (col : string) : Result nat :=
  let* _ := comparable_column df col in
  let* flags := mapM out_of_range_cell (column df col) in
  Ok (length (List.filter id flags)).

(** ** config/dataset_config.py *)

Module Config.


Inductive Stage : Type := NOT_VIEWED | VIEWED | CLICKED | BOOKED | REJECTED.

(** [ENGAGEMENT_SCORES] *)
Definition ENGAGEMENT_SCORES (s : Stage) : Q :=
  match s with
  | NOT_VIEWED => 0
  | VIEWED => 1
  | CLICKED => 3
  | BOOKED => 5
  | REJECTED => -1
  end%Q.

Definition stage_name (s : Stage) : string :=
  match s with
  | NOT_VIEWED => "NOT_VIEWED"
  | VIEWED => "VIEWED"
  | CLICKED => "CLICKED"
  | BOOKED => "BOOKED"
  | REJECTED => "REJECTED"
  end.

(** [SEASON_MAPPING] *)
Definition SEASON_MAPPING (m : Z) : option string :=
  if (m =? 12) || (m =? 1) || (m =? 2) then Some "winter"
  else if (m =? 3) || (m =? 4) || (m =? 5) then Some "spring"
  else if (m =? 6) || (m =? 7) || (m =? 8) then Some "summer"
  else if (m =? 9) || (m =? 10) || (m =? 11) then Some "autumn"
  else None.

(** [COUNTRY_TO_REGION] *)
Definition COUNTRY_TO_REGION : list (string * string) :=
  map (fun c => (c, "Europe"))
      ["FR"; "DE"; "IT"; "ES"; "UK"; "PT"; "NL"; "BE"; "CH"; "AT";
       "GR"; "SE"; "NO"; "DK"; "FI"]
  ++ map (fun c => (c, "North America")) ["US"; "CA"; "MX"]
  ++ map (fun c => (c, "Asia"))
      ["CN"; "JP"; "KR"; "IN"; "TH"; "VN"; "ID"; "MY"; "SG"; "PH"]
  ++ map (fun c => (c, "Middle East")) ["AE"; "SA"; "IL"; "TR"]
  ++ map (fun c => (c, "Oceania")) ["AU"; "NZ"]
  ++ map (fun c => (c, "South America")) ["BR"; "AR"; "CL"; "PE"]
  ++ map (fun c => (c, "Africa")) ["ZA"; "EG"; "MA"; "KE"].

Definition AGE_BINS : list Q := [0; 25; 35; 50; 65; 100]%Q.
Definition AGE_LABELS : list string := ["18-25"; "26-35"; "36-50"; "51-65"; "65+"].

Definition TEST_SIZE : Q := (2 # 10)%Q.

Definition REQUIRED_COLUMNS : list string :=
  [ "user_hash"; "user_climate_pref"; "user_culture_pref"; "user_budget_level";
    "user_activity_level"; "item_destination_id"; "recommendation_score";
    "engagement_score"; "booking_probability" ].

End Config.

(** ** etl/feature_engineering.py *)

Module FeatureEngineering.
Import Config.

(** A cell of a datetime column as an operand of [-]: a value that is
    neither a timestamp nor null cannot be subtracted. *)
Definition time_of_cell (c : Cell) : Result (option Z) :=
  match c with
  | VTime t => Ok (Some t)
  | VNull => Ok None
  | _ => Raise TypeError
  end.

(** [Series.clip(lower, upper)] on one cell of whole numbers. *)
Definition clip_cell (lower upper : Z) (c : Cell) : Cell :=
  match c with
  | VNum q =>
      if Qltb q (inject_Z lower) then VNum (inject_Z lower)
      else if Qltb (inject_Z upper) q then VNum (inject_Z upper)
      else VNum q
  | _ => c
  end.

(** [(later - earlier).dt.days]; NaN when either side is NaT. *)
Definition days_between (later earlier : option Z) : Cell :=
  match later, earlier with
  | Some a, Some b => VNum (inject_Z (days_of_ns (a - b)))
  | _, _ => VNull
  end.

(** [x // 365] on a cell. *)
Definition floordiv_365 (c : Cell) : Cell :=
  match c with
  | VNum q => VNum (inject_Z (Qfloor (q / 365)))
  | _ => c
  end.

(** A column of whole numbers is int64 unless it holds a NaN. *)
Definition int_or_float (cells : list Cell) : Dtype :=
  if forallb notna cells then DInt else DFloat.

Definition season_of (c : Cell) : Cell :=
  match c with
  | VTime t => match SEASON_MAPPING (month t) with Some s => VStr s | None => VNull end
  | _ => VNull
  end.

Definition is_weekend_of (c : Cell) : Cell :=
  match c with
  | VTime t => VBool ((dayofweek t =? 5) || (dayofweek t =? 6))
  | _ => VBool false
  end.

Section Temporal.
Variable parse_datetime : string -> option (option Z).
(** [pd.Timestamp.now()], in nanoseconds. *)
Variable now : Z.

(** The block guarded by ['dateOfBirth' in df.columns]. *)
Definition add_user_age (df : DataFrame) : DataFrame :=
  if has_column df "dateOfBirth" then
    let df1 := assign df "dateOfBirth" DDatetime
                 (fun r => to_datetime_coerce parse_datetime (get r "dateOfBirth")) in
    let age := fun r =>
      match get r "dateOfBirth" with
      | VTime t => floordiv_365 (days_between (Some now) (Some t))
      | _ => VNull
      end in
    let df2 := assign df1 "user_age" (int_or_float (map age (rows df1))) age in
    update df2 "user_age" (clip_cell 18 100)
  else df.

(** The block guarded by ['createdAt' in df.columns]: the conversion has
    no [errors='coerce'] and raises on a value it cannot parse. *)
Definition add_timestamp (df : DataFrame) : Result DataFrame :=
  if has_column df "createdAt" then
    let* stamps := mapM (to_datetime parse_datetime) (column df "createdAt") in
    let df1 :=
      mkDF (set_dtype (columns df) "timestamp" DDatetime)
           (zip_with (fun r t => <["timestamp" := cell_of_time t]> r) (rows df) stamps) in
    let df2 := assign df1 "season" DObject (fun r => season_of (get r "timestamp")) in
    Ok (assign df2 "is_weekend" DBool (fun r => is_weekend_of (get r "timestamp")))
  else Ok df.

(** The block guarded by
    ['departureDate' in df.columns and 'timestamp' in df.columns]. *)
Definition add_days_until_departure (df : DataFrame) : Result DataFrame :=
  if has_column df "departureDate" && has_column df "timestamp" then
    let df1 := assign df "departureDate" DDatetime
                 (fun r => to_datetime_coerce parse_datetime (get r "departureDate")) in
    let* stamps := mapM (fun r => time_of_cell (get r "timestamp")) (rows df1) in
    let days := fun r (t : option Z) =>
      match get r "departureDate" with
      | VTime d => days_between (Some d) t
      | _ => VNull
      end in
    let cells := zip_with days (rows df1) stamps in
    let df2 :=
      mkDF (set_dtype (columns df1) "days_until_departure" (int_or_float cells))
           (zip_with (fun r c => <["days_until_departure" := c]> r) (rows df1) cells) in
    Ok (update df2 "days_until_departure" (clip_cell 0 365))
  else Ok df.

(** [calculate_temporal_features(df)] *)
Definition calculate_temporal_features (df : DataFrame) : Result DataFrame :=
  let df := add_user_age df in
  let* df := add_timestamp df in
  let* df := add_days_until_departure df in
  let df := assign df "days_since_last_search" DInt (fun _ => VNum 0) in
  Ok (assign df "days_since_last_booking" DInt (fun _ => VNum 0)).
End Temporal.

End FeatureEngineering.

(** ** etl/label_construction.py *)

Module LabelConstruction.
Import Config.

(** [status == 'BOOKED']: only a string cell can be equal to a string. *)
Definition status_is (status : Cell) (name : string) : bool :=
  match status with VStr s => String.eqb s name | _ => false end.

(** [calculate_engagement_score(row)]; [row['status']] raises KeyError when
    the row has no status column, [row.get] does not. *)
Definition calculate_engagement_score (row : Row) : Result Q :=
  match row !! "status" with
  | None => Raise (KeyError "status")
  | Some status =>
      if notna (get row "bookedAt") || status_is status "BOOKED" then
        Ok (ENGAGEMENT_SCORES BOOKED)
      else if notna (get row "clickedAt") || status_is status "CLICKED" then
        Ok (ENGAGEMENT_SCORES CLICKED)
      else if notna (get row "viewedAt") || status_is status "VIEWED" then
        Ok (ENGAGEMENT_SCORES VIEWED)
      else if notna (get row "rejectedAt") || status_is status "REJECTED" then
        Ok (ENGAGEMENT_SCORES REJECTED)
      else
        Ok (ENGAGEMENT_SCORES NOT_VIEWED)
  end.

Section TimeToInteraction.
Variable parse_datetime : string -> option (option Z).

(** [int(delta.total_seconds())]: the nanosecond difference divided by
    1e9 and truncated toward zero; a NaT difference makes [int] raise. *)
Definition total_seconds_int (t1 t0 : option Z) : Result Z :=
  match t1, t0 with
  | Some a, Some b => Ok (Z.quot (a - b) 1000000000)
  | _, _ => Raise ValueError
  end.

(** The chain of [if]/[elif] that picks the interaction. *)
Definition interaction_time (row : Row) : option Cell :=
  if notna (get row "viewedAt") then Some (get row "viewedAt")
  else if notna (get row "clickedAt") then Some (get row "clickedAt")
  else if notna (get row "bookedAt") then Some (get row "bookedAt")
  else None.

(** [calculate_time_to_interaction(row)]; [None] is Python's None.  The
    bare [except:] turns every exception of the [try] block into None. *)
Definition calculate_time_to_interaction (row : Row) : option Z :=
  let created_at := get row "createdAt" in
  if isna created_at then None
  else
    match interaction_time row with
    | None => None
    | Some it =>
        if isna it then None
        else
          match (let* t1 := to_datetime parse_datetime it in
                 let* t0 := to_datetime parse_datetime created_at in
                 total_seconds_int t1 t0) with
          | Ok secs => Some secs
          | Raise _ => None
          end
    end.
End TimeToInteraction.

(** The inner [get_interaction_type(row)] of [construct_labels]. *)
Definition get_interaction_type (row : Row) : string :=
  match get row "engagement_score" with
  | VNum score =>
      if Qeq_bool score 5 then "BOOKED"
      else if Qeq_bool score 3 then "CLICKED"
      else if Qeq_bool score 1 then "VIEWED"
      else if Qeq_bool score (-1) then "REJECTED"
      else "NOT_VIEWED"
  | _ => "NOT_VIEWED"
  end.

(** [(df['engagement_score'] == ENGAGEMENT_SCORES['BOOKED']).astype(int)],
    cell by cell. *)
Definition booked_flag (score : Cell) : Cell :=
  match score with
  | VNum q => if Qeq_bool q (ENGAGEMENT_SCORES BOOKED) then VNum 1 else VNum 0
  | _ => VNum 0
  end.

Definition cell_of_option_Z (o : option Z) : Cell :=
  match o with Some z => VNum (inject_Z z) | None => VNull end.

(** The dtype pandas infers for a column of Python ints and Nones. *)
Definition inferred_int_dtype (cells : list Cell) : Dtype :=
  if forallb notna cells then DInt
  else if forallb isna cells then DObject
  else DFloat.

Section ConstructLabels.
Variable parse_datetime : string -> option (option Z).
Variable str_num : Q -> string.
Variable str_time : Z -> string.

(** [construct_labels(df)].  The scores are computed for every row before
    the column is assigned, so a row that raises aborts the stage. *)
Definition construct_labels (df : DataFrame) : Result DataFrame :=
  let* scores := mapM calculate_engagement_score (rows df) in
  let df1 :=
    mkDF (set_dtype (columns df) "engagement_score" DFloat)
         (zip_with (fun r s => <["engagement_score" := VNum s]> r) (rows df) scores) in
  let df2 :=
    assign df1 "booking_probability" DInt
           (fun r => booked_flag (get r "engagement_score")) in
  let tti := fun r => cell_of_option_Z (calculate_time_to_interaction parse_datetime r) in
  let df3 :=
    assign df2 "time_to_interaction" (inferred_int_dtype (map tti (rows df2))) tti in
  let df4 :=
    assign df3 "interaction_type" DObject (fun r => VStr (get_interaction_type r)) in
  if has_column df4 "recommendation_id" then
    Ok (assign df4 "interaction_id" DObject
               (fun r => VStr (py_str str_num str_time (get r "recommendation_id"))))
  else Raise (KeyError "recommendation_id").
End ConstructLabels.

End LabelConstruction.

(** ** etl/negative_sampling.py *)

Module NegativeSampling.
Import Config.

Section Sampling.
(** [numpy.random.RandomState(42).permutation(n)]: pandas' [sample]
    with [random_state=42] draws without replacement by taking a prefix
    of this permutation of the positions. *)
Variable permutation : nat -> list nat.

(** [frame.sample(n=n, random_state=42)] *)
Definition sample (l : list Row) (n : Z) : Result (list Row) :=
  if (n <? 0)%Z then Raise ValueError
  else Ok (take_rows l (firstn (Z.to_nat n) (permutation (length l)))).

(** [frame.sample(frac=1, random_state=42).reset_index(drop=True)] *)
Definition shuffle (l : list Row) : list Row :=
  take_rows l (permutation (length l)).

(** [add_negative_samples(df, ratio)].  The product [n_positives * ratio]
    is taken exactly; [int] truncates it. *)
Definition add_negative_samples (df : DataFrame) (ratio : Q) : Result DataFrame :=
  let* _ := comparable_column df "engagement_score" in
  let* positives := filterM (fun r => gt_scalar 0 (get r "engagement_score")) (rows df) in
  let n_positives := Z.of_nat (length positives) in
  let negatives := List.filter (fun r => eq_scalar 0 (get r "engagement_score")) (rows df) in
  let n_negatives_available := Z.of_nat (length negatives) in
  let n_target_negatives := Qtrunc (inject_Z n_positives * ratio) in
  let* negatives_sampled :=
    (if (n_target_negatives <? n_negatives_available)%Z
     then sample negatives n_target_negatives
     else Ok negatives) in
  let balanced := positives ++ negatives_sampled in
  Ok (mkDF (columns df) (shuffle balanced)).
End Sampling.

End NegativeSampling.

(** ** etl/data_cleaning.py *)

Module DataCleaning.

(** [df.dropna(subset=[col])] when the column exists. *)
Definition dropna_if_present (df : DataFrame) (col : string) : DataFrame :=
  if has_column df col then select df (fun r => notna (get r col)) else df.

(** [remove_missing_required(df)] *)
Definition remove_missing_required (df : DataFrame) : DataFrame :=
  let required_cols :=
    ["user_id"; "user_climate_pref"; "recommendation_score"; "engagement_score"] in
  foldl dropna_if_present df required_cols.

(** The body of the loop over the numerical columns; [fillna(...,
    inplace=True)] on [df[col]] is taken to update the frame. *)
Definition impute_numeric (df : DataFrame) (col : string) : Result DataFrame :=
  if (0 <? missing_count df col)%nat then
    let* xs := numeric_values (column df col) in
    match median xs with
    | Some median_val => Ok (update df col (fillna (VNum median_val)))
    | None => Ok df
    end
  else Ok df.

(** The body of the loop over the object columns. *)
Definition impute_categorical (df : DataFrame) (col : string) : DataFrame :=
  if (0 <? missing_count df col)%nat then update df col (fillna (VStr "UNKNOWN"))
  else df.

(** [impute_missing_values(df)].  Both column lists are read off the frame
    as it enters the loop that uses them. *)
Definition impute_missing_values (df : DataFrame) : Result DataFrame :=
  let* df1 := foldM impute_numeric df (select_dtypes df [DFloat; DInt]) in
  Ok (foldl impute_categorical df1 (select_dtypes df1 [DObject])).

(** [lower_bound <= x <= upper_bound] with the bounds [mean - 3 * std] and
    [mean + 3 * std].  The standard deviation is the square root of the
    sample variance and is not negative, so the two comparisons hold exactly
    when (x - mean)^2 <= 9 * variance; the test is computed in that form,
    which needs no square root ([three_sigma_bounds] below relates the
    two). *)
Definition within_3_sigma (m var x : Q) : bool :=
  Qle_bool ((x - m) * (x - m)) (9 * var).

(** The row mask of the outlier filter: a null compares false. *)
Definition outlier_mask (m var : Q) (c : Cell) : Result bool :=
  let* v := cmp_value c in
  Ok (match v with Some x => within_3_sigma m var x | None => false end).

(** The body of the loop of [remove_outliers]; [std > 0] is [variance > 0]
    and is false when either is NaN. *)
Definition remove_outliers_col (df : DataFrame) (col : string) : Result DataFrame :=
  if has_column df col then
    let* xs := numeric_values (column df col) in
    match mean xs, variance xs with
    | Some m, Some var =>
        if Qltb 0 var then
          let* kept := filterM (fun r => outlier_mask m var (get r col)) (rows df) in
          Ok (mkDF (columns df) kept)
        else Ok df
    | _, _ => Ok df
    end
  else Ok df.

(** [remove_outliers(df)] *)
Definition remove_outliers (df : DataFrame) : Result DataFrame :=
  let outlier_cols := ["budget_max"; "user_age"; "item_booking_count"] in
  foldM remove_outliers_col df outlier_cols.

Definition is_vector_col (c : string) : bool :=
  contains "_pref" c || contains "_level" c || startswith "user_" c || startswith "item_" c.

(** The body of the loop of [validate_vector_ranges]. *)
Definition clip_vector_col (df : DataFrame) (col : string) : Result DataFrame :=
  if has_column df col && bool_decide (dtype_of df col = Some DFloat) then
    let* n := out_of_range df col in
    if (0 <? n)%nat then Ok (update df col clip01) else Ok df
  else Ok df.

(** [validate_vector_ranges(df)] of the cleaning module. *)
Definition validate_vector_ranges (df : DataFrame) : Result DataFrame :=
  let vector_cols := List.filter is_vector_col (map fst (columns df)) in
  foldM clip_vector_col df vector_cols.

(** [df.drop_duplicates(subset=...)]: the first row of each key is kept;
    [seen] holds the keys met so far. *)
Fixpoint drop_duplicates (key : Row -> list Cell) (seen : list (list Cell)) (l : list Row)
  : list Row :=
  match l with
  | [] => []
  | r :: l' =>
      if existsb (fun k => forallb id (zip_with cell_eqb k (key r))) seen
      then drop_duplicates key seen l'
      else r :: drop_duplicates key (key r :: seen) l'
  end.

(** [remove_duplicates(df)] *)
Definition remove_duplicates (df : DataFrame) : DataFrame :=
  if has_column df "user_id" && has_column df "recommendation_id" then
    mkDF (columns df)
         (drop_duplicates (fun r => [get r "user_id"; get r "recommendation_id"]) [] (rows df))
  else df.

(** [clean_dataset(df)] *)
Definition clean_dataset (df : DataFrame) : Result DataFrame :=
  let df := remove_missing_required df in
  let* df := impute_missing_values df in
  let* df := remove_outliers df in
  let* df := validate_vector_ranges df in
  Ok (remove_duplicates df).

End DataCleaning.

(** ** etl/gdpr_anonymization.py *)

Module Anonymization.
Import Config.

Section Hashing.
(** [hashlib.sha256(s.encode()).hexdigest()] *)
Variable sha256_hexdigest : string -> string.
Variable str_num : Q -> string.
Variable str_time : Z -> string.

(** The lambda applied to every user id. *)
Definition hash_cell (x : Cell) : Cell :=
  VStr (sha256_hexdigest (py_str str_num str_time x)).

(** [hash_user_ids(df)] *)
Definition hash_user_ids (df : DataFrame) : DataFrame :=
  if has_column df "user_id" then
    assign df "user_hash" DObject (fun r => hash_cell (get r "user_id"))
  else df.
End Hashing.

(** [remove_pii(df)] *)
Definition remove_pii (df : DataFrame) : DataFrame :=
  let pii_cols :=
    ["user_id"; "email"; "firstName"; "lastName"; "phoneNumber"; "phone";
     "dateOfBirth"; "avatar"; "recommendation_id"] in
  let columns_to_drop := List.filter (has_column df) pii_cols in
  match columns_to_drop with
  | [] => df
  | _ => drop_columns df columns_to_drop
  end.

(** [Series.map(COUNTRY_TO_REGION).fillna('Other')] on one cell. *)
Definition region_of (c : Cell) : Cell :=
  match c with
  | VStr country =>
      match find (fun kv => String.eqb kv.1 country) COUNTRY_TO_REGION with
      | Some kv => VStr kv.2
      | None => VStr "Other"
      end
  | _ => VStr "Other"
  end.

(** [generalize_nationality(df)] *)
Definition generalize_nationality (df : DataFrame) : DataFrame :=
  if has_column df "user_nationality" then
    drop_columns
      (assign df "user_region" DObject (fun r => region_of (get r "user_nationality")))
      ["user_nationality"]
  else df.

(** The label of the bin (lo, hi] that holds [x], scanning the bin edges
    from the left. *)
Fixpoint bin_label (x lo : Q) (edges : list Q) (labels : list string) : option string :=
  match edges, labels with
  | hi :: edges', l :: labels' =>
      if Qltb lo x && Qle_bool x hi then Some l else bin_label x hi edges' labels'
  | _, _ => None
  end.

(** [pd.cut(x, bins, labels, include_lowest=True)] on one number: the bins
    are open on the left and closed on the right, and the lowest edge
    itself falls in the first bin. *)
Definition cut (bins : list Q) (labels : list string) (x : Q) : option string :=
  match bins, labels with
  | lo :: edges, l :: _ =>
      if Qeq_bool x lo then Some l else bin_label x lo edges labels
  | _, _ => None
  end.

Definition age_group_of (c : Cell) : Result Cell :=
  let* v := cmp_value c in
  Ok (match v with
      | Some x => match cut AGE_BINS AGE_LABELS x with Some l => VStr l | None => VNull end
      | None => VNull
      end).

(** [bin_age(df)] *)
Definition bin_age (df : DataFrame) : Result DataFrame :=
  if has_column df "user_age" then
    let* groups := mapM age_group_of (column df "user_age") in
    Ok (drop_columns
          (mkDF (set_dtype (columns df) "user_age_group" DCategory)
                (zip_with (fun r g => <["user_age_group" := g]> r) (rows df) groups))
          ["user_age"])
  else Ok df.

(** [df[col].value_counts()[x]]: how often the value occurs in the column. *)
Definition value_count (cells : list Cell) (x : Cell) : nat :=
  length (List.filter (cell_eqb x) cells).

(** [x in rare_values]: [value_counts] leaves nulls out, so a null is never
    rare. *)
Definition is_rare (threshold : nat) (cells : list Cell) (x : Cell) : bool :=
  notna x && (value_count cells x <? threshold)%nat.

(** The body of the loop of [remove_rare_categories]. *)
Definition generalize_rare (threshold : nat) (df : DataFrame) (col : string) : DataFrame :=
  let cells := column df col in
  if existsb (is_rare threshold cells) cells then
    update df col (fun x => if is_rare threshold cells x then VStr "OTHER" else x)
  else df.

(** [remove_rare_categories(df, threshold)]: the object columns are listed
    once, before the loop. *)
Definition remove_rare_categories (df : DataFrame) (threshold : nat) : DataFrame :=
  let cat_cols := select_dtypes df [DObject] in
  foldl (generalize_rare threshold) df cat_cols.

Section Anonymize.
Variable sha256_hexdigest : string -> string.
Variable str_num : Q -> string.
Variable str_time : Z -> string.

(** [anonymize_dataset(df)] *)
Definition anonymize_dataset (df : DataFrame) : Result DataFrame :=
  let df := hash_user_ids sha256_hexdigest str_num str_time df in
  let df := generalize_nationality df in
  let* df := bin_age df in
  let df := remove_rare_categories df 10 in
  Ok (remove_pii df).
End Anonymize.

End Anonymization.

(** ** utils/validators.py *)

Module Validators.
Import Config.

(** [validate_required_columns(df)] *)
Definition validate_required_columns (df : DataFrame) : Result bool :=
  let missing_cols := List.filter (fun c => negb (has_column df c)) REQUIRED_COLUMNS in
  match missing_cols with
  | _ :: _ => Raise ValueError
  | [] =>
      let* _ := foldM (fun _ col =>
                  if (0 <? missing_count df col)%nat
                  then Raise ValueError else Ok tt) tt REQUIRED_COLUMNS in
      Ok true
  end.

Definition is_range_col (c : string) : bool :=
  endswith "_pref" c || endswith "_level" c || endswith "_type" c.

(** The body of the loop of [validate_vector_ranges]: the comparison is
    made whatever the dtype of the column. *)
Definition clip_range_col (df : DataFrame) (col : string) : Result DataFrame :=
  if has_column df col then
    let* n := out_of_range df col in
    if (0 <? n)%nat then Ok (update df col clip01) else Ok df
  else Ok df.

(** [validate_vector_ranges(df)]: returns True and leaves the clipped
    frame behind; the frame is the result here. *)
Definition validate_vector_ranges (df : DataFrame) : Result DataFrame :=
  let vector_cols := List.filter is_range_col (map fst (columns df)) in
  foldM clip_range_col df vector_cols.

(** [Series.isin(values)] on one cell. *)
Definition isin (values : list Q) (c : Cell) : bool :=
  existsb (fun v => eq_scalar v c) values.

(** [validate_engagement_scores(df)] *)
Definition validate_engagement_scores (df : DataFrame) : Result bool :=
  if has_column df "engagement_score" then
    let valid_scores := [-1; 0; 1; 3; 5]%Q in
    if forallb (isin valid_scores) (column df "engagement_score") then Ok true
    else Raise ValueError
  else Ok true.

(** [validate_booking_probability(df)] *)
Definition validate_booking_probability (df : DataFrame) : Result bool :=
  if has_column df "booking_probability" then
    if forallb (isin [0; 1]%Q) (column df "booking_probability") then Ok true
    else Raise ValueError
  else Ok true.

(** [validate_dataset(df)]; the frame that comes back is [df] as the range
    check left it. *)
Definition validate_dataset (df : DataFrame) : Result DataFrame :=
  let* _ := validate_required_columns df in
  let* df := validate_vector_ranges df in
  let* _ := validate_engagement_scores df in
  let* _ := validate_booking_probability df in
  Ok df.

End Validators.

(** ** etl/export_dataset.py and step 10 of scripts/run_etl.py *)

Module ExportDataset.
Import Config.

(** The files written so far, oldest first.  What a file holds plays no
    part below; which files exist does. *)
Definition Store : Type := list string.

(** A step that may write files and may raise; what was written before an
    exception stays written. *)
Definition IO (A : Type) : Type := Store -> Result A * Store.

Definition io_ret {A : Type} (a : A) : IO A := fun st => (Ok a, st).

Definition io_bind {A B : Type} (m : IO A) (f : A -> IO B) : IO B :=
  fun st =>
    match m st with
    | (Ok a, st') => f a st'
    | (Raise e, st') => (Raise e, st')
    end.

Definition io_lift {A : Type} (m : Result A) : IO A := fun st => (m, st).

(** [to_parquet], [to_csv], [json.dump] into an opened file, [savefig]. *)
Definition write_file (path : string) : IO unit := fun st => (Ok tt, st ++ [path]).

Notation "'do*' x ':=' m 'in' k" := (io_bind m (fun x => k))
  (at level 10, x name, m at level 100, k at level 200).

Definition output_dir (version : string) : string := "data/datasets/v" +:+ version.
Definition train_path (version : string) : string :=
  output_dir version +:+ "/train_v" +:+ version +:+ ".parquet".
Definition test_path (version : string) : string :=
  output_dir version +:+ "/test_v" +:+ version +:+ ".parquet".
Definition sample_csv_path (version : string) : string :=
  output_dir version +:+ "/train_sample.csv".
Definition metadata_path (version : string) : string :=
  output_dir version +:+ "/metadata_v" +:+ version +:+ ".json".
Definition plot_path (version : string) : string :=
  output_dir version +:+ "/distributions.png".
Definition report_path (version : string) : string :=
  output_dir version +:+ "/quality_report_v" +:+ version +:+ ".html".

(** [df[col]] where the column must exist. *)
Definition require_column (df : DataFrame) (col : string) : Result unit :=
  if has_column df col then Ok tt else Raise (KeyError col).

(** [float(df[col].mean())] *)
Definition column_mean (df : DataFrame) (col : string) : Result (option Q) :=
  let* _ := require_column df col in
  let* xs := numeric_values (column df col) in
  Ok (mean xs).

(** The entries of the metadata document that depend on the data. *)
Record Metadata : Type := mkMetadata {
  md_version : string;
  md_train_rows : nat;
  md_test_rows : nat;
  md_total_rows : nat;
  md_num_features : nat;
  md_feature_names : list string;
  md_booking_rate : option Q
}.

Section Steps.
(** sklearn's [train_test_split(df, test_size=..., stratify=..., 
    random_state=RANDOM_SEED)]. *)
Variable train_test_split : DataFrame -> Q -> Result (DataFrame * DataFrame).

(** [split_and_export(df, version, test_size)]; the percentages in the
    two log lines divide by [len(df)]. *)
Definition split_and_export (df : DataFrame) (version : string) (test_size : Q)
  : IO (DataFrame * DataFrame) :=
  do* _ := io_lift (require_column df "engagement_score") in
  do* parts := io_lift (train_test_split df test_size) in
  do* _ := io_lift (if (length (rows df) =? 0)%nat then Raise ZeroDivisionError else Ok tt) in
  do* _ := write_file (train_path version) in
  do* _ := write_file (test_path version) in
  do* _ := write_file (sample_csv_path version) in
  io_ret parts.

(** [generate_metadata(train_df, test_df, version)] *)
Definition generate_metadata (train_df test_df : DataFrame) (version : string)
  : IO Metadata :=
  do* _ := io_lift (require_column train_df "engagement_score") in
  do* booking_rate := io_lift (column_mean train_df "booking_probability") in
  let metadata :=
    mkMetadata version (length (rows train_df)) (length (rows test_df))
               (length (rows train_df) + length (rows test_df))
               (length (columns train_df)) (map fst (columns train_df))
               booking_rate in
  do* _ := write_file (metadata_path version) in
  io_ret metadata.

(** [generate_quality_report(train_df, test_df, version)]: the statistics
    divide by the total row count, then the plots and the report are
    written. *)
Definition generate_quality_report (train_df test_df : DataFrame) (version : string)
  : IO unit :=
  do* _ := io_lift (if (length (rows train_df) + length (rows test_df) =? 0)%nat
                    then Raise ZeroDivisionError else Ok tt) in
  do* _ := io_lift (require_column train_df "engagement_score") in
  do* _ := io_lift (column_mean train_df "booking_probability") in
  do* _ := write_file (plot_path version) in
  write_file (report_path version).

(** Step 10 of [run_etl_pipeline(version, window_days)], from the frame
    that step 9 produced to the returned metadata.  [validate_dataset]
    clips in place, so the later steps see the clipped partitions. *)
Definition run_etl_pipeline_step10 (final_df : DataFrame) (version : string)
  : IO Metadata :=
  do* parts := split_and_export final_df version TEST_SIZE in
  do* train_df := io_lift (Validators.validate_dataset parts.1) in
  do* test_df := io_lift (Validators.validate_dataset parts.2) in
  do* metadata := generate_metadata train_df test_df version in
  do* _ := generate_quality_report train_df test_df version in
  io_ret metadata.
End Steps.


End ExportDataset.

(** ** What the specification says, stated next to the code *)

Module Spec.
Import Config.

(** The timestamp column that records a stage. *)
Definition event_column (s : Stage) : string :=
  match s with
  | BOOKED => "bookedAt"
  | CLICKED => "clickedAt"
  | VIEWED => "viewedAt"
  | REJECTED => "rejectedAt"
  | NOT_VIEWED => ""
  end.

(** "A non-null event timestamp for a stage OR an equal status string is
    sufficient to select that stage." *)
Definition selects (row : Row) (s : Stage) : Prop :=
  get row (event_column s) <> VNull \/ row !! "status" = Some (VStr (stage_name s)).

(** "booked > clicked > viewed > rejected > none of the above" *)
Definition precedence : list Stage := [BOOKED; CLICKED; VIEWED; REJECTED].

(** The stage chosen by walking an order and stopping at the first stage
    that is selected; NOT_VIEWED when the walk reaches the end. *)
Inductive chosen (row : Row) : list Stage -> Stage -> Prop :=
  | chosen_none : chosen row [] NOT_VIEWED
  | chosen_first s l : selects row s -> chosen row (s :: l) s
  | chosen_next s l s' : ~ selects row s -> chosen row l s' -> chosen row (s :: l) s'.



(** The two partitions of Negative Sampling: [engagement_score > 0] and
    [engagement_score == 0]. *)
Definition is_positive (r : Row) : bool :=
  match gt_scalar 0 (get r "engagement_score") with Ok b => b | Raise _ => false end.
Definition is_negative (r : Row) : bool := eq_scalar 0 (get r "engagement_score").
Definition is_rejected (r : Row) : bool := eq_scalar (-1) (get r "engagement_score").

Definition positive_rows (df : DataFrame) : list Row := List.filter is_positive (rows df).
Definition negative_rows (df : DataFrame) : list Row := List.filter is_negative (rows df).


(** "booking_probability == 1 iff engagement_score == 5.0, and
    booking_probability is otherwise 0", for one row. *)
Definition label_consistent (r : Row) : Prop :=
  exists s b : Q,
    r !! "engagement_score" = Some (VNum s) /\
    r !! "booking_probability" = Some (VNum b) /\
    (b = 1%Q \/ b = 0%Q) /\
    (b = 1%Q <-> (s == 5)%Q).


End Spec.

(** ** Auxiliary definitions for the statements *)

Section LabelledRow.
Import LabelConstruction.
Variable parse_datetime : string -> option (option Z).
Variable str_num : Q -> string.
Variable str_time : Z -> string.

(** The row that [construct_labels] leaves for an input row and its score. *)
Definition labelled_row (r : Row) (s : Q) : Row :=
  let r1 := <["engagement_score" := VNum s]> r in
  let r2 := <["booking_probability" := booked_flag (get r1 "engagement_score")]> r1 in
  let r3 := <["time_to_interaction" :=
                cell_of_option_Z (calculate_time_to_interaction parse_datetime r2)]> r2 in
  let r4 := <["interaction_type" := VStr (get_interaction_type r3)]> r3 in
  <["interaction_id" := VStr (py_str str_num str_time (get r4 "recommendation_id"))]> r4.

End LabelledRow.

(** No column of that name has the object dtype. *)
Definition not_object (cols : list (string * Dtype)) (name : string) : Prop :=
  forall d, (name, d) ∈ cols -> d <> DObject.

(** The invariant carried from Label Construction to the split: the two
    label columns are not object columns and every row is consistent. *)
Definition labels_ok (df : DataFrame) : Prop :=
  not_object (columns df) "engagement_score" /\
  not_object (columns df) "booking_probability" /\
  Forall Spec.label_consistent (rows df).

(** Every row satisfies a condition on what it holds in one column. *)
Definition cells_at (col : string) (cond : option Cell -> Prop) (l : list Row) : Prop :=
  Forall (fun r => cond (r !! col)) l.

(** Conditions on one cell of a row; a missing entry reads as null. *)
Definition is_notna (o : option Cell) : Prop := default VNull o <> VNull.
Definition is_null (o : option Cell) : Prop := default VNull o = VNull.
Definition is_filled (o : option Cell) : Prop :=
  is_Ok (cmp_value (default VNull o)) /\ o <> Some VNull.
Definition not_explicit_null (o : option Cell) : Prop := o <> Some VNull.
Definition is_in_range (o : option Cell) : Prop :=
  out_of_range_cell (default VNull o) = Ok false.

(** What imputation leaves in a numerical column: no null at all, or numbers
    with the explicit nulls filled, or nothing but nulls (the median of
    nothing is NaN). *)
Definition imputed (col : string) (l : list Row) : Prop :=
  cells_at col is_notna l \/ cells_at col is_filled l \/ cells_at col is_null l.

(** The range check of the cleaning stage has nothing to clip in a column:
    when the column is a float column of the frame, its cells are in [0,1]
    or null. *)
Definition range_checked (c : string) (df : DataFrame) : Prop :=
  has_column df c && bool_decide (dtype_of df c = Some DFloat) = true ->
  cells_at c is_in_range (rows df).

(** The state in which the cleaning stage leaves a frame. *)
Record cleaned_state (df : DataFrame) : Prop := mk_cleaned_state {
  cs_required :
    forall col, col ∈ ["user_id"; "user_climate_pref"; "recommendation_score";
                       "engagement_score"] ->
                has_column df col = true -> cells_at col is_notna (rows df);
  cs_numeric :
    forall col, col ∈ select_dtypes df [DFloat; DInt] -> imputed col (rows df);
  cs_object :
    forall col, col ∈ select_dtypes df [DObject] ->
                cells_at col not_explicit_null (rows df);
  cs_range :
    forall col, DataCleaning.is_vector_col col = true -> range_checked col df;
  cs_unique : DataCleaning.remove_duplicates df = df
}.

(** Stand-ins for the library parameters, to run the model on examples. *)
Module Samples.

Fixpoint digits_value (acc : Z) (s : string) : option Z :=
  match s with
  | EmptyString => Some acc
  | String c s' =>
      let n := Z.of_N (Ascii.N_of_ascii c) - 48 in
      if (0 <=? n) && (n <=? 9) then digits_value (10 * acc + n) s' else None
  end.

(** Reads a non-empty string of decimal digits as seconds since the epoch,
    the string NaT as NaT, and nothing else. *)
Definition parse_datetime (s : string) : option (option Z) :=
  if String.eqb s "NaT" then Some None
  else if String.eqb s "" then None
  else match digits_value 0 s with
       | Some secs => Some (Some (secs * 1000000000))
       | None => None
       end.

Definition str_num (q : Q) : string :=
  if Qeq_bool q 0 then "0" else if Qeq_bool q 1 then "1" else "n".
Definition str_time (t : Z) : string := "t".

(** Keeps distinct strings distinct, as a digest does in practice. *)
Definition sha256_hexdigest (s : string) : string := "h:" +:+ s.

(** The identity permutation. *)
Definition permutation (n : nat) : list nat := seq 0 n.

(** The first ceil(test_size * n) rows are the test partition, the others
    the train partition. *)
Definition train_test_split (df : DataFrame) (test_size : Q)
  : Result (DataFrame * DataFrame) :=
  let n_test := Z.to_nat (Qceiling (test_size * inject_Z (Z.of_nat (length (rows df))))) in
  Ok (mkDF (columns df) (drop n_test (rows df)), mkDF (columns df) (take n_test (rows df))).

(** The three interactions of the end-to-end scenario: one booked, one
    viewed only, one without timestamps and with status GENERATED. *)
Definition booked_row : Row :=
  {[ "recommendation_id" := VStr "r1"; "user_id" := VStr "u1";
     "status" := VStr "BOOKED"; "viewedAt" := VStr "1010";
     "clickedAt" := VStr "1020"; "bookedAt" := VStr "1100";
     "rejectedAt" := VNull; "createdAt" := VStr "1000" ]}.

Definition viewed_row : Row :=
  {[ "recommendation_id" := VStr "r2"; "user_id" := VStr "u2";
     "status" := VStr "VIEWED"; "viewedAt" := VStr "2005";
     "clickedAt" := VNull; "bookedAt" := VNull;
     "rejectedAt" := VNull; "createdAt" := VStr "2000" ]}.

Definition generated_row : Row :=
  {[ "recommendation_id" := VStr "r3"; "user_id" := VStr "u1";
     "status" := VStr "GENERATED"; "viewedAt" := VNull;
     "clickedAt" := VNull; "bookedAt" := VNull;
     "rejectedAt" := VNull; "createdAt" := VStr "3000" ]}.

Definition interactions : DataFrame :=
  mkDF [("recommendation_id", DObject); ("user_id", DObject); ("status", DObject);
        ("viewedAt", DObject); ("clickedAt", DObject); ("bookedAt", DObject);
        ("rejectedAt", DObject); ("createdAt", DObject)]
       [booked_row; viewed_row; generated_row].

Definition scored (id : string) (score : Q) : Row :=
  {[ "recommendation_id" := VStr id; "engagement_score" := VNum score ]}.

(** One viewed row, one rejected row and five rows that were not viewed. *)
Definition one_positive_five_negatives : DataFrame :=
  mkDF [("recommendation_id", DObject); ("engagement_score", DFloat)]
       [ scored "a" 1; scored "b" 0; scored "c" 0; scored "d" (-1);
         scored "e" 0; scored "f" 0; scored "g" 0 ].

(** A frame whose creation timestamp cannot be parsed. *)
Definition unparseable_created : DataFrame :=
  mkDF [("createdAt", DObject)] [ {[ "createdAt" := VStr "not a date" ]} ].

(** A frame whose birth date and departure date cannot be parsed. *)
Definition unparseable_others : DataFrame :=
  mkDF [("createdAt", DObject); ("dateOfBirth", DObject); ("departureDate", DObject)]
       [ {[ "createdAt" := VStr "1000"; "dateOfBirth" := VStr "unknown";
            "departureDate" := VStr "soon" ]} ].

(** A frame with one string column whose name ends in _type. *)
Definition typed_interactions : DataFrame :=
  mkDF [("user_climate_pref", DFloat); ("interaction_type", DObject)]
       [ {[ "user_climate_pref" := VNum (3 # 2); "interaction_type" := VStr "BOOKED" ]} ].



(** Two interactions of two different users. *)
Definition two_users : DataFrame :=
  mkDF [("user_id", DObject); ("recommendation_id", DObject)]
       [ {[ "user_id" := VStr "u1"; "recommendation_id" := VStr "r1" ]};
         {[ "user_id" := VStr "u2"; "recommendation_id" := VStr "r2" ]} ].

(** The frame of a computation that is known to return. *)
Definition value (m : Result DataFrame) : DataFrame :=
  match m with Ok d => d | Raise _ => mkDF [] [] end.

Definition value_pair (m : Result (DataFrame * DataFrame)) : DataFrame * DataFrame :=
  match m with Ok p => p | Raise _ => (mkDF [] [], mkDF [] []) end.

Definition labeled : DataFrame :=
  value (LabelConstruction.construct_labels parse_datetime str_num str_time interactions).



(** The sample interactions carried through stages 6 to 10. *)
Definition balanced : DataFrame :=
  value (NegativeSampling.add_negative_samples permutation labeled 2).
Definition cleaned : DataFrame := value (DataCleaning.clean_dataset balanced).
Definition final : DataFrame :=
  value (Anonymization.anonymize_dataset sha256_hexdigest str_num str_time cleaned).
Definition partitions : DataFrame * DataFrame :=
  value_pair (train_test_split final Config.TEST_SIZE).
Definition exported : list string :=
  [ExportDataset.train_path "1.0"; ExportDataset.test_path "1.0";
   ExportDataset.sample_csv_path "1.0"].

End Samples.

(** ** Auxiliary definitions for the further properties *)

(** The columns that [construct_labels] writes. *)
Definition label_columns : list string :=
  ["engagement_score"; "booking_probability"; "time_to_interaction";
   "interaction_type"; "interaction_id"].

(** Row by row, the cell that [l'] has in column [c] is [g] of the cell that
    [l] has there; a row without the column stays without it. *)
Definition cells_mapped (c : string) (g : Cell -> Cell) (l l' : list Row) : Prop :=
  Forall2 (fun r r' => r' !! c = g <$> (r !! c)) l l'.

(** The median of the numbers of a column as a cell; null when the column
    holds no number. *)
Definition median_fill (cells : list Cell) : Cell :=
  match numeric_values cells with
  | Ok xs => match median xs with Some m => VNum m | None => VNull end
  | Raise _ => VNull
  end.

(** What imputation writes into the null cells of a column: the median of
    a numerical column, UNKNOWN in an object column, nothing elsewhere. *)
Definition fill_value (df : DataFrame) (c : string) : Cell :=
  match dtype_of df c with
  | Some DFloat | Some DInt => median_fill (column df c)
  | Some DObject => VStr "UNKNOWN"
  | _ => VNull
  end.

(** The columns that the range check of the cleaning stage clips: float
    columns with a vector-like name. *)
Definition clipped_column (df : DataFrame) (c : string) : bool :=
  DataCleaning.is_vector_col c && bool_decide (dtype_of df c = Some DFloat).

(** Two rows have the same (user_id, recommendation_id) key. *)
Definition same_key (r r' : Row) : bool :=
  cell_eqb (get r "user_id") (get r' "user_id")
  && cell_eqb (get r "recommendation_id") (get r' "recommendation_id").

(** A cell of a checked column: null, a boolean, or a number in [0, 1]. *)
Definition in_unit_range (c : Cell) : Prop :=
  match c with
  | VNum q => (0 <= q)%Q /\ (q <= 1)%Q
  | VStr _ | VTime _ => False
  | VNull | VBool _ => True
  end.


(** More frames to run the model on. *)
Module MoreSamples.

(** Three interactions, the third with the key of the first; a missing
    budget and a missing segment; preferences outside [0, 1]. *)
Definition gaps : DataFrame :=
  mkDF [("user_id", DObject); ("recommendation_id", DObject); ("budget_max", DFloat);
        ("user_climate_pref", DFloat); ("segment", DObject)]
       [ {[ "user_id" := VStr "u1"; "recommendation_id" := VStr "r1";
            "budget_max" := VNum 1; "user_climate_pref" := VNum (3 # 2);
            "segment" := VStr "a" ]};
         {[ "user_id" := VStr "u2"; "recommendation_id" := VStr "r2";
            "budget_max" := VNull; "user_climate_pref" := VNum (1 # 2);
            "segment" := VNull ]};
         {[ "user_id" := VStr "u1"; "recommendation_id" := VStr "r1";
            "budget_max" := VNum 3; "user_climate_pref" := VNum (-1);
            "segment" := VStr "b" ]} ].


(** Ten interactions of one user and one interaction of another. *)
Definition ten_visits : DataFrame :=
  mkDF [("user_id", DObject); ("user_nationality", DObject); ("user_age", DInt)]
       (replicate 10 ({[ "user_id" := VStr "u1"; "user_nationality" := VStr "FR";
                         "user_age" := VNum 30 ]} : Row)
        ++ [ {[ "user_id" := VStr "u2"; "user_nationality" := VStr "XX";
                "user_age" := VNum 70 ]} ]).

(** A budget column read as strings. *)
Definition unreadable_budget : DataFrame :=
  mkDF [("budget_max", DObject)]
       [ {[ "budget_max" := VStr "100" ]}; {[ "budget_max" := VStr "n/a" ]} ].

End MoreSamples.

(** Every value of a column is null, the placeholder OTHER, or occurs at
    least [k] times in the column. *)
Definition k_anonymous (k : nat) (cells : list Cell) : Prop :=
  Forall (fun y => y = VNull \/ y = VStr "OTHER" \/
                   (k <= Anonymization.value_count cells y)%nat) cells.

(** The columns that Anonymization takes out of the frame: the identifying
    columns, and the nationality and the age that it generalizes. *)
Definition sensitive_columns : list string :=
  ["user_id"; "email"; "firstName"; "lastName"; "phoneNumber"; "phone";
   "dateOfBirth"; "avatar"; "recommendation_id"; "user_nationality"; "user_age"].

(** Every cell of every row belongs to a column of the index. *)
Definition rows_within (df : DataFrame) : Prop :=
  Forall (fun r : Row => forall c, is_Some (r !! c) -> has_column df c = true) (rows df).

(** The names that [generalize_nationality] can write into user_region. *)
Definition regions : list string :=
  ["Europe"; "North America"; "Asia"; "Middle East"; "Oceania"; "South America";
   "Africa"; "Other"].

(** A cell of a clipped column of whole numbers: null, or a number between
    the two bounds. *)
Definition null_or_between (lo hi : Q) (c : Cell) : Prop :=
  match c with
  | VNull => True
  | VNum q => (lo <= q)%Q /\ (q <= hi)%Q
  | _ => False
  end.

(** A number that is one of the listed values. *)
Definition one_of (values : list Q) (c : Cell) : Prop :=
  exists q, cmp_value c = Ok (Some q) /\ Exists (fun v => (q == v)%Q) values.

(** The frame has the column and every row holds a string in it. *)
Definition string_column (df : DataFrame) (c : string) : Prop :=
  has_column df c = true /\
  cells_at c (fun o => exists s, o = Some (VStr s)) (rows df).

(** * Properties *)

(** ** Results, loops *)

Lemma bind_Ok {A B : Type} (m : Result A) (f : A -> Result B) (b : B) :
  bind m f = Ok b -> exists a, m = Ok a /\ f a = Ok b.
Proof. destruct m as [a|e]; simpl; [eauto | discriminate]. Qed.

Ltac inv_bind H :=
  let a := fresh "a" in
  let Ha := fresh "Ha" in
  apply bind_Ok in H; destruct H as (a & Ha & H).

Tactic Notation "bind_inv" hyp(H) "as" ident(a) ident(Ha) :=
  apply bind_Ok in H; destruct H as (a & Ha & H).

Lemma mapM_lookup {A B : Type} (f : A -> Result B) (l : list A) (ys : list B) :
  mapM f l = Ok ys ->
  forall (i : nat) (x : A), l !! i = Some x -> exists y, ys !! i = Some y /\ f x = Ok y.
Proof.
  revert ys. induction l as [|x0 l IH]; intros ys H i x Hi; [done|].
  simpl in H. inv_bind H. inv_bind H. injection H as <-.
  destruct i as [|i]; simpl in *.
  - injection Hi as <-. eauto.
  - eapply IH; eauto.
Qed.

Lemma mapM_length {A B : Type} (f : A -> Result B) (l : list A) (ys : list B) :
  mapM f l = Ok ys -> length ys = length l.
Proof.
  revert ys. induction l as [|x0 l IH]; intros ys H; simpl in H.
  - by injection H as <-.
  - inv_bind H. inv_bind H. injection H as <-. simpl. f_equal. eauto.
Qed.


(** ** Label construction *)

Section LabelFacts.
Import Config LabelConstruction Spec.

Lemma notna_true (c : Cell) : notna c = true <-> c <> VNull.
Proof. destruct c; cbn; split; intros H; try done; by destruct H. Qed.

Lemma notna_false (c : Cell) : notna c = false <-> c = VNull.
Proof. destruct c; cbn; split; intros H; done. Qed.

Lemma status_is_spec (status : Cell) (name : string) :
  status_is status name = true <-> status = VStr name.
Proof.
  destruct status; simpl; split; try congruence.
  - intros H. apply String.eqb_eq in H. by subst.
  - intros [= ->]. apply String.eqb_refl.
Qed.

(** A stage is tested by the code exactly when the specification selects it. *)
Lemma hit_selects (row : Row) (status : Cell) (s : Stage) :
  row !! "status" = Some status ->
  notna (get row (event_column s)) || status_is status (stage_name s) = true
  <-> selects row s.
Proof.
  intros Hst. unfold selects. rewrite orb_true_iff, notna_true, status_is_spec, Hst.
  split; (intros [H|H]; [left; done | right; congruence]).
Qed.

Lemma calculate_engagement_score_chosen (row : Row) (status : Cell) :
  row !! "status" = Some status ->
  exists s, chosen row precedence s /\
            calculate_engagement_score row = Ok (ENGAGEMENT_SCORES s).
Proof.
  intros Hst. unfold calculate_engagement_score, precedence. rewrite Hst.
  pose proof (hit_selects row status BOOKED Hst) as Hb.
  pose proof (hit_selects row status CLICKED Hst) as Hc.
  pose proof (hit_selects row status VIEWED Hst) as Hv.
  pose proof (hit_selects row status REJECTED Hst) as Hr.
  simpl in Hb, Hc, Hv, Hr.
  destruct (notna (get row "bookedAt") || status_is status "BOOKED") eqn:Eb.
  { exists BOOKED. split; [apply chosen_first; tauto | done]. }
  destruct (notna (get row "clickedAt") || status_is status "CLICKED") eqn:Ec.
  { exists CLICKED. split; [|done].
    apply chosen_next; [intros ?; apply Hb in H; done|]. apply chosen_first; tauto. }
  destruct (notna (get row "viewedAt") || status_is status "VIEWED") eqn:Ev.
  { exists VIEWED. split; [|done].
    do 2 (apply chosen_next; [intros H; first [apply Hb in H | apply Hc in H]; done|]).
    apply chosen_first; tauto. }
  destruct (notna (get row "rejectedAt") || status_is status "REJECTED") eqn:Er.
  { exists REJECTED. split; [|done].
    do 3 (apply chosen_next;
          [intros H; first [apply Hb in H; done | apply Hc in H; done | apply Hv in H; done]|]).
    apply chosen_first; tauto. }
  exists NOT_VIEWED. split; [|done].
  do 4 (apply chosen_next;
        [intros H; first [apply Hb in H; done | apply Hc in H; done
                         | apply Hv in H; done | apply Hr in H; done]|]).
  apply chosen_none.
Qed.

End LabelFacts.

Section ConstructLabelsFacts.
Import Config LabelConstruction Spec.
Variable parse_datetime : string -> option (option Z).
Variable str_num : Q -> string.
Variable str_time : Z -> string.

Lemma map_zip_with {A B C D : Type} (f : C -> D) (g : A -> B -> C) (l : list A) (k : list B) :
  map f (zip_with g l k) = zip_with (fun x y => f (g x y)) l k.
Proof.
  revert k. induction l as [|x l IH]; intros [|y k]; simpl; [done..|]. by rewrite IH.
Qed.

Lemma construct_labels_rows (df out : DataFrame) :
  construct_labels parse_datetime str_num str_time df = Ok out ->
  exists scores,
    mapM calculate_engagement_score (rows df) = Ok scores /\
    rows out = zip_with (labelled_row parse_datetime str_num str_time) (rows df) scores.
Proof.
  unfold construct_labels. intros H. inv_bind H. rename a into scores.
  exists scores. split; [done|].
  match type of H with (if ?b then _ else _) = _ => destruct b end; [|discriminate].
  injection H as <-. unfold assign. simpl.
  by rewrite !map_zip_with.
Qed.

Lemma construct_labels_row (df out : DataFrame) (i : nat) (r : Row) :
  construct_labels parse_datetime str_num str_time df = Ok out ->
  rows df !! i = Some r ->
  exists s, calculate_engagement_score r = Ok s /\
            rows out !! i = Some (labelled_row parse_datetime str_num str_time r s).
Proof.
  intros H Hi. apply construct_labels_rows in H as (scores & Hs & ->).
  destruct (mapM_lookup _ _ _ Hs i r Hi) as (s & Hsi & Hrs).
  exists s. split; [done|]. rewrite lookup_zip_with, Hi. simpl. by rewrite Hsi.
Qed.

Lemma labelled_row_score (r : Row) (s : Q) :
  labelled_row parse_datetime str_num str_time r s !! "engagement_score" = Some (VNum s).
Proof. unfold labelled_row. by simplify_map_eq. Qed.

Lemma labelled_row_booking (r : Row) (s : Q) :
  labelled_row parse_datetime str_num str_time r s !! "booking_probability" = Some (booked_flag (VNum s)).
Proof. unfold labelled_row, get. by simplify_map_eq. Qed.

End ConstructLabelsFacts.

(** C1: for every input row of Label Construction (a row of a frame that has
    the status column), the engagement_score written for that row is the
    score of the stage chosen by walking booked, clicked, viewed, rejected in
    that order and stopping at the first stage that a non-null event
    timestamp or an equal status string selects; it is the score of
    NOT_VIEWED when none is selected.  The scores are 5, 3, 1, -1 and 0. *)
Theorem engagement_score_precedence
    (parse_datetime : string -> option (option Z))
    (str_num : Q -> string) (str_time : Z -> string)
    (df out : DataFrame) (i : nat) (row : Row) :
  LabelConstruction.construct_labels parse_datetime str_num str_time df = Ok out ->
  rows df !! i = Some row ->
  exists (row' : Row) (s : Config.Stage),
    rows out !! i = Some row' /\
    Spec.chosen row Spec.precedence s /\
    LabelConstruction.calculate_engagement_score row = Ok (Config.ENGAGEMENT_SCORES s) /\
    row' !! "engagement_score" = Some (VNum (Config.ENGAGEMENT_SCORES s)) /\
    map Config.ENGAGEMENT_SCORES (Spec.precedence ++ [Config.NOT_VIEWED])
      = [5; 3; 1; -1; 0]%Q.
Proof.
  intros H Hi.
  destruct (construct_labels_row _ _ _ _ _ _ _ H Hi) as (s & Hs & Hout).
  assert (exists status, row !! "status" = Some status) as [status Hst].
  { unfold LabelConstruction.calculate_engagement_score in Hs.
    destruct (row !! "status"); [eauto | discriminate]. }
  destruct (calculate_engagement_score_chosen row status Hst) as (st & Hch & Hsc).
  exists (labelled_row parse_datetime str_num str_time row s), st.
  rewrite Hsc in Hs. injection Hs as <-.
  repeat split; try done. apply labelled_row_score.
Qed.

Lemma engagement_score_precedence_witness :
  exists (row' : Row) (s : Config.Stage),
    rows Samples.labeled !! 1%nat = Some row' /\
    Spec.chosen Samples.viewed_row Spec.precedence s /\
    LabelConstruction.calculate_engagement_score Samples.viewed_row
      = Ok (Config.ENGAGEMENT_SCORES s) /\
    row' !! "engagement_score" = Some (VNum (Config.ENGAGEMENT_SCORES s)) /\
    map Config.ENGAGEMENT_SCORES (Spec.precedence ++ [Config.NOT_VIEWED])
      = [5; 3; 1; -1; 0]%Q.
Proof.
  apply (engagement_score_precedence Samples.parse_datetime Samples.str_num Samples.str_time
           Samples.interactions Samples.labeled 1 Samples.viewed_row).
  - vm_compute. reflexivity.
  - reflexivity.
Defined.

(** ** Time to interaction *)




(** ** Negative sampling *)

Lemma filterM_Ok {A : Type} (p : A -> Result bool) (l l' : list A) :
  filterM p l = Ok l' ->
  l' = List.filter (fun x => match p x with Ok b => b | Raise _ => false end) l.
Proof.
  revert l'. induction l as [|x l IH]; intros l' H; simpl in H.
  - by injection H as <-.
  - inv_bind H. inv_bind H. injection H as <-. simpl. rewrite Ha.
    rewrite <- (IH _ Ha0). by destruct a.
Qed.



Lemma filter_all {A : Type} (f : A -> bool) (l : list A) :
  (forall x, x ∈ l -> f x = true) -> List.filter f l = l.
Proof.
  induction l as [|x l IH]; intros H; simpl; [done|].
  rewrite (H x) by left. f_equal. apply IH. intros; apply H; by right.
Qed.


Lemma elem_of_filter_bool {A : Type} (f : A -> bool) (l : list A) (x : A) :
  x ∈ List.filter f l <-> x ∈ l /\ f x = true.
Proof. rewrite !list_elem_of_In. apply filter_In. Qed.

(** Taking the rows at every position once, in any order, permutes them. *)
Lemma take_rows_seq {A : Type} (l : list A) (k : list A) :
  take_rows (k ++ l) (seq (length k) (length l)) = l.
Proof.
  revert k. induction l as [|x l IH]; intros k; simpl; [done|].
  unfold take_rows in *. simpl.
  rewrite lookup_app_r, Nat.sub_diag by lia. simpl. f_equal.
  specialize (IH (k ++ [x])). rewrite length_app, <- app_assoc in IH. simpl in IH.
  by rewrite Nat.add_1_r in IH.
Qed.

Lemma take_rows_Permutation {A : Type} (l : list A) (idx : list nat) :
  idx ≡ₚ seq 0 (length l) -> take_rows l idx ≡ₚ l.
Proof.
  intros H. pose proof (take_rows_seq l []) as E. simpl in E.
  unfold take_rows in *. rewrite H. by rewrite E.
Qed.

Lemma take_rows_app {A : Type} (l : list A) (i j : list nat) :
  take_rows l (i ++ j) = take_rows l i ++ take_rows l j.
Proof. apply omap_app. Qed.

Lemma take_rows_length {A : Type} (l : list A) (idx : list nat) :
  (forall i, i ∈ idx -> (i < length l)%nat) -> length (take_rows l idx) = length idx.
Proof.
  induction idx as [|i idx IH]; intros H; [done|].
  unfold take_rows in *. simpl.
  destruct (lookup_lt_is_Some_2 l i) as [x Hx]; [apply H; left|].
  rewrite Hx. simpl. f_equal. apply IH. intros; apply H; by right.
Qed.

Section SamplingFacts.
Import Config NegativeSampling Spec.
Variable permutation : nat -> list nat.
Hypothesis permutation_spec : forall n, permutation n ≡ₚ seq 0 n.

Lemma shuffle_Permutation (l : list Row) : shuffle permutation l ≡ₚ l.
Proof. apply take_rows_Permutation, permutation_spec. Qed.

Lemma permutation_bound (n i : nat) : i ∈ permutation n -> (i < n)%nat.
Proof. rewrite permutation_spec, elem_of_seq. lia. Qed.

Lemma sample_Ok (l sampled : list Row) (n : Z) :
  sample permutation l n = Ok sampled ->
  n <= Z.of_nat (length l) ->
  0 <= n /\ Z.of_nat (length sampled) = n /\ sampled ⊆+ l.
Proof.
  unfold sample. destruct (Z.ltb_spec n 0) as [|Hn]; [done|].
  intros [= <-] Hle. split; [done|]. split.
  - rewrite take_rows_length.
    + rewrite length_take, permutation_spec, length_seq. lia.
    + intros i Hi. apply permutation_bound.
      apply elem_of_take in Hi as (j & Hj & _). apply list_elem_of_lookup. eauto.
  - pose proof (take_rows_Permutation l _ (permutation_spec (length l))) as HP.
    rewrite <- (take_drop (Z.to_nat n) (permutation (length l))), take_rows_app in HP.
    etrans; [|apply Permutation_submseteq, HP]. by apply submseteq_inserts_r.
Qed.

Lemma positives_filter (df : DataFrame) (positives : list Row) :
  filterM (fun r => gt_scalar 0 (get r "engagement_score")) (rows df) = Ok positives ->
  positives = positive_rows df.
Proof. intros H. by apply filterM_Ok in H. Qed.

(** What a run of [add_negative_samples] that returns has produced. *)
Lemma add_negative_samples_Ok (df out : DataFrame) (ratio : Q) :
  add_negative_samples permutation df ratio = Ok out ->
  columns out = columns df /\
  exists sampled,
    rows out ≡ₚ positive_rows df ++ sampled /\
    sampled ⊆+ negative_rows df /\
    Z.of_nat (length sampled)
      = Z.min (Z.of_nat (length (negative_rows df)))
              (Qtrunc (inject_Z (Z.of_nat (length (positive_rows df))) * ratio)).
Proof.
  unfold add_negative_samples. intros H.
  bind_inv H as u Hu. bind_inv H as pos Hpos.
  apply positives_filter in Hpos. subst pos. bind_inv H as sampled Hs. injection H as <-.
  split; [done|]. exists sampled. simpl. split; [apply shuffle_Permutation|].
  unfold negative_rows.
  change is_negative with (fun r : Row => eq_scalar 0 (get r "engagement_score")).
  destruct (_ <? _)%Z eqn:Hb in Hs.
  - apply Z.ltb_lt in Hb. apply sample_Ok in Hs as (? & ? & ?); [|lia]. split; [done|lia].
  - apply Z.ltb_ge in Hb. injection Hs as <-. split; [done|lia].
Qed.






End SamplingFacts.

Lemma rejected_in_no_partition (r : Row) :
  Spec.is_rejected r = true -> Spec.is_positive r = false /\ Spec.is_negative r = false.
Proof.
  unfold Spec.is_rejected, Spec.is_positive, Spec.is_negative, gt_scalar, eq_scalar, Qltb.
  destruct (get r "engagement_score") as [|q|s|[]|t]; simpl; try done.
  intros H. apply Qeq_bool_iff in H. split.
  - apply negb_false_iff, Qle_bool_iff. rewrite H. done.
  - apply not_true_iff_false. intros E. apply Qeq_bool_iff in E.
    rewrite H in E. done.
Qed.




(** C4: every row of the output of Negative Sampling is a positive row or
    one of the sampled negative rows, the output being a permutation of the
    positives followed by the sample; a row with engagement_score == -1.0 is
    in neither partition and no such row is in the output. *)
Theorem rejected_rows_dropped
    (permutation : nat -> list nat) (df out : DataFrame) (ratio : Q) :
  (forall n, permutation n ≡ₚ seq 0 n) ->
  NegativeSampling.add_negative_samples permutation df ratio = Ok out ->
  (exists sampled,
     sampled ⊆+ Spec.negative_rows df /\
     rows out ≡ₚ Spec.positive_rows df ++ sampled) /\
  (forall r, Spec.is_rejected r = true ->
             (r ∉ Spec.positive_rows df) /\ (r ∉ Spec.negative_rows df) /\ (r ∉ rows out)).
Proof.
  intros Hperm H.
  apply (add_negative_samples_Ok permutation Hperm) in H as (_ & sampled & Hp & Hsub & _).
  split; [by exists sampled|].
  intros r Hrej. apply rejected_in_no_partition in Hrej as [Hpos Hneg].
  assert (r ∉ Spec.positive_rows df) as H1.
  { intros Hin. apply elem_of_filter_bool in Hin as [_ ?]. congruence. }
  assert (r ∉ Spec.negative_rows df) as H2.
  { intros Hin. apply elem_of_filter_bool in Hin as [_ ?]. congruence. }
  repeat split; try done.
  rewrite Hp, elem_of_app. intros [?|Hin]; [done|].
  apply H2. by eapply elem_of_submseteq.
Qed.

Lemma rejected_rows_dropped_witness :
  (exists sampled,
     sampled ⊆+ Spec.negative_rows Samples.one_positive_five_negatives /\
     rows (Samples.value (NegativeSampling.add_negative_samples Samples.permutation
             Samples.one_positive_five_negatives 2))
       ≡ₚ Spec.positive_rows Samples.one_positive_five_negatives ++ sampled) /\
  (forall r, Spec.is_rejected r = true ->
             (r ∉ Spec.positive_rows Samples.one_positive_five_negatives) /\
             (r ∉ Spec.negative_rows Samples.one_positive_five_negatives) /\
             (r ∉ rows (Samples.value (NegativeSampling.add_negative_samples
                          Samples.permutation Samples.one_positive_five_negatives 2)))).
Proof.
  apply (rejected_rows_dropped Samples.permutation Samples.one_positive_five_negatives _ 2).
  - intros n. reflexivity.
  - vm_compute. reflexivity.
Defined.

(** ** Temporal features *)

(** The birth date and the departure date are converted with
    [errors='coerce']: a value that cannot be parsed becomes NaT. *)
Lemma to_datetime_coerce_unparseable
    (parse_datetime : string -> option (option Z)) (s : string) :
  parse_datetime s = None -> to_datetime_coerce parse_datetime (VStr s) = VNull.
Proof. intros H. unfold to_datetime_coerce. simpl. by rewrite H. Qed.

(** On the second sample frame the stage returns, and the age and the days
    until departure are null. *)
Example temporal_features_coerced :
  exists out r,
    FeatureEngineering.calculate_temporal_features Samples.parse_datetime 0
      Samples.unparseable_others = Ok out /\
    rows out = [r] /\
    r !! "user_age" = Some VNull /\
    r !! "days_until_departure" = Some VNull.
Proof. do 2 eexists. repeat split; vm_compute; reflexivity. Qed.

(** C6 (the code at the failing input): a creation timestamp that cannot be
    parsed makes [calculate_temporal_features] raise; the stage does not
    return a frame with null features. *)
Theorem temporal_features_raise_on_created_at
    (parse_datetime : string -> option (option Z)) (now : Z) :
  parse_datetime "not a date" = None ->
  FeatureEngineering.calculate_temporal_features parse_datetime now
    Samples.unparseable_created = Raise ParserError.
Proof.
  intros H. unfold FeatureEngineering.calculate_temporal_features.
  unfold FeatureEngineering.add_user_age. simpl.
  unfold FeatureEngineering.add_timestamp. simpl.
  unfold column, get. simpl. rewrite lookup_singleton_eq. simpl. by rewrite H.
Qed.

Lemma temporal_features_raise_on_created_at_witness :
  FeatureEngineering.calculate_temporal_features Samples.parse_datetime 0
    Samples.unparseable_created = Raise ParserError.
Proof.
  apply (temporal_features_raise_on_created_at Samples.parse_datetime 0).
  vm_compute. reflexivity.
Defined.

(** ** Validation *)

(** The cleaning stage guards its range check by the dtype of the column and
    returns on a frame with a string column. *)
Example cleaning_range_check_returns :
  is_Ok (DataCleaning.validate_vector_ranges Samples.typed_interactions).
Proof. eexists. vm_compute. reflexivity. Qed.

(** C7 (the code at the failing input): on a frame whose interaction_type
    column holds a string, the range check of the validators raises
    TypeError at the comparison with 0. *)
Theorem validate_vector_ranges_raises_on_strings :
  Validators.validate_vector_ranges Samples.typed_interactions = Raise TypeError.
Proof. vm_compute. reflexivity. Qed.

(** ** Export *)

Section ExportFacts.
Import Config ExportDataset.
Variable train_test_split : DataFrame -> Q -> Result (DataFrame * DataFrame).



(** [split_and_export] writes the two partitions and the sample before it
    returns them. *)
Lemma split_and_export_Ok (df : DataFrame) (version : string) (test_size : Q)
    (st st1 : Store) (parts : DataFrame * DataFrame) :
  split_and_export train_test_split df version test_size st = (Ok parts, st1) ->
  train_test_split df test_size = Ok parts /\
  st1 = st ++ [train_path version; test_path version; sample_csv_path version].
Proof.
  unfold split_and_export, io_bind, io_lift, write_file, io_ret.
  destruct (require_column df "engagement_score"); [|done].
  destruct (train_test_split df test_size) as [p|]; [|done].
  destruct (length (rows df) =? 0)%nat; [done|].
  intros [= <- <-]. split; [done|]. by rewrite <- !app_assoc.
Qed.


End ExportFacts.




(** ** Label consistency along the pipeline *)

Lemma foldM_invariant {A S : Type} (I : S -> Prop) (f : S -> A -> Result S) (l : list A) :
  (forall s x s', x ∈ l -> I s -> f s x = Ok s' -> I s') ->
  forall s s', I s -> foldM f s l = Ok s' -> I s'.
Proof.
  induction l as [|x l IH]; intros Hf s s' Hs H; simpl in H.
  - by injection H as <-.
  - bind_inv H as s1 Hs1. eapply IH; [|eapply Hf; [left|done..]|done].
    intros; eapply Hf; [right|..]; done.
Qed.

Lemma foldl_invariant {A S : Type} (I : S -> Prop) (f : S -> A -> S) (l : list A) :
  (forall s x, x ∈ l -> I s -> I (f s x)) -> forall s, I s -> I (foldl f s l).
Proof.
  induction l as [|x l IH]; intros Hf s Hs; simpl; [done|].
  apply IH; [intros; apply Hf; [by right|done]|]. apply Hf; [left|done].
Qed.

Lemma Forall_filter_bool {A : Type} (P : A -> Prop) (f : A -> bool) (l : list A) :
  Forall P l -> Forall P (List.filter f l).
Proof.
  rewrite !Forall_forall. intros H x Hx. apply elem_of_filter_bool in Hx as [Hx _]. auto.
Qed.

Lemma Forall_filterM {A : Type} (P : A -> Prop) (p : A -> Result bool) (l l' : list A) :
  filterM p l = Ok l' -> Forall P l -> Forall P l'.
Proof. intros H. apply filterM_Ok in H as ->. apply Forall_filter_bool. Qed.

Lemma elem_of_take_rows {A : Type} (l : list A) (idx : list nat) (x : A) :
  x ∈ take_rows l idx -> x ∈ l.
Proof.
  unfold take_rows. rewrite list_elem_of_omap. intros (i & _ & Hi).
  apply list_elem_of_lookup. eauto.
Qed.

Lemma Forall_take_rows {A : Type} (P : A -> Prop) (l : list A) (idx : list nat) :
  Forall P l -> Forall P (take_rows l idx).
Proof.
  rewrite !Forall_forall. intros H x Hx. apply H. by eapply elem_of_take_rows.
Qed.

Lemma Forall_zip_with_l {A B : Type} (P : A -> Prop) (f : A -> B -> A)
    (l : list A) (k : list B) :
  (forall x y, P x -> P (f x y)) -> Forall P l -> Forall P (zip_with f l k).
Proof.
  intros Hf H. revert k. induction H as [|x l Hx _ IH]; intros [|y k]; simpl; auto.
Qed.

Section LabelConsistency.
Import Config Spec.

Lemma lc_alter_other (g : Cell -> Cell) (col : string) (r : Row) :
  col <> "engagement_score" -> col <> "booking_probability" ->
  label_consistent r -> label_consistent (alter g col r).
Proof.
  intros H1 H2 (s & b & Hs & Hb & Hx). exists s, b. by rewrite !lookup_alter_ne.
Qed.

Lemma lc_alter_fillna (v : Cell) (col : string) (r : Row) :
  label_consistent r -> label_consistent (alter (fillna v) col r).
Proof.
  intros (s & b & Hs & Hb & Hx). exists s, b. split; [|split; [|done]].
  - destruct (decide (col = "engagement_score")) as [->|].
    + by rewrite lookup_alter_eq, Hs.
    + by rewrite lookup_alter_ne.
  - destruct (decide (col = "booking_probability")) as [->|].
    + by rewrite lookup_alter_eq, Hb.
    + by rewrite lookup_alter_ne.
Qed.

Lemma lc_insert_other (v : Cell) (col : string) (r : Row) :
  col <> "engagement_score" -> col <> "booking_probability" ->
  label_consistent r -> label_consistent (<[col := v]> r).
Proof.
  intros H1 H2 (s & b & Hs & Hb & Hx). exists s, b. by rewrite !lookup_insert_ne.
Qed.

Lemma lc_delete_all (cols : list string) (r : Row) :
  Forall (fun c => c <> "engagement_score" /\ c <> "booking_probability") cols ->
  label_consistent r -> label_consistent (foldr (fun c r' => delete c r') r cols).
Proof.
  induction 1 as [|c cols [H1 H2] _ IH]; intros Hr; simpl; [done|].
  destruct (IH Hr) as (s & b & Hs & Hb & Hx). exists s, b. by rewrite !lookup_delete_ne.
Qed.

(** The column index. *)

Lemma set_dtype_other (cols : list (string * Dtype)) (col name : string) (d d' : Dtype) :
  name <> col -> (name, d') ∈ set_dtype cols col d -> (name, d') ∈ cols.
Proof.
  intros Hne. unfold set_dtype. destruct (existsb _ cols).
  - rewrite list_elem_of_fmap. intros ([c dc] & Heq & Hin). simpl in Heq.
    destruct (String.eqb_spec c col) as [->|]; injection Heq as -> ->; done.
  - rewrite elem_of_app, list_elem_of_singleton. intros [Hin|Heq]; [done|].
    by injection Heq as ? ?.
Qed.

Lemma set_dtype_same (cols : list (string * Dtype)) (col : string) (d d' : Dtype) :
  (col, d') ∈ set_dtype cols col d -> d' = d.
Proof.
  unfold set_dtype. destruct (existsb _ cols) eqn:E.
  - rewrite list_elem_of_fmap. intros ([c dc] & Heq & Hin). simpl in Heq.
    destruct (String.eqb_spec c col) as [->|]; [by injection Heq|].
    injection Heq as ? ?. by subst.
  - rewrite elem_of_app, list_elem_of_singleton. intros [Hin|Heq]; [|by injection Heq].
    apply not_true_iff_false in E. exfalso. apply E, existsb_exists.
    exists (col, d'). split; [by apply list_elem_of_In|]. apply String.eqb_refl.
Qed.

Lemma not_object_set_other (cols : list (string * Dtype)) (col name : string) (d : Dtype) :
  name <> col -> not_object cols name -> not_object (set_dtype cols col d) name.
Proof. intros Hne H d' Hin. apply H. by eapply set_dtype_other. Qed.

Lemma not_object_set_same (cols : list (string * Dtype)) (col : string) (d : Dtype) :
  d <> DObject -> not_object (set_dtype cols col d) col.
Proof. intros Hd d' Hin. apply set_dtype_same in Hin. by subst. Qed.

Lemma not_object_filter (cols : list (string * Dtype)) (f : string * Dtype -> bool)
    (name : string) :
  not_object cols name -> not_object (List.filter f cols) name.
Proof. intros H d Hin. apply H. by apply elem_of_filter_bool in Hin as [? _]. Qed.

Lemma select_dtypes_object (df : DataFrame) (col : string) :
  col ∈ select_dtypes df [DObject] -> (col, DObject) ∈ columns df.
Proof.
  unfold select_dtypes. intros H. apply list_elem_of_fmap in H as ([c d] & -> & Hin).
  apply elem_of_filter_bool in Hin as [Hin Hd]. simpl in *.
  apply bool_decide_eq_true in Hd. apply list_elem_of_singleton in Hd. by subst.
Qed.

(** Frame operations that keep the invariant. *)

Lemma labels_ok_rows (df : DataFrame) (l : list Row) :
  labels_ok df -> Forall label_consistent l -> labels_ok (mkDF (columns df) l).
Proof. intros (H1 & H2 & _) Hl. by repeat split. Qed.

Lemma labels_ok_select (df : DataFrame) (keep : Row -> bool) :
  labels_ok df -> labels_ok (select df keep).
Proof.
  intros H. apply labels_ok_rows; [done|]. apply Forall_filter_bool. apply H.
Qed.

Lemma labels_ok_update (df : DataFrame) (col : string) (g : Cell -> Cell) :
  (forall r, label_consistent r -> label_consistent (alter g col r)) ->
  labels_ok df -> labels_ok (update df col g).
Proof.
  intros Hg H. apply labels_ok_rows; [done|]. destruct H as (_ & _ & H).
  apply Forall_fmap. eapply Forall_impl; [done|]. intros r Hr. by apply Hg.
Qed.

Lemma labels_ok_insert (df : DataFrame) (col : string) (d : Dtype) (cells : list Cell) :
  col <> "engagement_score" -> col <> "booking_probability" ->
  labels_ok df ->
  labels_ok (mkDF (set_dtype (columns df) col d)
                  (zip_with (fun r c => <[col := c]> r) (rows df) cells)).
Proof.
  intros H1 H2 (Ha & Hb & Hr). repeat split; simpl.
  - by apply not_object_set_other.
  - by apply not_object_set_other.
  - apply Forall_zip_with_l; [|done]. intros r c ?. by apply lc_insert_other.
Qed.

Lemma labels_ok_assign (df : DataFrame) (col : string) (d : Dtype) (f : Row -> Cell) :
  col <> "engagement_score" -> col <> "booking_probability" ->
  labels_ok df -> labels_ok (assign df col d f).
Proof.
  intros H1 H2 (Ha & Hb & Hr). repeat split; simpl.
  - by apply not_object_set_other.
  - by apply not_object_set_other.
  - apply Forall_fmap. eapply Forall_impl; [done|]. intros r ?. by apply lc_insert_other.
Qed.

Lemma labels_ok_drop (df : DataFrame) (cols : list string) :
  Forall (fun c => c <> "engagement_score" /\ c <> "booking_probability") cols ->
  labels_ok df -> labels_ok (drop_columns df cols).
Proof.
  intros Hc (Ha & Hb & Hr). repeat split; simpl.
  - by apply not_object_filter.
  - by apply not_object_filter.
  - apply Forall_fmap. eapply Forall_impl; [done|]. intros r ?. by apply lc_delete_all.
Qed.

(** Label Construction establishes the invariant. *)

Lemma Forall_zip_with_all {A B C : Type} (P : C -> Prop) (f : A -> B -> C)
    (l : list A) (k : list B) :
  (forall x y, P (f x y)) -> Forall P (zip_with f l k).
Proof.
  intros Hf. revert k. induction l as [|x l IH]; intros [|y k]; simpl; auto.
Qed.

Lemma labelled_row_consistent (parse_datetime : string -> option (option Z))
    (str_num : Q -> string) (str_time : Z -> string) (r : Row) (s : Q) :
  label_consistent (labelled_row parse_datetime str_num str_time r s).
Proof.
  exists s, (if Qeq_bool s 5 then 1 else 0)%Q.
  split; [apply labelled_row_score|]. split.
  { rewrite labelled_row_booking. simpl. by destruct (Qeq_bool s 5). }
  destruct (Qeq_bool s 5) eqn:E.
  - apply Qeq_bool_iff in E. tauto.
  - split; [by right|]. split; [done|]. intros E'. apply Qeq_bool_iff in E'. congruence.
Qed.

Lemma construct_labels_ok (parse_datetime : string -> option (option Z))
    (str_num : Q -> string) (str_time : Z -> string) (df out : DataFrame) :
  LabelConstruction.construct_labels parse_datetime str_num str_time df = Ok out ->
  labels_ok out.
Proof.
  intros H. pose proof (construct_labels_rows _ _ _ _ _ H) as (scores & _ & Hrows).
  split; [|split].
  - unfold LabelConstruction.construct_labels in H. bind_inv H as sc Hsc.
    destruct (has_column _ _); [|done]. injection H as <-. simpl.
    do 4 (apply not_object_set_other; [done|]). by apply not_object_set_same.
  - unfold LabelConstruction.construct_labels in H. bind_inv H as sc Hsc.
    destruct (has_column _ _); [|done]. injection H as <-. simpl.
    do 3 (apply not_object_set_other; [done|]). by apply not_object_set_same.
  - rewrite Hrows. apply Forall_zip_with_all. intros. apply labelled_row_consistent.
Qed.

(** Negative Sampling keeps rows as they are. *)

Lemma add_negative_samples_labels_ok (permutation : nat -> list nat)
    (df out : DataFrame) (ratio : Q) :
  NegativeSampling.add_negative_samples permutation df ratio = Ok out ->
  labels_ok df -> labels_ok out.
Proof.
  unfold NegativeSampling.add_negative_samples. intros H Hdf.
  bind_inv H as u Hu. bind_inv H as pos Hpos. bind_inv H as sampled Hs.
  injection H as <-. apply labels_ok_rows; [done|].
  destruct Hdf as (_ & _ & Hr).
  apply Forall_take_rows, Forall_app. split.
  - by eapply Forall_filterM.
  - destruct (_ <? _)%Z in Hs.
    + unfold NegativeSampling.sample in Hs. destruct (_ <? _)%Z in Hs; [done|].
      injection Hs as <-. by apply Forall_take_rows, Forall_filter_bool.
    + injection Hs as <-. by apply Forall_filter_bool.
Qed.

(** Cleaning filters rows, fills nulls and clips columns that are not labels. *)

Lemma Forall_drop_duplicates (P : Row -> Prop) (key : Row -> list Cell)
    (seen : list (list Cell)) (l : list Row) :
  Forall P l -> Forall P (DataCleaning.drop_duplicates key seen l).
Proof.
  intros H. revert seen. induction H as [|r l Hr _ IH]; intros seen; simpl; [done|].
  destruct (existsb _ seen); auto.
Qed.

Lemma remove_missing_required_labels_ok (df : DataFrame) :
  labels_ok df -> labels_ok (DataCleaning.remove_missing_required df).
Proof.
  unfold DataCleaning.remove_missing_required. apply foldl_invariant.
  intros s col _ Hs. unfold DataCleaning.dropna_if_present.
  destruct (has_column s col); [by apply labels_ok_select | done].
Qed.

Lemma impute_numeric_labels_ok (df out : DataFrame) (col : string) :
  DataCleaning.impute_numeric df col = Ok out -> labels_ok df -> labels_ok out.
Proof.
  unfold DataCleaning.impute_numeric. intros H Hdf.
  destruct (0 <? missing_count df col)%nat; [|by injection H as <-].
  bind_inv H as xs Hxs. destruct (median xs); injection H as <-; [|done].
  apply labels_ok_update; [|done]. intros r. apply lc_alter_fillna.
Qed.

Lemma impute_categorical_labels_ok (df : DataFrame) (col : string) :
  labels_ok df -> labels_ok (DataCleaning.impute_categorical df col).
Proof.
  unfold DataCleaning.impute_categorical. intros Hdf.
  destruct (0 <? missing_count df col)%nat; [|done].
  apply labels_ok_update; [|done]. intros r. apply lc_alter_fillna.
Qed.

Lemma impute_missing_values_labels_ok (df out : DataFrame) :
  DataCleaning.impute_missing_values df = Ok out -> labels_ok df -> labels_ok out.
Proof.
  unfold DataCleaning.impute_missing_values. intros H Hdf. bind_inv H as df1 H1.
  injection H as <-. apply foldl_invariant.
  - intros s col _. apply impute_categorical_labels_ok.
  - eapply (foldM_invariant labels_ok); [|exact Hdf|exact H1].
    intros s col s' _ Hs Hs'. by eapply impute_numeric_labels_ok.
Qed.

Lemma remove_outliers_labels_ok (df out : DataFrame) :
  DataCleaning.remove_outliers df = Ok out -> labels_ok df -> labels_ok out.
Proof.
  unfold DataCleaning.remove_outliers. intros H Hdf.
  eapply (foldM_invariant labels_ok); [|exact Hdf|exact H].
  intros s col s' _ Hs Hs'. unfold DataCleaning.remove_outliers_col in Hs'.
  destruct (has_column s col); [|by injection Hs' as <-].
  bind_inv Hs' as xs Hxs.
  destruct (mean xs) as [m|]; [|by injection Hs' as <-].
  destruct (variance xs) as [var|]; [|by injection Hs' as <-].
  destruct (Qltb 0 var); [|by injection Hs' as <-].
  bind_inv Hs' as kept Hk. injection Hs' as <-.
  apply labels_ok_rows; [done|]. eapply Forall_filterM; [done|]. apply Hs.
Qed.

Lemma is_vector_col_not_label (col : string) :
  DataCleaning.is_vector_col col = true ->
  col <> "engagement_score" /\ col <> "booking_probability".
Proof. intros H. split; intros ->; vm_compute in H; discriminate. Qed.

Lemma cleaning_range_check_labels_ok (df out : DataFrame) :
  DataCleaning.validate_vector_ranges df = Ok out -> labels_ok df -> labels_ok out.
Proof.
  unfold DataCleaning.validate_vector_ranges. intros H Hdf.
  eapply (foldM_invariant labels_ok); [|exact Hdf|exact H].
  intros s col s' Hcol Hs Hs'. apply elem_of_filter_bool in Hcol as [_ Hv].
  apply is_vector_col_not_label in Hv as [? ?].
  unfold DataCleaning.clip_vector_col in Hs'.
  destruct (_ && _); [|by injection Hs' as <-].
  bind_inv Hs' as n Hn. destruct (0 <? n)%nat; injection Hs' as <-; [|done].
  apply labels_ok_update; [|done]. intros r. by apply lc_alter_other.
Qed.

Lemma remove_duplicates_labels_ok (df : DataFrame) :
  labels_ok df -> labels_ok (DataCleaning.remove_duplicates df).
Proof.
  unfold DataCleaning.remove_duplicates. intros Hdf. destruct (_ && _); [|done].
  apply labels_ok_rows; [done|]. apply Forall_drop_duplicates, Hdf.
Qed.

Lemma clean_dataset_labels_ok (df out : DataFrame) :
  DataCleaning.clean_dataset df = Ok out -> labels_ok df -> labels_ok out.
Proof.
  unfold DataCleaning.clean_dataset. intros H Hdf.
  bind_inv H as df1 H1. bind_inv H as df2 H2. bind_inv H as df3 H3. injection H as <-.
  apply remove_duplicates_labels_ok.
  eapply cleaning_range_check_labels_ok; [done|].
  eapply remove_outliers_labels_ok; [done|].
  eapply impute_missing_values_labels_ok; [done|].
  by apply remove_missing_required_labels_ok.
Qed.

(** Anonymization adds and drops other columns and rewrites object columns. *)

Lemma remove_rare_categories_labels_ok (df : DataFrame) (threshold : nat) :
  labels_ok df -> labels_ok (Anonymization.remove_rare_categories df threshold).
Proof.
  unfold Anonymization.remove_rare_categories. intros Hdf.
  apply (foldl_invariant (fun s => labels_ok s /\ columns s = columns df)); [|done].
  intros s col Hcol [Hs Hcols]. apply select_dtypes_object in Hcol.
  assert (col <> "engagement_score" /\ col <> "booking_probability") as [? ?].
  { destruct Hdf as (Ha & Hb & _). split; intros ->; [by eapply Ha | by eapply Hb]. }
  unfold Anonymization.generalize_rare. destruct (existsb _ _); [|done].
  split; [|done]. apply labels_ok_update; [|done]. intros r. by apply lc_alter_other.
Qed.

Lemma remove_pii_labels_ok (df : DataFrame) :
  labels_ok df -> labels_ok (Anonymization.remove_pii df).
Proof.
  unfold Anonymization.remove_pii. intros Hdf.
  match goal with |- context [List.filter ?f ?l] =>
    assert (Forall (fun c => c <> "engagement_score" /\ c <> "booking_probability")
                   (List.filter f l)) as Hc
  end.
  { apply Forall_filter_bool. repeat constructor; done. }
  destruct (List.filter _ _); [done|]. by apply labels_ok_drop.
Qed.

Lemma anonymize_dataset_labels_ok (sha256_hexdigest : string -> string)
    (str_num : Q -> string) (str_time : Z -> string) (df out : DataFrame) :
  Anonymization.anonymize_dataset sha256_hexdigest str_num str_time df = Ok out ->
  labels_ok df -> labels_ok out.
Proof.
  unfold Anonymization.anonymize_dataset. intros H Hdf. bind_inv H as df3 H3.
  injection H as <-. apply remove_pii_labels_ok, remove_rare_categories_labels_ok.
  assert (labels_ok (Anonymization.hash_user_ids sha256_hexdigest str_num str_time df)) as H1.
  { unfold Anonymization.hash_user_ids. destruct (has_column df "user_id"); [|done].
    by apply labels_ok_assign. }
  assert (labels_ok (Anonymization.generalize_nationality
                       (Anonymization.hash_user_ids sha256_hexdigest str_num str_time df)))
    as H2.
  { unfold Anonymization.generalize_nationality. destruct (has_column _ _); [|done].
    apply labels_ok_drop; [repeat constructor; done|]. by apply labels_ok_assign. }
  unfold Anonymization.bin_age in H3. destruct (has_column _ "user_age"); [|by injection H3 as <-].
  bind_inv H3 as groups Hg. injection H3 as <-.
  apply labels_ok_drop; [repeat constructor; done|]. by apply labels_ok_insert.
Qed.

End LabelConsistency.

(** C2: in every frame from Label Construction onward (the labelled, the
    balanced, the cleaned and the anonymized frame and the train and test
    partitions), every row has booking_probability 1 or 0, and it is 1 exactly
    when engagement_score == 5.0.  The split is sklearn's; all that is used of
    it is that the two partitions hold rows of the frame it was given. *)
Theorem label_consistency_preserved
    (parse_datetime : string -> option (option Z))
    (str_num : Q -> string) (str_time : Z -> string)
    (permutation : nat -> list nat)
    (sha256_hexdigest : string -> string)
    (train_test_split : DataFrame -> Q -> Result (DataFrame * DataFrame))
    (featured labeled balanced cleaned final train test : DataFrame)
    (ratio : Q) (version : string) (st st' : ExportDataset.Store) :
  (forall df ts tr te, train_test_split df ts = Ok (tr, te) ->
                       rows tr ++ rows te ≡ₚ rows df) ->
  LabelConstruction.construct_labels parse_datetime str_num str_time featured = Ok labeled ->
  NegativeSampling.add_negative_samples permutation labeled ratio = Ok balanced ->
  DataCleaning.clean_dataset balanced = Ok cleaned ->
  Anonymization.anonymize_dataset sha256_hexdigest str_num str_time cleaned = Ok final ->
  ExportDataset.split_and_export train_test_split final version Config.TEST_SIZE st
    = (Ok (train, test), st') ->
  Forall (fun df => Forall Spec.label_consistent (rows df))
         [labeled; balanced; cleaned; final; train; test].
Proof.
  intros Hsplit H1 H2 H3 H4 H5.
  apply construct_labels_ok in H1 as L1.
  pose proof (add_negative_samples_labels_ok _ _ _ _ H2 L1) as L2.
  pose proof (clean_dataset_labels_ok _ _ H3 L2) as L3.
  pose proof (anonymize_dataset_labels_ok _ _ _ _ _ H4 L3) as L4.
  apply split_and_export_Ok in H5 as [H5 _]. apply Hsplit in H5.
  assert (Forall Spec.label_consistent (rows train ++ rows test)) as L5.
  { rewrite H5. apply L4. }
  apply Forall_app in L5 as [L5 L6].
  repeat constructor; try done; [apply L1 | apply L2 | apply L3 | apply L4].
Qed.

Lemma label_consistency_preserved_witness :
  Forall (fun df => Forall Spec.label_consistent (rows df))
         [Samples.labeled; Samples.balanced; Samples.cleaned; Samples.final;
          Samples.partitions.1; Samples.partitions.2].
Proof.
  apply (label_consistency_preserved Samples.parse_datetime Samples.str_num Samples.str_time
           Samples.permutation Samples.sha256_hexdigest Samples.train_test_split
           Samples.interactions Samples.labeled Samples.balanced Samples.cleaned
           Samples.final Samples.partitions.1 Samples.partitions.2
           2 "1.0" [] Samples.exported).
  - intros df ts tr te [= <- <-]. simpl. by rewrite Permutation_app_comm, take_drop.
  - vm_compute. reflexivity.
  - vm_compute. reflexivity.
  - vm_compute. reflexivity.
  - vm_compute. reflexivity.
  - vm_compute. reflexivity.
Defined.

(** ** Columns under the frame operations *)

Lemma get_insert_eq (r : Row) (col : string) (v : Cell) : get (<[col := v]> r) col = v.
Proof. unfold get. by rewrite lookup_insert_eq. Qed.

Lemma get_insert_ne (r : Row) (col col' : string) (v : Cell) :
  col <> col' -> get (<[col := v]> r) col' = get r col'.
Proof. intros H. unfold get. by rewrite lookup_insert_ne. Qed.

Lemma get_alter_ne (r : Row) (col col' : string) (g : Cell -> Cell) :
  col <> col' -> get (alter g col r) col' = get r col'.
Proof. intros H. unfold get. by rewrite lookup_alter_ne. Qed.

Lemma get_alter_eq (r : Row) (col : string) (g : Cell -> Cell) :
  g VNull = VNull -> get (alter g col r) col = g (get r col).
Proof. intros H. unfold get. rewrite lookup_alter_eq. by destruct (r !! col). Qed.

Lemma get_delete_all (r : Row) (cols : list string) (col : string) :
  col ∉ cols -> get (foldr (fun c r' => delete c r') r cols) col = get r col.
Proof.
  unfold get. induction cols as [|c cols IH]; intros H; simpl; [done|].
  apply not_elem_of_cons in H as [? ?]. rewrite lookup_delete_ne by done. auto.
Qed.

Lemma column_assign_eq (df : DataFrame) (col : string) (d : Dtype) (f : Row -> Cell) :
  column (assign df col d f) col = map f (rows df).
Proof.
  unfold column, assign. simpl. rewrite map_map. apply map_ext. intros. apply get_insert_eq.
Qed.

Lemma column_assign_ne (df : DataFrame) (col col' : string) (d : Dtype) (f : Row -> Cell) :
  col <> col' -> column (assign df col d f) col' = column df col'.
Proof.
  intros H. unfold column, assign. simpl. rewrite map_map. apply map_ext.
  intros. by apply get_insert_ne.
Qed.

Lemma column_update_ne (df : DataFrame) (col col' : string) (g : Cell -> Cell) :
  col <> col' -> column (update df col g) col' = column df col'.
Proof.
  intros H. unfold column, update. simpl. rewrite map_map. apply map_ext.
  intros. by apply get_alter_ne.
Qed.

Lemma column_update_eq (df : DataFrame) (col : string) (g : Cell -> Cell) :
  g VNull = VNull -> column (update df col g) col = map g (column df col).
Proof.
  intros H. unfold column, update. simpl. rewrite !map_map. apply map_ext.
  intros. by apply get_alter_eq.
Qed.

Lemma column_drop (df : DataFrame) (cols : list string) (col : string) :
  col ∉ cols -> column (drop_columns df cols) col = column df col.
Proof.
  intros H. unfold column, drop_columns. simpl. rewrite map_map. apply map_ext.
  intros. by apply get_delete_all.
Qed.

Lemma column_insert_cells_ne (df : DataFrame) (cols : list (string * Dtype))
    (col col' : string) (cells : list Cell) :
  col <> col' -> length cells = length (rows df) ->
  column (mkDF cols (zip_with (fun r c => <[col := c]> r) (rows df) cells)) col'
  = column df col'.
Proof.
  intros H. unfold column. simpl. generalize (rows df). intros l. revert cells.
  induction l as [|r l IH]; intros [|c cells] Hlen; simpl in *; try done.
  rewrite get_insert_ne by done. f_equal. apply IH. lia.
Qed.

(** The column index under the frame operations. *)

Lemma set_dtype_in (cols : list (string * Dtype)) (col : string) (d : Dtype) :
  (col, d) ∈ set_dtype cols col d.
Proof.
  unfold set_dtype. destruct (existsb _ cols) eqn:E.
  - apply existsb_exists in E as ([c dc] & Hin & Heq). simpl in Heq.
    apply String.eqb_eq in Heq. subst c. apply list_elem_of_fmap.
    exists (col, dc). simpl. rewrite String.eqb_refl. split; [done|].
    by apply list_elem_of_In.
  - apply elem_of_app. right. left.
Qed.

Lemma set_dtype_keep (cols : list (string * Dtype)) (col name : string) (d d' : Dtype) :
  name <> col -> (name, d') ∈ cols -> (name, d') ∈ set_dtype cols col d.
Proof.
  intros Hne Hin. unfold set_dtype. destruct (existsb _ cols).
  - apply list_elem_of_fmap. exists (name, d'). simpl.
    destruct (String.eqb_spec name col); [done|]. done.
  - apply elem_of_app. by left.
Qed.

Lemma drop_columns_keep (df : DataFrame) (cols : list string) (name : string) (d : Dtype) :
  name ∉ cols -> (name, d) ∈ columns df -> (name, d) ∈ columns (drop_columns df cols).
Proof.
  intros Hn Hin. unfold drop_columns. simpl. apply elem_of_filter_bool. split; [done|].
  simpl. apply negb_true_iff, not_true_iff_false. intros E.
  apply existsb_exists in E as (c & Hc & Heq). apply String.eqb_eq in Heq. subst c.
  by apply Hn, list_elem_of_In.
Qed.

Lemma select_dtypes_in (df : DataFrame) (col : string) (d : Dtype) (include : list Dtype) :
  (col, d) ∈ columns df -> d ∈ include -> col ∈ select_dtypes df include.
Proof.
  intros Hin Hd. unfold select_dtypes. apply list_elem_of_fmap. exists (col, d).
  split; [done|]. apply elem_of_filter_bool. split; [done|]. by apply bool_decide_eq_true.
Qed.

(** ** Anonymization: the hashes of rare users *)

Ltac not_in_list :=
  repeat (apply not_elem_of_cons; split; [discriminate|]); apply not_elem_of_nil.

Section RareUsers.
Import Anonymization.
Variable sha256_hexdigest : string -> string.
Variable str_num : Q -> string.
Variable str_time : Z -> string.

Local Abbreviation hash := (hash_cell sha256_hexdigest str_num str_time).

(** The frame that enters the suppression pass. *)
Lemma anonymize_dataset_before_suppression (df out : DataFrame) :
  has_column df "user_id" = true ->
  anonymize_dataset sha256_hexdigest str_num str_time df = Ok out ->
  exists df3,
    bin_age (generalize_nationality
               (hash_user_ids sha256_hexdigest str_num str_time df)) = Ok df3 /\
    out = remove_pii (remove_rare_categories df3 10) /\
    ("user_hash", DObject) ∈ columns df3 /\
    (("user_id", DObject) ∈ columns df -> ("user_id", DObject) ∈ columns df3) /\
    column df3 "user_hash" = map hash (column df "user_id").
Proof.
  intros Hid H. unfold anonymize_dataset in H. bind_inv H as df3 H3. injection H as <-.
  exists df3. split; [done|]. split; [done|].
  unfold hash_user_ids in H3. rewrite Hid in H3.
  set (df1 := assign df "user_hash" DObject _) in H3.
  assert (("user_hash", DObject) ∈ columns df1) as C1 by apply set_dtype_in.
  assert (("user_id", DObject) ∈ columns df -> ("user_id", DObject) ∈ columns df1) as U1.
  { intros ?. by apply set_dtype_keep. }
  assert (column df1 "user_hash" = map hash (column df "user_id")) as V1.
  { unfold df1. rewrite column_assign_eq. unfold column. by rewrite map_map. }
  clearbody df1.
  set (df2 := generalize_nationality df1) in H3.
  assert (("user_hash", DObject) ∈ columns df2 /\
          (("user_id", DObject) ∈ columns df -> ("user_id", DObject) ∈ columns df2) /\
          column df2 "user_hash" = map hash (column df "user_id")) as (C2 & U2 & V2).
  { unfold df2, generalize_nationality. destruct (has_column df1 "user_nationality"); [|done].
    split; [|split].
    - apply drop_columns_keep; [not_in_list|]. by apply set_dtype_keep.
    - intros ?. apply drop_columns_keep; [not_in_list|].
      apply set_dtype_keep; [done|]. auto.
    - rewrite column_drop by not_in_list.
      by rewrite column_assign_ne. }
  clearbody df2. unfold bin_age in H3.
  destruct (has_column df2 "user_age"); [|by injection H3 as <-].
  bind_inv H3 as groups Hg. injection H3 as <-. split; [|split].
  - apply drop_columns_keep; [not_in_list|]. by apply set_dtype_keep.
  - intros ?. apply drop_columns_keep; [not_in_list|].
    apply set_dtype_keep; [done|]. auto.
  - rewrite column_drop by not_in_list.
    rewrite column_insert_cells_ne; [done..|].
    apply mapM_length in Hg. rewrite Hg. unfold column. by rewrite length_map.
Qed.

Lemma is_rare_null (threshold : nat) (cells : list Cell) : is_rare threshold cells VNull = false.
Proof. done. Qed.

(** One turn of the loop on the column it rewrites. *)
Lemma generalize_rare_column (threshold : nat) (df : DataFrame) (col : string)
    (i : nat) (c : Cell) :
  column df col !! i = Some c ->
  is_rare threshold (column df col) c = true \/ c = VStr "OTHER" ->
  column (generalize_rare threshold df col) col !! i = Some (VStr "OTHER").
Proof.
  intros Hi Hc. unfold generalize_rare.
  destruct (existsb _ _) eqn:E.
  - rewrite column_update_eq by done. rewrite list_lookup_fmap, Hi. simpl.
    destruct (is_rare threshold (column df col) c) eqn:R; [done|].
    destruct Hc as [? | ->]; done.
  - destruct Hc as [Hc | ->]; [|done].
    apply not_true_iff_false in E. exfalso. apply E, existsb_exists.
    exists c. split; [|done]. apply list_elem_of_In, list_elem_of_lookup. eauto.
Qed.

Lemma generalize_rare_other_column (threshold : nat) (df : DataFrame) (col col' : string) :
  col <> col' -> column (generalize_rare threshold df col) col' = column df col'.
Proof.
  intros H. unfold generalize_rare. destruct (existsb _ _); [|done].
  by apply column_update_ne.
Qed.

(** The whole loop: a cell that is rare when the loop reaches its column, or
    that already reads OTHER, reads OTHER at the end. *)
Lemma suppression_loop (threshold : nat) (cols : list string) (col : string)
    (i : nat) (df : DataFrame) (c : Cell) :
  column df col !! i = Some c ->
  (is_rare threshold (column df col) c = true /\ col ∈ cols) \/ c = VStr "OTHER" ->
  column (foldl (generalize_rare threshold) df cols) col !! i = Some (VStr "OTHER").
Proof.
  revert df c. induction cols as [|x cols IH]; intros df c Hi Hc; simpl.
  - destruct Hc as [[_ Hin] | ->]; [by apply elem_of_nil in Hin | done].
  - destruct (decide (x = col)) as [->|Hne].
    + eapply IH; [|by right]. eapply generalize_rare_column; [done|]. tauto.
    + eapply IH.
      * by rewrite generalize_rare_other_column.
      * rewrite generalize_rare_other_column by done.
        destruct Hc as [[Hr Hin]|?]; [left|by right]. split; [done|].
        apply elem_of_cons in Hin as [?|?]; [congruence|done].
Qed.

Lemma remove_pii_user_hash (df : DataFrame) :
  column (remove_pii df) "user_hash" = column df "user_hash".
Proof.
  unfold remove_pii.
  match goal with |- context [List.filter ?f ?l] =>
    assert ("user_hash" ∉ List.filter f l) as Hc
  end.
  { intros Hin. apply elem_of_filter_bool in Hin as [Hin _].
    apply list_elem_of_In in Hin. simpl in Hin. intuition discriminate. }
  destruct (List.filter _ _); [done|]. by apply column_drop.
Qed.

(** A hash that occurs fewer than ten times becomes OTHER. *)
Lemma rare_hash_suppressed (df out : DataFrame) (i : nat) (u : Cell) :
  has_column df "user_id" = true ->
  anonymize_dataset sha256_hexdigest str_num str_time df = Ok out ->
  column df "user_id" !! i = Some u ->
  (value_count (map hash (column df "user_id")) (hash u) < 10)%nat ->
  column out "user_hash" !! i = Some (VStr "OTHER").
Proof.
  intros Hid H Hi Hcount.
  destruct (anonymize_dataset_before_suppression df out Hid H)
    as (df3 & _ & -> & Hcol & _ & Hhash).
  rewrite remove_pii_user_hash. unfold remove_rare_categories.
  eapply suppression_loop.
  - rewrite Hhash, list_lookup_fmap, Hi. done.
  - left. split.
    + rewrite Hhash. unfold is_rare. simpl. by apply Nat.ltb_lt.
    + eapply select_dtypes_in; [done|]. left.
Qed.

(** When the digest tells the identifiers of the frame apart, a hash occurs
    as often as the identifier it was computed from. *)
Lemma value_count_hash (uids : list Cell) (u : Cell) :
  (forall u', u' ∈ uids -> hash u = hash u' -> cell_eqb u u' = true) ->
  (value_count (map hash uids) (hash u) <= value_count uids u)%nat.
Proof.
  unfold value_count. induction uids as [|u' uids IH]; intros Hinj; [done|].
  assert (length (List.filter (cell_eqb (hash u)) (map hash uids))
          <= length (List.filter (cell_eqb u) uids))%nat as IH'.
  { apply IH. intros; apply Hinj; [by right|done]. }
  cbn [map List.filter].
  destruct (cell_eqb (hash u) (hash u')) eqn:E.
  - rewrite (Hinj u'); [cbn [length]; lia|left|].
    unfold hash, hash_cell in *. simpl in E. apply String.eqb_eq in E. by rewrite E.
  - destruct (cell_eqb u u'); cbn [length]; lia.
Qed.

End RareUsers.

Lemma value_count_le (cells : list Cell) (x : Cell) :
  (Anonymization.value_count cells x <= length cells)%nat.
Proof.
  unfold Anonymization.value_count. induction cells as [|c cells IH]; simpl; [done|].
  destruct (cell_eqb x c); simpl; lia.
Qed.

(** C10: the suppression pass of Anonymization runs over the object columns
    of the frame that has just received user_hash and still has user_id, so
    both are among its columns (user_id when it is an object column).  When
    the digest tells the identifiers of the frame apart, every row whose
    user_id occurs fewer than 10 times ends with the user_hash OTHER.  Two
    different identifiers can therefore end with the same user_hash: in the
    sample frame of two users both rows end with OTHER. *)
Theorem rare_user_hash_is_other
    (sha256_hexdigest : string -> string) (str_num : Q -> string) (str_time : Z -> string) :
  let hash := Anonymization.hash_cell sha256_hexdigest str_num str_time in
  (forall df out : DataFrame,
     has_column df "user_id" = true ->
     Anonymization.anonymize_dataset sha256_hexdigest str_num str_time df = Ok out ->
     (exists before : DataFrame,
        out = Anonymization.remove_pii (Anonymization.remove_rare_categories before 10) /\
        "user_hash" ∈ select_dtypes before [DObject] /\
        (("user_id", DObject) ∈ columns df -> "user_id" ∈ select_dtypes before [DObject])) /\
     ((forall u u', u ∈ column df "user_id" -> u' ∈ column df "user_id" ->
                    hash u = hash u' -> cell_eqb u u' = true) ->
      forall (i : nat) (u : Cell),
        column df "user_id" !! i = Some u ->
        (Anonymization.value_count (column df "user_id") u < 10)%nat ->
        column out "user_hash" !! i = Some (VStr "OTHER"))) /\
  (exists out : DataFrame,
     Anonymization.anonymize_dataset sha256_hexdigest str_num str_time Samples.two_users
       = Ok out /\
     column Samples.two_users "user_id" = [VStr "u1"; VStr "u2"] /\
     column out "user_hash" !! 0%nat = Some (VStr "OTHER") /\
     column out "user_hash" !! 1%nat = Some (VStr "OTHER")).
Proof.
  intros hash. split.
  - intros df out Hid H. split.
    + destruct (anonymize_dataset_before_suppression _ _ _ df out Hid H)
        as (df3 & _ & -> & Hh & Hu & _).
      exists df3. split; [done|]. split.
      * eapply select_dtypes_in; [done|left].
      * intros ?. eapply select_dtypes_in; [eauto|left].
    + intros Hinj i u Hi Hcount.
      eapply rare_hash_suppressed; [done..|].
      eapply Nat.le_lt_trans; [|exact Hcount].
      apply value_count_hash. intros u' Hu'. apply Hinj; [|done].
      apply list_elem_of_lookup. eauto.
  - eexists. split; [reflexivity|]. split; [reflexivity|].
    split.
    + eapply (rare_hash_suppressed _ _ _ Samples.two_users _ 0 (VStr "u1"));
        [reflexivity..|].
      eapply Nat.le_lt_trans; [apply value_count_le|simpl; lia].
    + eapply (rare_hash_suppressed _ _ _ Samples.two_users _ 1 (VStr "u2"));
        [reflexivity..|].
      eapply Nat.le_lt_trans; [apply value_count_le|simpl; lia].
Qed.

Lemma rare_user_hash_is_other_witness :
  column Samples.cleaned "user_id" !! 1%nat = Some (VStr "u2") /\
  column Samples.final "user_hash" !! 1%nat = Some (VStr "OTHER").
Proof.
  split; [reflexivity|].
  refine (proj2 (proj1 (rare_user_hash_is_other Samples.sha256_hexdigest Samples.str_num
                          Samples.str_time) Samples.cleaned Samples.final _ _)
                _ 1%nat (VStr "u2") _ _).
  - reflexivity.
  - vm_compute. reflexivity.
  - intros u u' Hu Hu' E.
    apply list_elem_of_In in Hu. apply list_elem_of_In in Hu'.
    vm_compute in Hu, Hu'.
    destruct Hu as [<-|[<-|[<-|[]]]]; destruct Hu' as [<-|[<-|[<-|[]]]];
      first [reflexivity | vm_compute in E; discriminate].
  - reflexivity.
  - vm_compute. lia.
Defined.

(** ** Cleaning twice *)


Section CellsAt.
Variable col : string.
Variable cond : option Cell -> Prop.

Lemma cells_at_filter (f : Row -> bool) (l : list Row) :
  cells_at col cond l -> cells_at col cond (List.filter f l).
Proof. apply Forall_filter_bool. Qed.

Lemma cells_at_filterM (p : Row -> Result bool) (l l' : list Row) :
  filterM p l = Ok l' -> cells_at col cond l -> cells_at col cond l'.
Proof. apply Forall_filterM. Qed.

Lemma cells_at_drop_duplicates (key : Row -> list Cell) (seen : list (list Cell))
    (l : list Row) :
  cells_at col cond l -> cells_at col cond (DataCleaning.drop_duplicates key seen l).
Proof. apply Forall_drop_duplicates. Qed.

(** Rewriting another column, or rewriting this one with a function under
    which the condition is stable. *)
Lemma cells_at_alter (g : Cell -> Cell) (col' : string) (l : list Row) :
  col' <> col \/ (forall o, cond o -> cond (g <$> o)) ->
  cells_at col cond l -> cells_at col cond (map (alter g col') l).
Proof.
  intros Hg H. apply Forall_fmap. eapply Forall_impl; [exact H|].
  intros r Hr. simpl. destruct (decide (col' = col)) as [->|Hne].
  - rewrite lookup_alter_eq. destruct Hg as [?|Hg]; [done|]. by apply Hg.
  - by rewrite lookup_alter_ne.
Qed.

End CellsAt.

(** The conditions are stable under [fillna] and [clip01] as needed. *)

Lemma is_notna_fillna (v : Cell) (o : option Cell) :
  is_notna o -> is_notna (fillna v <$> o).
Proof. unfold is_notna. destruct o as [[]|]; simpl; done. Qed.

Lemma not_explicit_null_fillna (v : Cell) (o : option Cell) :
  v <> VNull -> not_explicit_null (fillna v <$> o).
Proof.
  unfold not_explicit_null. intros Hv. destruct o as [[]|]; simpl; try done.
  intros E. by injection E.
Qed.

Lemma clip01_null (c : Cell) : clip01 c = VNull <-> c = VNull.
Proof.
  destruct c as [|q| | |]; simpl; try done.
  destruct (Qltb q 0); [done|]. by destruct (Qltb 1 q).
Qed.

Lemma is_notna_clip01 (o : option Cell) : is_notna o -> is_notna (clip01 <$> o).
Proof.
  unfold is_notna. destruct o as [c|]; simpl; [|done]. by rewrite clip01_null.
Qed.

Lemma is_null_clip01 (o : option Cell) : is_null o -> is_null (clip01 <$> o).
Proof.
  unfold is_null. destruct o as [c|]; simpl; [|done]. by rewrite clip01_null.
Qed.

Lemma not_explicit_null_clip01 (o : option Cell) :
  not_explicit_null o -> not_explicit_null (clip01 <$> o).
Proof.
  unfold not_explicit_null. destruct o as [c|]; simpl; [|done].
  intros H E. injection E as E. apply (proj1 (clip01_null c)) in E. subst. by apply H.
Qed.

Lemma cmp_value_clip01 (c : Cell) : is_Ok (cmp_value c) -> is_Ok (cmp_value (clip01 c)).
Proof.
  destruct c as [|q| | |]; simpl; try done.
  intros _. destruct (Qltb q 0); [by eexists|]. destruct (Qltb 1 q); by eexists.
Qed.

Lemma is_filled_clip01 (o : option Cell) : is_filled o -> is_filled (clip01 <$> o).
Proof.
  unfold is_filled. intros [H1 H2]. split; [|by apply not_explicit_null_clip01].
  destruct o as [c|]; simpl in *; [|done]. by apply cmp_value_clip01.
Qed.

Lemma imputed_clip01 (col col' : string) (l : list Row) :
  imputed col l -> imputed col (map (alter clip01 col') l).
Proof.
  intros [H|[H|H]]; [left|right; left|right; right];
    (apply cells_at_alter; [right|done]).
  - apply is_notna_clip01.
  - apply is_filled_clip01.
  - apply is_null_clip01.
Qed.

Lemma imputed_sub (col : string) (l l' : list Row) :
  (forall cond, cells_at col cond l -> cells_at col cond l') ->
  imputed col l -> imputed col l'.
Proof. intros H [?|[?|?]]; [left|right; left|right; right]; by apply H. Qed.

(** What depends on the column index only. *)

Lemma has_column_columns (df df' : DataFrame) (col : string) :
  columns df' = columns df -> has_column df' col = has_column df col.
Proof. unfold has_column. by intros ->. Qed.

Lemma dtype_of_columns (df df' : DataFrame) (col : string) :
  columns df' = columns df -> dtype_of df' col = dtype_of df col.
Proof. unfold dtype_of. by intros ->. Qed.

Lemma select_dtypes_columns (df df' : DataFrame) (include : list Dtype) :
  columns df' = columns df -> select_dtypes df' include = select_dtypes df include.
Proof. unfold select_dtypes. by intros ->. Qed.




(** *** Rows with a missing required value *)

Section RemoveMissing.
Import DataCleaning.

Lemma dropna_columns (df : DataFrame) (c : string) :
  columns (dropna_if_present df c) = columns df.
Proof. unfold dropna_if_present. by destruct (has_column df c). Qed.

Lemma dropna_sub (df : DataFrame) (c col : string) (cond : option Cell -> Prop) :
  cells_at col cond (rows df) -> cells_at col cond (rows (dropna_if_present df c)).
Proof.
  unfold dropna_if_present. destruct (has_column df c); [|done]. apply cells_at_filter.
Qed.

Lemma notna_get (r : Row) (c : string) : notna (get r c) = true <-> is_notna (r !! c).
Proof. unfold get, is_notna. apply notna_true. Qed.

Lemma dropna_notna (df : DataFrame) (c : string) :
  has_column df c = true -> cells_at c is_notna (rows (dropna_if_present df c)).
Proof.
  intros H. unfold dropna_if_present. rewrite H. simpl.
  apply Forall_forall. intros r Hr. apply elem_of_filter_bool in Hr as [_ Hr].
  by apply notna_get.
Qed.


Lemma dropna_all_columns (df : DataFrame) (cols : list string) :
  columns (foldl dropna_if_present df cols) = columns df.
Proof.
  revert df. induction cols as [|c cols IH]; intros df; simpl; [done|].
  by rewrite IH, dropna_columns.
Qed.

Lemma dropna_all_sub (df : DataFrame) (cols : list string) (col : string)
    (cond : option Cell -> Prop) :
  cells_at col cond (rows df) -> cells_at col cond (rows (foldl dropna_if_present df cols)).
Proof.
  revert df. induction cols as [|c cols IH]; intros df H; simpl; [done|].
  by apply IH, dropna_sub.
Qed.

Lemma dropna_all_notna (df : DataFrame) (cols : list string) (col : string) :
  col ∈ cols -> has_column df col = true ->
  cells_at col is_notna (rows (foldl dropna_if_present df cols)).
Proof.
  revert df. induction cols as [|c cols IH]; intros df Hin Hcol; simpl.
  - by apply elem_of_nil in Hin.
  - apply elem_of_cons in Hin as [->|Hin].
    + by apply dropna_all_sub, dropna_notna.
    + apply IH; [done|]. by rewrite (has_column_columns df) by apply dropna_columns.
Qed.


End RemoveMissing.

(** *** Loops over columns *)

Lemma foldM_pure {A S : Type} (f : S -> A -> S) (s : S) (l : list A) :
  foldM (fun s x => Ok (f s x)) s l = Ok (foldl f s l).
Proof. revert s. induction l as [|x l IH]; intros s; simpl; [done|]. apply IH. Qed.


(** Each turn establishes a property of its column and keeps the property
    of the other columns: after the loop every column has its property. *)
Lemma foldM_each_column (f : DataFrame -> string -> Result DataFrame)
    (est : string -> DataFrame -> Prop) :
  (forall df c s, f df c = Ok s -> est c s) ->
  (forall df c c' s, c' <> c -> f df c' = Ok s -> est c df -> est c s) ->
  forall cols df s, NoDup cols -> foldM f df cols = Ok s ->
  forall c, c ∈ cols -> est c s.
Proof.
  intros Hest Hkeep. induction cols as [|c0 cols IH]; intros df s Hnd H c Hc.
  - by apply elem_of_nil in Hc.
  - simpl in H. bind_inv H as s1 H1. apply NoDup_cons in Hnd as [Hn0 Hnd].
    apply elem_of_cons in Hc as [->|Hc].
    + eapply (foldM_invariant (est c0)); [|by eapply Hest|exact H].
      intros s2 c' s3 Hc' Hs2 Hs3. eapply Hkeep; [|done..]. intros ->. done.
    + by eapply IH.
Qed.

Lemma columns_fst_NoDup (cols : list (string * Dtype)) (c : string) (d d' : Dtype) :
  NoDup (map fst cols) -> (c, d) ∈ cols -> (c, d') ∈ cols -> d = d'.
Proof.
  induction cols as [|[c0 d0] cols IH]; simpl; intros Hnd H1 H2.
  - by apply elem_of_nil in H1.
  - apply NoDup_cons in Hnd as [Hn Hnd].
    apply elem_of_cons in H1 as [H1|H1]; apply elem_of_cons in H2 as [H2|H2].
    + congruence.
    + injection H1 as -> ->. exfalso. apply Hn.
      apply list_elem_of_fmap. by exists (c0, d').
    + injection H2 as -> ->. exfalso. apply Hn.
      apply list_elem_of_fmap. by exists (c0, d).
    + by apply IH.
Qed.

Lemma filter_fst_NoDup (cols : list (string * Dtype)) (f : string * Dtype -> bool) :
  NoDup (map fst cols) -> NoDup (map fst (List.filter f cols)).
Proof.
  induction cols as [|cd cols IH]; simpl; intros Hnd; [done|].
  apply NoDup_cons in Hnd as [Hn Hnd]. destruct (f cd); simpl; [|auto].
  apply NoDup_cons. split; [|auto]. intros Hin. apply Hn.
  apply list_elem_of_fmap in Hin as (cd' & -> & Hin).
  apply elem_of_filter_bool in Hin as [Hin _]. by apply list_elem_of_fmap_2.
Qed.

Lemma select_dtypes_NoDup (df : DataFrame) (include : list Dtype) :
  NoDup (map fst (columns df)) -> NoDup (select_dtypes df include).
Proof. apply filter_fst_NoDup. Qed.

Lemma select_dtypes_elem (df : DataFrame) (col : string) (include : list Dtype) :
  col ∈ select_dtypes df include -> exists d, (col, d) ∈ columns df /\ d ∈ include.
Proof.
  unfold select_dtypes. intros H. apply list_elem_of_fmap in H as ([c d] & -> & Hin).
  apply elem_of_filter_bool in Hin as [Hin Hd]. simpl in *.
  apply bool_decide_eq_true in Hd. eauto.
Qed.

Lemma numeric_not_object (df : DataFrame) (c c' : string) :
  NoDup (map fst (columns df)) ->
  c ∈ select_dtypes df [DFloat; DInt] -> c' ∈ select_dtypes df [DObject] -> c' <> c.
Proof.
  intros Hnd H H' ->.
  apply select_dtypes_elem in H as (d & Hin & Hd).
  apply select_dtypes_elem in H' as (d' & Hin' & Hd').
  pose proof (columns_fst_NoDup _ _ _ _ Hnd Hin Hin') as ->.
  apply list_elem_of_singleton in Hd'. subst.
  apply list_elem_of_In in Hd. simpl in Hd. intuition discriminate.
Qed.

(** *** Imputation *)

Section Imputation.
Import DataCleaning.

Lemma missing_count_zero (df : DataFrame) (c : string) :
  (0 <? missing_count df c)%nat = false <-> cells_at c is_notna (rows df).
Proof.
  unfold missing_count, column, cells_at. rewrite Nat.ltb_ge.
  induction (rows df) as [|r l IH]; simpl.
  - split; [constructor|lia].
  - fold (get r c). destruct (isna (get r c)) eqn:E; simpl.
    + split; [lia|]. intros H. apply Forall_inv in H.
      apply notna_get in H. unfold notna in H. rewrite E in H. done.
    + rewrite IH. split.
      * intros H. constructor; [|done]. apply notna_get. unfold notna. by rewrite E.
      * intros H. by apply Forall_inv_tail in H.
Qed.

Lemma mapM_Ok_Forall {A B : Type} (f : A -> Result B) (l : list A) (ys : list B) :
  mapM f l = Ok ys -> Forall (fun x => is_Ok (f x)) l.
Proof.
  revert ys. induction l as [|x l IH]; intros ys H; simpl in H; [constructor|].
  bind_inv H as y Hy. bind_inv H as ys' Hys. constructor; [by eexists|eauto].
Qed.

Lemma numeric_values_comparable (df : DataFrame) (c : string) (xs : list Q) :
  numeric_values (column df c) = Ok xs ->
  Forall (fun r => is_Ok (cmp_value (get r c))) (rows df).
Proof.
  unfold numeric_values, column. intros H. bind_inv H as vs Hvs.
  apply mapM_Ok_Forall in Hvs. apply (proj1 (Forall_fmap _ _ _)) in Hvs. exact Hvs.
Qed.


Lemma numeric_values_nil (cells : list Cell) :
  numeric_values cells = Ok [] -> Forall (fun x => x = VNull) cells.
Proof.
  unfold numeric_values. intros H. bind_inv H as vs Hvs. injection H as H.
  revert vs Hvs H. induction cells as [|x cells IH]; intros vs Hvs H; [constructor|].
  simpl in Hvs. bind_inv Hvs as v Hv. bind_inv Hvs as vs' Hvs'. injection Hvs as <-.
  simpl in H. destruct v as [q|]; [done|]. simpl in H. constructor; [|eauto].
  by destruct x as [| | |[]|].
Qed.


Lemma insert_sorted_length (x : Q) (l : list Q) :
  length (insert_sorted x l) = S (length l).
Proof.
  induction l as [|y l IH]; simpl; [done|]. destruct (Qle_bool x y); simpl; [done|].
  by rewrite IH.
Qed.

Lemma sort_values_length (xs : list Q) : length (sort_values xs) = length xs.
Proof.
  unfold sort_values. induction xs as [|x xs IH]; simpl; [done|].
  by rewrite insert_sorted_length, IH.
Qed.

(** The median is NaN for an empty column only. *)
Lemma median_None (xs : list Q) : median xs = None -> xs = [].
Proof.
  unfold median. rewrite sort_values_length.
  destruct xs as [|x xs]; [done|]. intros H. exfalso.
  set (n := length (x :: xs)) in *.
  assert (0 < n)%nat as Hn by (unfold n; simpl; lia).
  destruct (Nat.eqb_spec n 0) as [|_]; [lia|].
  assert (n / 2 < n)%nat as H2 by (apply Nat.div_lt; lia).
  destruct (lookup_lt_is_Some_2 (sort_values (x :: xs)) (n / 2)) as [b Hb].
  { rewrite sort_values_length. done. }
  destruct (lookup_lt_is_Some_2 (sort_values (x :: xs)) (n / 2 - 1)) as [a Ha].
  { rewrite sort_values_length. fold n. lia. }
  rewrite Hb, Ha in H. by destruct (Nat.odd n).
Qed.

Lemma impute_numeric_columns (df s : DataFrame) (c : string) :
  impute_numeric df c = Ok s -> columns s = columns df.
Proof.
  unfold impute_numeric. intros H. destruct (0 <? _)%nat; [|by injection H as <-].
  bind_inv H as xs Hxs. by destruct (median xs); injection H as <-.
Qed.

(** A turn of the loop rewrites its column with [fillna] or does nothing. *)
Lemma impute_numeric_rows (df s : DataFrame) (c : string) :
  impute_numeric df c = Ok s ->
  s = df \/ exists v, rows s = map (alter (fillna v) c) (rows df).
Proof.
  unfold impute_numeric. intros H. destruct (0 <? _)%nat; [|left; by injection H as <-].
  bind_inv H as xs Hxs. destruct (median xs); injection H as <-; [right|by left].
  by eexists.
Qed.

Lemma impute_numeric_other (df s : DataFrame) (c c' : string) (cond : option Cell -> Prop) :
  c' <> c -> impute_numeric df c' = Ok s ->
  cells_at c cond (rows df) -> cells_at c cond (rows s).
Proof.
  intros Hne H. apply impute_numeric_rows in H as [->|[v ->]]; [done|].
  apply cells_at_alter. by left.
Qed.

Lemma impute_numeric_imputed (df s : DataFrame) (c : string) :
  impute_numeric df c = Ok s -> imputed c (rows s).
Proof.
  unfold impute_numeric. intros H.
  destruct (0 <? missing_count df c)%nat eqn:Em.
  - bind_inv H as xs Hxs. destruct (median xs) as [m|] eqn:Emed; injection H as <-.
    + right; left. apply numeric_values_comparable in Hxs. simpl.
      apply Forall_fmap. eapply Forall_impl; [exact Hxs|]. intros r Hr. simpl.
      rewrite lookup_alter_eq. unfold is_filled, get in *.
      destruct (r !! c) as [x|]; simpl in *.
      * destruct x; simpl; try (split; [done|discriminate]).
        split; [by eexists|discriminate].
      * split; [by eexists|discriminate].
    + right; right. apply median_None in Emed. subst xs.
      apply numeric_values_nil in Hxs. unfold column in Hxs.
      apply (proj1 (Forall_fmap _ _ _)) in Hxs. exact Hxs.
  - injection H as <-. left. by apply missing_count_zero.
Qed.


Lemma impute_categorical_columns (df : DataFrame) (c : string) :
  columns (impute_categorical df c) = columns df.
Proof. unfold impute_categorical. by destruct (0 <? _)%nat. Qed.

Lemma impute_categorical_rows (df : DataFrame) (c : string) :
  impute_categorical df c = df \/
  rows (impute_categorical df c) = map (alter (fillna (VStr "UNKNOWN")) c) (rows df).
Proof. unfold impute_categorical. destruct (0 <? _)%nat; [by right|by left]. Qed.

Lemma impute_categorical_filled (df : DataFrame) (c : string) :
  cells_at c not_explicit_null (rows (impute_categorical df c)).
Proof.
  unfold impute_categorical. destruct (0 <? missing_count df c)%nat eqn:Em.
  - simpl. apply Forall_fmap, Forall_forall. intros r _. simpl.
    rewrite lookup_alter_eq. by apply not_explicit_null_fillna.
  - apply missing_count_zero in Em. eapply Forall_impl; [exact Em|].
    intros r Hr E. unfold is_notna in Hr. by rewrite E in Hr.
Qed.


End Imputation.

Section ImputeAll.
Import DataCleaning.

Lemma foldM_impute_numeric_columns (cols : list string) (df s : DataFrame) :
  foldM impute_numeric df cols = Ok s -> columns s = columns df.
Proof.
  intros H. eapply (foldM_invariant (fun s => columns s = columns df)); [|done|exact H].
  intros s1 c s2 _ E1 E2. apply impute_numeric_columns in E2. congruence.
Qed.

Lemma foldl_impute_categorical_columns (cols : list string) (df : DataFrame) :
  columns (foldl impute_categorical df cols) = columns df.
Proof.
  apply (foldl_invariant (fun s => columns s = columns df)); [|done].
  intros s c _ E. by rewrite impute_categorical_columns.
Qed.

Lemma impute_missing_values_columns (df s : DataFrame) :
  impute_missing_values df = Ok s -> columns s = columns df.
Proof.
  unfold impute_missing_values. intros H. bind_inv H as df1 H1. injection H as <-.
  rewrite foldl_impute_categorical_columns. by eapply foldM_impute_numeric_columns.
Qed.

(** A condition that [fillna] cannot break survives the whole sub-stage. *)
Lemma impute_missing_values_keeps (df s : DataFrame) (col : string)
    (cond : option Cell -> Prop) :
  (forall v o, cond o -> cond (fillna v <$> o)) ->
  impute_missing_values df = Ok s ->
  cells_at col cond (rows df) -> cells_at col cond (rows s).
Proof.
  intros Hc H Hdf. unfold impute_missing_values in H. bind_inv H as df1 H1.
  injection H as <-.
  apply (foldl_invariant (fun s => cells_at col cond (rows s))).
  - intros s c _ Hs. destruct (impute_categorical_rows s c) as [->| ->]; [done|].
    apply cells_at_alter; [|done]. right. apply Hc.
  - eapply (foldM_invariant (fun s => cells_at col cond (rows s))); [|exact Hdf|exact H1].
    intros s c s' _ Hs Hs'. apply impute_numeric_rows in Hs' as [->|[v ->]]; [done|].
    apply cells_at_alter; [|done]. right. apply Hc.
Qed.

Lemma impute_missing_values_imputed (df s : DataFrame) :
  NoDup (map fst (columns df)) ->
  impute_missing_values df = Ok s ->
  (forall c, c ∈ select_dtypes df [DFloat; DInt] -> imputed c (rows s)) /\
  (forall c, c ∈ select_dtypes df [DObject] -> cells_at c not_explicit_null (rows s)).
Proof.
  intros Hnd H. unfold impute_missing_values in H. bind_inv H as df1 H1.
  injection H as <-.
  pose proof (foldM_impute_numeric_columns _ _ _ H1) as Hcols.
  rewrite (select_dtypes_columns df df1) by done. split.
  - intros c Hc.
    apply (foldl_invariant (fun s => imputed c (rows s))).
    + intros s c' Hc' Hs. destruct (impute_categorical_rows s c') as [->| ->]; [done|].
      eapply imputed_sub; [|exact Hs]. intros cond. apply cells_at_alter. left.
      by eapply numeric_not_object.
    + eapply (foldM_each_column impute_numeric (fun c s => imputed c (rows s)));
        [| |by apply select_dtypes_NoDup|exact H1|exact Hc].
      * intros. by eapply impute_numeric_imputed.
      * intros s0 c0 c' s' Hne Hs' Hs0. eapply imputed_sub; [|exact Hs0].
        intros cond. by eapply impute_numeric_other.
  - intros c Hc.
    pose proof (foldM_pure impute_categorical df1 (select_dtypes df [DObject])) as Hp.
    eapply (foldM_each_column (fun s c => Ok (impute_categorical s c))
              (fun c s => cells_at c not_explicit_null (rows s)));
      [| |by apply (select_dtypes_NoDup df)|exact Hp|exact Hc].
    + intros s0 c0 s' [= <-]. apply impute_categorical_filled.
    + intros s0 c0 c' s' Hne [= <-] Hs0.
      destruct (impute_categorical_rows s0 c') as [->| ->]; [done|].
      apply cells_at_alter; [|done]. by left.
Qed.


End ImputeAll.

(** *** Outliers, clipping, duplicates *)

Section LaterSubStages.
Import DataCleaning.

Lemma remove_outliers_col_rows (df s : DataFrame) (c : string) :
  remove_outliers_col df c = Ok s ->
  columns s = columns df /\
  forall P : Row -> Prop, Forall P (rows df) -> Forall P (rows s).
Proof.
  unfold remove_outliers_col. intros H.
  destruct (has_column df c); [|by injection H as <-].
  bind_inv H as xs Hxs.
  destruct (mean xs) as [m|]; [|by injection H as <-].
  destruct (variance xs) as [var|]; [|by injection H as <-].
  destruct (Qltb 0 var); [|by injection H as <-].
  bind_inv H as kept Hk. injection H as <-. split; [done|].
  intros P. simpl. eapply Forall_filterM. exact Hk.
Qed.

Lemma remove_outliers_rows (df s : DataFrame) :
  remove_outliers df = Ok s ->
  columns s = columns df /\
  forall P : Row -> Prop, Forall P (rows df) -> Forall P (rows s).
Proof.
  unfold remove_outliers. intros H.
  eapply (foldM_invariant
            (fun s => columns s = columns df /\
                      forall P : Row -> Prop, Forall P (rows df) -> Forall P (rows s)));
    [|done|exact H].
  intros s1 c s2 _ [E1 F1] H2. apply remove_outliers_col_rows in H2 as [E2 F2].
  split; [congruence|auto].
Qed.

(** The range check on one cell. *)

Lemma clip01_in_range (x : Cell) :
  is_Ok (out_of_range_cell x) -> out_of_range_cell (clip01 x) = Ok false.
Proof.
  destruct x as [|q|s|[]|t]; intros [b Hb]; try done.
  unfold out_of_range_cell, lt_scalar, gt_scalar, clip01. simpl.
  destruct (Qltb q 0) eqn:E0; [done|]. destruct (Qltb 1 q) eqn:E1; [done|].
  simpl. by rewrite E0, E1.
Qed.

Lemma mapM_no_flag {A : Type} (f : A -> Result bool) (l : list A) (flags : list bool) :
  mapM f l = Ok flags -> (0 <? length (List.filter id flags))%nat = false ->
  Forall (fun x => f x = Ok false) l.
Proof.
  revert flags. induction l as [|x l IH]; intros flags H Hn; [constructor|].
  simpl in H. bind_inv H as b Hb. bind_inv H as bs Hbs. injection H as <-.
  simpl in Hn. destruct b; simpl in Hn; [done|]. constructor; eauto.
Qed.


Lemma clip_vector_col_rows (df s : DataFrame) (c : string) :
  clip_vector_col df c = Ok s ->
  columns s = columns df /\ (s = df \/ rows s = map (alter clip01 c) (rows df)).
Proof.
  unfold clip_vector_col. intros H. destruct (_ && _); [|injection H as <-; auto].
  bind_inv H as n Hn. destruct (0 <? n)%nat; injection H as <-; auto.
Qed.

Lemma clip_vector_col_checked (df s : DataFrame) (c : string) :
  clip_vector_col df c = Ok s -> range_checked c s.
Proof.
  unfold clip_vector_col, range_checked. intros H.
  destruct (has_column df c && bool_decide (dtype_of df c = Some DFloat)) eqn:E.
  - bind_inv H as n Hn. unfold out_of_range in Hn. bind_inv Hn as u Hu.
    bind_inv Hn as flags Hf. injection Hn as <-.
    destruct (0 <? length (List.filter id flags))%nat eqn:En; injection H as <-; intros _.
    + simpl. apply Forall_fmap, Forall_forall. intros r Hr. simpl.
      rewrite lookup_alter_eq. unfold is_in_range.
      apply mapM_Ok_Forall in Hf. apply (proj1 (Forall_fmap _ _ _)) in Hf.
      rewrite Forall_forall in Hf. specialize (Hf r Hr). simpl in Hf. unfold get in Hf.
      destruct (r !! c) as [x|]; simpl in *; [|done]. by apply clip01_in_range.
    + pose proof (mapM_no_flag _ _ _ Hf En) as Hall.
      apply (proj1 (Forall_fmap _ _ _)) in Hall. exact Hall.
  - injection H as <-. rewrite E. done.
Qed.


Lemma vector_cols_NoDup (df : DataFrame) :
  NoDup (map fst (columns df)) ->
  NoDup (List.filter is_vector_col (map fst (columns df))).
Proof.
  generalize (map fst (columns df)). intros l. induction 1 as [|x l Hx _ IH]; simpl.
  - constructor.
  - destruct (is_vector_col x); [|done]. constructor; [|done].
    intros Hin. apply elem_of_filter_bool in Hin as [? _]. done.
Qed.

Lemma cleaning_range_check_rows (df s : DataFrame) :
  validate_vector_ranges df = Ok s ->
  columns s = columns df /\
  forall col (cond : option Cell -> Prop),
    (forall o, cond o -> cond (clip01 <$> o)) ->
    cells_at col cond (rows df) -> cells_at col cond (rows s).
Proof.
  unfold validate_vector_ranges. intros H.
  eapply (foldM_invariant
            (fun s => columns s = columns df /\
                      forall col (cond : option Cell -> Prop),
                        (forall o, cond o -> cond (clip01 <$> o)) ->
                        cells_at col cond (rows df) -> cells_at col cond (rows s)));
    [|done|exact H].
  intros s1 c s2 _ [E1 F1] H2. apply clip_vector_col_rows in H2 as [E2 [->|R2]].
  - done.
  - split; [congruence|]. intros col cond Hc Hdf. rewrite R2.
    apply cells_at_alter; [by right|]. by apply F1.
Qed.

Lemma cleaning_range_check_checked (df s : DataFrame) (c : string) :
  NoDup (map fst (columns df)) ->
  validate_vector_ranges df = Ok s ->
  is_vector_col c = true -> range_checked c s.
Proof.
  intros Hnd H Hc. unfold validate_vector_ranges in H.
  destruct (decide (c ∈ List.filter is_vector_col (map fst (columns df)))) as [Hin|Hout].
  - eapply (foldM_each_column clip_vector_col range_checked);
      [| |by apply vector_cols_NoDup|exact H|exact Hin].
    + intros. by eapply clip_vector_col_checked.
    + intros s0 c0 c' s' Hne Hs' Hs0. apply clip_vector_col_rows in Hs' as [E [->|R]]; [done|].
      unfold range_checked in *.
      rewrite (has_column_columns s0 s'), (dtype_of_columns s0 s') by done.
      intros Hcond. rewrite R. apply cells_at_alter; [by left|]. by apply Hs0.
  - (* the column is not in the frame *)
    intros Hcond. apply andb_true_iff in Hcond as [Hcol _]. exfalso. apply Hout.
    apply elem_of_filter_bool. split; [|done].
    apply cleaning_range_check_rows in H as [E _].
    rewrite (has_column_columns df s) in Hcol by done.
    unfold has_column in Hcol. apply existsb_exists in Hcol as ([c' d] & Hin & Heq).
    simpl in Heq. apply String.eqb_eq in Heq. subst c'.
    apply list_elem_of_fmap. exists (c, d). split; [done|]. by apply list_elem_of_In.
Qed.


(** Dropping duplicates a second time drops nothing. *)
Lemma drop_duplicates_fixed (key : Row -> list Cell) (l : list Row)
    (seen seen' : list (list Cell)) :
  (forall k, existsb (fun k' => forallb id (zip_with cell_eqb k' k)) seen' = true ->
             existsb (fun k' => forallb id (zip_with cell_eqb k' k)) seen = true) ->
  drop_duplicates key seen' (drop_duplicates key seen l) = drop_duplicates key seen l.
Proof.
  revert seen seen'. induction l as [|r l IH]; intros seen seen' Hsub; simpl; [done|].
  destruct (existsb _ seen) eqn:E.
  - by apply IH.
  - simpl. destruct (existsb _ seen') eqn:E'.
    + apply Hsub in E'. congruence.
    + f_equal. apply IH. intros k. simpl. rewrite !orb_true_iff. intros [?|?]; auto.
Qed.

Lemma remove_duplicates_columns (df : DataFrame) :
  columns (remove_duplicates df) = columns df.
Proof. unfold remove_duplicates. by destruct (_ && _). Qed.

Lemma remove_duplicates_sub (df : DataFrame) (P : Row -> Prop) :
  Forall P (rows df) -> Forall P (rows (remove_duplicates df)).
Proof.
  unfold remove_duplicates. destruct (_ && _); [|done]. apply Forall_drop_duplicates.
Qed.

Lemma remove_duplicates_idem (df : DataFrame) :
  remove_duplicates (remove_duplicates df) = remove_duplicates df.
Proof.
  unfold remove_duplicates at 2 3.
  destruct (has_column df "user_id" && has_column df "recommendation_id") eqn:E.
  - unfold remove_duplicates. simpl. unfold has_column in *. simpl. rewrite E.
    f_equal. by apply drop_duplicates_fixed.
  - unfold remove_duplicates. by rewrite E.
Qed.

End LaterSubStages.

(** *** The cleaning stage as a whole *)

Section CleanTwice.
Import DataCleaning.

Lemma clean_dataset_state (df out : DataFrame) :
  NoDup (map fst (columns df)) ->
  clean_dataset df = Ok out ->
  columns out = columns df /\ cleaned_state out.
Proof.
  intros Hnd H. unfold clean_dataset in H.
  set (df1 := remove_missing_required df) in H.
  bind_inv H as df2 H2. bind_inv H as df3 H3. bind_inv H as df4 H4. injection H as <-.
  assert (columns df1 = columns df) as C1 by apply dropna_all_columns.
  pose proof (impute_missing_values_columns _ _ H2) as C2.
  destruct (remove_outliers_rows _ _ H3) as [C3 S3].
  destruct (cleaning_range_check_rows _ _ H4) as [C4 S4].
  pose proof (remove_duplicates_columns df4) as C5.
  assert (columns df4 = columns df1) as C41 by congruence.
  assert (NoDup (map fst (columns df1))) as Hnd1 by (by rewrite C1).
  destruct (impute_missing_values_imputed _ _ Hnd1 H2) as [N2 O2].
  split; [congruence|]. constructor.
  - intros col Hcol Hhas.
    apply remove_duplicates_sub. apply S4; [apply is_notna_clip01|].
    apply S3. eapply impute_missing_values_keeps; [|exact H2|].
    { intros. by apply is_notna_fillna. }
    apply dropna_all_notna; [done|].
    rewrite <- Hhas. symmetry. apply has_column_columns. congruence.
  - intros col Hcol.
    rewrite (select_dtypes_columns df1) in Hcol by congruence.
    specialize (N2 col Hcol).
    assert (imputed col (rows df3)) as N3.
    { eapply imputed_sub; [|exact N2]. intros cond. apply S3. }
    assert (imputed col (rows df4)) as N4.
    { destruct N3 as [N|[N|N]]; [left|right; left|right; right];
        (eapply S4; [|exact N]).
      - apply is_notna_clip01.
      - apply is_filled_clip01.
      - apply is_null_clip01. }
    eapply imputed_sub; [|exact N4]. intros cond. apply remove_duplicates_sub.
  - intros col Hcol.
    rewrite (select_dtypes_columns df1) in Hcol by congruence.
    apply remove_duplicates_sub. apply S4; [apply not_explicit_null_clip01|].
    apply S3. by apply O2.
  - intros col Hcol.
    assert (NoDup (map fst (columns df3))) as Hnd3 by (rewrite C3, C2; done).
    pose proof (cleaning_range_check_checked _ _ col Hnd3 H4 Hcol) as R4.
    unfold range_checked in *.
    rewrite (has_column_columns df4), (dtype_of_columns df4) by done.
    intros Hc. apply remove_duplicates_sub. by apply R4.
  - apply remove_duplicates_idem.
Qed.


End CleanTwice.




(** ** The model on the documented examples *)

(** The end-to-end scenario: a booked, a viewed and a generated interaction
    get the scores 5, 1, 0 and the booking flags 1, 0, 0. *)
Example scenario_labels :
  column Samples.labeled "engagement_score" = [VNum 5; VNum 1; VNum 0] /\
  column Samples.labeled "booking_probability" = [VNum 1; VNum 0; VNum 0] /\
  column Samples.labeled "time_to_interaction" = [VNum 10; VNum 5; VNull].
Proof. repeat split; vm_compute; reflexivity. Qed.

(** Age binning: 24 and 25 fall in 18-25, 66 in 65+, 101 in no bin. *)
Example age_bins :
  map (Anonymization.cut Config.AGE_BINS Config.AGE_LABELS) [24; 25; 26; 66; 0; 101]%Q
  = [Some "18-25"; Some "18-25"; Some "26-35"; Some "65+"; Some "18-25"; None].
Proof. reflexivity. Qed.

(** The anonymized frame of the scenario, whose interaction_type column is a
    string column, does not pass the range check of the validators either. *)
Example validation_raises_on_pipeline_output :
  Validators.validate_vector_ranges Samples.final = Raise TypeError.
Proof. vm_compute. reflexivity. Qed.


(** * Further properties of the stages *)

(** ** Loops and the column index *)

Lemma mapM_Forall2 {A B : Type} (f : A -> Result B) (l : list A) (ys : list B) :
  mapM f l = Ok ys -> Forall2 (fun x y => f x = Ok y) l ys.
Proof.
  revert ys. induction l as [|x l IH]; intros ys H; simpl in H.
  - injection H as <-. constructor.
  - bind_inv H as y Hy. bind_inv H as ys' Hys. injection H as <-. constructor; eauto.
Qed.

Lemma mapM_Raise {A B : Type} (f : A -> Result B) (l : list A) (e : Exn) :
  mapM f l = Raise e -> exists x, x ∈ l /\ f x = Raise e.
Proof.
  induction l as [|x l IH]; intros H; simpl in H; [done|].
  destruct (f x) as [y|e'] eqn:Hx; simpl in H.
  - destruct (mapM f l) as [ys|e'] eqn:Hl; simpl in H; [done|].
    injection H as ->. destruct IH as (x' & Hin & Hx'); [done|].
    exists x'. split; [by right|done].
  - injection H as ->. exists x. split; [left|done].
Qed.


Lemma existsb_set_dtype (cols : list (string * Dtype)) (col c : string) (d : Dtype) :
  existsb (fun cd => String.eqb cd.1 c) (set_dtype cols col d)
  = existsb (fun cd => String.eqb cd.1 c) cols || String.eqb col c.
Proof.
  unfold set_dtype. destruct (existsb _ cols) eqn:E.
  - assert (existsb (fun cd => String.eqb cd.1 c)
              (map (fun cd : string * Dtype => if String.eqb cd.1 col then (cd.1, d) else cd) cols)
            = existsb (fun cd => String.eqb cd.1 c) cols) as ->.
    { clear E. induction cols as [|[n d'] cols IH]; simpl; [done|].
      rewrite IH. f_equal. by destruct (String.eqb n col). }
    destruct (String.eqb col c) eqn:Ec; [|by rewrite orb_false_r].
    apply String.eqb_eq in Ec as <-. by rewrite E.
  - rewrite existsb_app. simpl. by rewrite orb_false_r.
Qed.

Lemma has_column_assign (df : DataFrame) (col c : string) (d : Dtype) (f : Row -> Cell) :
  has_column (assign df col d f) c = has_column df c || String.eqb col c.
Proof. apply existsb_set_dtype. Qed.

Lemma has_column_dtype_of (df : DataFrame) (c : string) :
  has_column df c = false <-> dtype_of df c = None.
Proof.
  unfold has_column, dtype_of. induction (columns df) as [|[n d] cols IH]; simpl; [done|].
  destruct (String.eqb n c); simpl; [split; discriminate|done].
Qed.

(** ** Label construction as a whole *)

Section LabelConstructionMore.
Import Config LabelConstruction Spec.
Variable parse_datetime : string -> option (option Z).
Variable str_num : Q -> string.
Variable str_time : Z -> string.

Lemma labelled_row_interaction_type (r : Row) (stage : Stage) :
  labelled_row parse_datetime str_num str_time r (ENGAGEMENT_SCORES stage)
    !! "interaction_type" = Some (VStr (stage_name stage)).
Proof.
  unfold labelled_row. rewrite lookup_insert_ne by done. rewrite lookup_insert_eq.
  do 2 f_equal. unfold get_interaction_type, get.
  rewrite !lookup_insert_ne by done. rewrite lookup_insert_eq. simpl.
  by destruct stage.
Qed.





Lemma calculate_engagement_score_stage (r : Row) (s : Q) :
  calculate_engagement_score r = Ok s -> exists stage, s = ENGAGEMENT_SCORES stage.
Proof.
  unfold calculate_engagement_score. destruct (r !! "status"); [|done].
  repeat match goal with
         | |- (if ?b then _ else _) = _ -> _ => destruct b
         end; intros [= <-];
    first [by exists BOOKED | by exists CLICKED | by exists VIEWED
          | by exists REJECTED | by exists NOT_VIEWED].
Qed.



Lemma construct_labels_has_column (df out : DataFrame) (c : string) :
  construct_labels parse_datetime str_num str_time df = Ok out ->
  has_column out c = has_column df c || existsb (fun l => String.eqb l c) label_columns.
Proof.
  unfold construct_labels. intros H. bind_inv H as scores Hs.
  match type of H with (if ?b then _ else _) = _ => destruct b end; [|discriminate].
  injection H as <-. rewrite !has_column_assign.
  unfold has_column at 1. cbn [columns]. rewrite existsb_set_dtype.
  fold (has_column df c). unfold label_columns. cbn [existsb].
  by rewrite orb_false_r, <- !orb_assoc.
Qed.



End LabelConstructionMore.

(** X1: in the frame that [construct_labels] returns, the interaction_type of
    a row is the name of the stage whose score [calculate_engagement_score]
    gave the row, and booking_probability is 1 exactly for the stage BOOKED. *)
Theorem interaction_type_matches_score
    (parse_datetime : string -> option (option Z))
    (str_num : Q -> string) (str_time : Z -> string)
    (df out : DataFrame) (i : nat) (row : Row) :
  LabelConstruction.construct_labels parse_datetime str_num str_time df = Ok out ->
  rows df !! i = Some row ->
  exists (row' : Row) (stage : Config.Stage),
    rows out !! i = Some row' /\
    LabelConstruction.calculate_engagement_score row = Ok (Config.ENGAGEMENT_SCORES stage) /\
    row' !! "engagement_score" = Some (VNum (Config.ENGAGEMENT_SCORES stage)) /\
    row' !! "interaction_type" = Some (VStr (Config.stage_name stage)) /\
    row' !! "booking_probability"
      = Some (VNum (match stage with Config.BOOKED => 1 | _ => 0 end)).
Proof.
  intros H Hi.
  destruct (construct_labels_row _ _ _ _ _ _ _ H Hi) as (s & Hs & Hout).
  destruct (calculate_engagement_score_stage _ _ Hs) as [stage ->].
  eexists _, stage. split; [exact Hout|]. split; [done|].
  split; [apply labelled_row_score|]. split; [apply labelled_row_interaction_type|].
  rewrite labelled_row_booking. by destruct stage.
Qed.

Lemma interaction_type_matches_score_witness :
  exists (row' : Row) (stage : Config.Stage),
    rows Samples.labeled !! 0%nat = Some row' /\
    LabelConstruction.calculate_engagement_score Samples.booked_row
      = Ok (Config.ENGAGEMENT_SCORES stage) /\
    row' !! "engagement_score" = Some (VNum (Config.ENGAGEMENT_SCORES stage)) /\
    row' !! "interaction_type" = Some (VStr (Config.stage_name stage)) /\
    row' !! "booking_probability"
      = Some (VNum (match stage with Config.BOOKED => 1 | _ => 0 end)).
Proof.
  apply (interaction_type_matches_score Samples.parse_datetime Samples.str_num
           Samples.str_time Samples.interactions Samples.labeled 0 Samples.booked_row).
  - vm_compute. reflexivity.
  - reflexivity.
Defined.




(** X4: the frame that [construct_labels] returns passes the two label
    validators: every engagement_score is one of -1, 0, 1, 3, 5 and every
    booking_probability is 0 or 1. *)
Theorem constructed_labels_validate
    (parse_datetime : string -> option (option Z))
    (str_num : Q -> string) (str_time : Z -> string) (df out : DataFrame) :
  LabelConstruction.construct_labels parse_datetime str_num str_time df = Ok out ->
  Validators.validate_engagement_scores out = Ok true /\
  Validators.validate_booking_probability out = Ok true.
Proof.
  intros H.
  pose proof (construct_labels_rows _ _ _ _ _ H) as (scores & Hs & Hrows).
  pose proof (mapM_length _ _ _ Hs) as Hlen.
  assert (Forall (fun s => exists stage, s = Config.ENGAGEMENT_SCORES stage) scores) as Hst.
  { apply mapM_Forall2 in Hs. clear -Hs.
    induction Hs as [|r s l k Hr _ IH]; constructor; [|done].
    by eapply calculate_engagement_score_stage. }
  assert (forall (g : Cell -> bool) (col : string) (h : Q -> Cell),
            (forall r s, labelled_row parse_datetime str_num str_time r s !! col
                         = Some (h s)) ->
            (forall stage, g (h (Config.ENGAGEMENT_SCORES stage)) = true) ->
            forallb g (column out col) = true) as Hall.
  { intros g col h Hcol Hg. unfold column. rewrite Hrows. clear -Hst Hcol Hg.
    revert scores Hst. induction (rows df) as [|r l IH]; intros [|s k] Hk; [done..|].
    apply Forall_cons in Hk as [[stage ->] Hk]. cbn [zip_with map forallb].
    unfold get at 1. rewrite Hcol. cbn [from_option id]. rewrite Hg. by apply IH. }
  split.
  - unfold Validators.validate_engagement_scores.
    destruct (has_column out "engagement_score"); [|done].
    rewrite (Hall _ _ VNum); [done|apply labelled_row_score|]. by intros [].
  - unfold Validators.validate_booking_probability.
    destruct (has_column out "booking_probability"); [|done].
    rewrite (Hall _ _ (fun s => LabelConstruction.booked_flag (VNum s)));
      [done|apply labelled_row_booking|]. by intros [].
Qed.

Lemma constructed_labels_validate_witness :
  Validators.validate_engagement_scores Samples.labeled = Ok true /\
  Validators.validate_booking_probability Samples.labeled = Ok true.
Proof.
  apply (constructed_labels_validate Samples.parse_datetime Samples.str_num
           Samples.str_time Samples.interactions Samples.labeled).
  vm_compute. reflexivity.
Defined.

(** ** Negative sampling: what is kept and how it fails *)

Lemma filterM_Raise {A : Type} (p : A -> Result bool) (l : list A) (e : Exn) :
  filterM p l = Raise e -> exists x, x ∈ l /\ p x = Raise e.
Proof.
  induction l as [|x l IH]; intros H; simpl in H; [done|].
  destruct (p x) as [b|e'] eqn:Hx; simpl in H.
  - destruct (filterM p l) as [t|e'] eqn:Hl; simpl in H; [done|].
    injection H as ->. destruct IH as (x' & Hin & Hx'); [done|].
    exists x'. split; [by right|done].
  - injection H as ->. exists x. split; [left|done].
Qed.


Lemma cmp_value_Raise (c : Cell) (e : Exn) : cmp_value c = Raise e -> e = TypeError.
Proof. destruct c; simpl; congruence. Qed.

Lemma comparable_column_Raise (df : DataFrame) (col : string) (e : Exn) :
  comparable_column df col = Raise e ->
  (e = KeyError col /\ has_column df col = false) \/
  (e = TypeError /\ has_column df col = true).
Proof.
  unfold comparable_column. destruct (dtype_of df col) as [d|] eqn:Hd.
  - assert (has_column df col = true) as Hc.
    { apply not_false_iff_true. intros Hc. apply has_column_dtype_of in Hc. congruence. }
    destruct d; intros [= <-]; by right.
  - intros [= <-]. left. split; [done|]. by apply has_column_dtype_of.
Qed.




(** ** Cell maps: stages that rewrite cells column by column *)

Lemma cells_mapped_refl (c : string) (l : list Row) : cells_mapped c id l l.
Proof. apply Forall2_same_length_lookup_2; [done|]. intros i r r' H1 H2.
  rewrite H1 in H2. injection H2 as <-. by rewrite option_fmap_id. Qed.

Lemma cells_mapped_ext (c : string) (g h : Cell -> Cell) (l l' : list Row) :
  (forall x, g x = h x) -> cells_mapped c g l l' -> cells_mapped c h l l'.
Proof.
  intros E H. eapply Forall2_impl; [exact H|]. intros r r' ->. simpl.
  destruct (r !! c); simpl; [by rewrite E|done].
Qed.

Lemma cells_mapped_trans (c : string) (g h : Cell -> Cell) (l l' l'' : list Row) :
  cells_mapped c g l l' -> cells_mapped c h l' l'' ->
  cells_mapped c (fun x => h (g x)) l l''.
Proof.
  intros H1. revert l''. induction H1 as [|r r' l l' Hr _ IH]; intros l'' H2.
  - inversion H2. constructor.
  - inversion H2 as [|? r'' ? l3 Hr' H3]; subst. constructor; [|by apply IH].
    rewrite Hr', Hr. by destruct (r !! c).
Qed.

Lemma cells_mapped_alter (c : string) (g : Cell -> Cell) (l : list Row) :
  cells_mapped c g l (map (alter g c) l).
Proof. induction l; constructor; [by rewrite lookup_alter_eq|done]. Qed.

Lemma cells_mapped_alter_ne (c c' : string) (g : Cell -> Cell) (l : list Row) :
  c' <> c -> cells_mapped c id l (map (alter g c') l).
Proof.
  intros Hne. induction l; constructor; [|done].
  rewrite lookup_alter_ne by done. by rewrite option_fmap_id.
Qed.

Lemma cells_mapped_length (c : string) (g : Cell -> Cell) (l l' : list Row) :
  cells_mapped c g l l' -> length l' = length l.
Proof. intros H. symmetry. by eapply Forall2_length. Qed.

Lemma cells_mapped_column (c : string) (l l' : list Row) :
  cells_mapped c id l l' -> map (fun r => get r c) l' = map (fun r => get r c) l.
Proof.
  induction 1 as [|r r' l l' Hr _ IH]; simpl; [done|]. f_equal; [|done].
  unfold get. rewrite Hr. by rewrite option_fmap_id.
Qed.

(** A loop over distinct columns whose body rewrites the cells of its own
    column, by a function that depends on the column index and on that column
    only, and leaves the other columns and the index alone. *)
Lemma foldM_columnwise (f : DataFrame -> string -> Result DataFrame)
    (G : DataFrame -> string -> Cell -> Cell) :
  (forall d d' c, columns d' = columns d -> column d' c = column d c ->
                  forall x, G d' c x = G d c x) ->
  (forall d c s, f d c = Ok s ->
     columns s = columns d /\
     cells_mapped c (G d c) (rows d) (rows s) /\
     forall c', c' <> c -> cells_mapped c' id (rows d) (rows s)) ->
  forall cols df s, NoDup cols -> foldM f df cols = Ok s ->
  columns s = columns df /\
  forall c, cells_mapped c (if bool_decide (c ∈ cols) then G df c else id) (rows df) (rows s).
Proof.
  intros HG Hf. induction cols as [|c0 cols IH]; intros df s Hnd H; simpl in H.
  - injection H as <-. split; [done|]. intros c. apply cells_mapped_refl.
  - bind_inv H as d1 H1. apply NoDup_cons in Hnd as [Hc0 Hnd].
    destruct (Hf _ _ _ H1) as (Hcols1 & Hown & Hother).
    destruct (IH _ _ Hnd H) as [Hcols IH'].
    split; [congruence|]. intros c. specialize (IH' c).
    destruct (decide (c = c0)) as [->|Hne].
    + rewrite bool_decide_eq_true_2 by left.
      rewrite bool_decide_eq_false_2 in IH' by done.
      eapply cells_mapped_ext; [|eapply cells_mapped_trans; [exact Hown|exact IH']]. done.
    + specialize (Hother c Hne).
      eapply cells_mapped_ext; [|eapply cells_mapped_trans; [exact Hother|exact IH']].
      intros x. simpl.
      destruct (bool_decide (c ∈ cols)) eqn:E.
      * rewrite bool_decide_eq_true_2.
        -- apply HG; [done|]. by apply cells_mapped_column.
        -- right. by apply bool_decide_eq_true in E.
      * rewrite bool_decide_eq_false_2; [done|].
        apply bool_decide_eq_false in E. intros [?|?]%elem_of_cons; done.
Qed.

Lemma dtype_of_elem (df : DataFrame) (c : string) (d : Dtype) :
  dtype_of df c = Some d -> (c, d) ∈ columns df.
Proof.
  unfold dtype_of. induction (columns df) as [|[n d'] cols IH]; simpl; [done|].
  destruct (String.eqb n c) eqn:E; simpl.
  - intros [= <-]. apply String.eqb_eq in E as <-. left.
  - intros H. right. auto.
Qed.

Lemma elem_dtype_of (df : DataFrame) (c : string) (d : Dtype) :
  NoDup (map fst (columns df)) -> (c, d) ∈ columns df -> dtype_of df c = Some d.
Proof.
  intros Hnd Hin. destruct (dtype_of df c) as [d'|] eqn:E.
  - apply dtype_of_elem in E. f_equal. by eapply columns_fst_NoDup.
  - apply has_column_dtype_of in E. exfalso.
    apply not_true_iff_false in E. apply E. apply existsb_exists.
    exists (c, d). split; [by apply list_elem_of_In|]. apply String.eqb_refl.
Qed.

Lemma select_dtypes_dtype_of (df : DataFrame) (c : string) (include : list Dtype) :
  NoDup (map fst (columns df)) ->
  c ∈ select_dtypes df include <-> exists d, dtype_of df c = Some d /\ d ∈ include.
Proof.
  intros Hnd. split.
  - intros H. apply select_dtypes_elem in H as (d & Hd & Hin).
    exists d. split; [by apply elem_dtype_of|done].
  - intros (d & Hd & Hin). eapply select_dtypes_in; [by apply dtype_of_elem|done].
Qed.

(** ** Cleaning: the stages one by one *)

Section CleaningMore.
Import DataCleaning.

Lemma filter_filter {A : Type} (f g : A -> bool) (l : list A) :
  List.filter f (List.filter g l) = List.filter (fun x => g x && f x) l.
Proof.
  induction l as [|x l IH]; simpl; [done|].
  destruct (g x); simpl; [destruct (f x); by rewrite IH|done].
Qed.

Lemma dropna_all_filter (cols : list string) (df : DataFrame) :
  rows (foldl dropna_if_present df cols)
  = List.filter (fun r => forallb (fun c => negb (has_column df c) || notna (get r c)) cols)
                (rows df).
Proof.
  revert df. induction cols as [|c cols IH]; intros df; simpl.
  - symmetry. by apply filter_all.
  - rewrite IH.
    assert (forall c', has_column (dropna_if_present df c) c' = has_column df c') as Hc.
    { intros c'. apply has_column_columns, dropna_columns. }
    assert (forall r : Row,
              forallb (fun c' => negb (has_column (dropna_if_present df c) c')
                                 || notna (get r c')) cols
              = forallb (fun c' => negb (has_column df c') || notna (get r c')) cols) as Hf.
    { intros r. clear IH. induction cols as [|c1 cols IHc]; simpl; [done|].
      by rewrite Hc, IHc. }
    rewrite (List.filter_ext _ _ Hf).
    unfold dropna_if_present. destruct (has_column df c) eqn:E; simpl; [|done].
    by rewrite filter_filter.
Qed.

Lemma fillna_notna (v x : Cell) : x <> VNull -> fillna v x = x.
Proof. by destruct x. Qed.

Lemma fillna_null (x : Cell) : fillna VNull x = x.
Proof. by destruct x. Qed.

Lemma cells_mapped_notna (c : string) (v : Cell) (l : list Row) :
  cells_at c is_notna l -> cells_mapped c (fillna v) l l.
Proof.
  intros H. induction H as [|r l Hr _ IH]; constructor; [|done].
  unfold is_notna in Hr. destruct (r !! c) as [x|]; simpl in *; [|done].
  by rewrite fillna_notna.
Qed.

Lemma impute_numeric_cells (d s : DataFrame) (c : string) :
  impute_numeric d c = Ok s ->
  columns s = columns d /\
  cells_mapped c (fillna (median_fill (column d c))) (rows d) (rows s) /\
  forall c', c' <> c -> cells_mapped c' id (rows d) (rows s).
Proof.
  intros H. split; [by eapply impute_numeric_columns|].
  unfold impute_numeric in H. destruct (0 <? missing_count d c)%nat eqn:E.
  - bind_inv H as xs Hxs. unfold median_fill. rewrite Hxs.
    destruct (median xs) as [m|]; injection H as <-.
    + split; [apply cells_mapped_alter|]. intros c' Hne. by apply cells_mapped_alter_ne.
    + split; [|intros; apply cells_mapped_refl].
      eapply cells_mapped_ext; [|apply cells_mapped_refl]. intros x. by rewrite fillna_null.
  - injection H as <-. split; [|intros; apply cells_mapped_refl].
    apply cells_mapped_notna. by apply missing_count_zero.
Qed.

Lemma impute_categorical_cells (d : DataFrame) (c : string) :
  columns (impute_categorical d c) = columns d /\
  cells_mapped c (fillna (VStr "UNKNOWN")) (rows d) (rows (impute_categorical d c)) /\
  forall c', c' <> c -> cells_mapped c' id (rows d) (rows (impute_categorical d c)).
Proof.
  split; [apply impute_categorical_columns|].
  unfold impute_categorical. destruct (0 <? missing_count d c)%nat eqn:E.
  - split; [apply cells_mapped_alter|]. intros c' Hne. by apply cells_mapped_alter_ne.
  - split; [|intros; apply cells_mapped_refl].
    apply cells_mapped_notna. by apply missing_count_zero.
Qed.

End CleaningMore.

(** X7: [remove_missing_required] is one filter: it keeps, in their order,
    exactly the rows that are not null in any of user_id, user_climate_pref,
    recommendation_score and engagement_score that the frame has as a column;
    the columns stay. *)
Theorem remove_missing_required_filter (df : DataFrame) :
  columns (DataCleaning.remove_missing_required df) = columns df /\
  rows (DataCleaning.remove_missing_required df)
  = List.filter
      (fun r => forallb (fun c => negb (has_column df c) || notna (get r c))
                        ["user_id"; "user_climate_pref"; "recommendation_score";
                         "engagement_score"])
      (rows df).
Proof.
  split; [apply dropna_all_columns|apply dropna_all_filter].
Qed.

(** X8: what [impute_missing_values] does to a frame with distinct column
    names, cell by cell ([fillna(..., inplace=True)] on [df[col]] is taken to
    update the frame): the rows keep their number and order, the columns
    stay, and in every column each null cell is replaced by the column's fill
    value and no other cell changes.  The fill value is the median of the
    column's own numbers as they were on entry for a float or int column,
    'UNKNOWN' for an object column, and null (no change) for any other
    column and for a numerical column without a number. *)
Theorem impute_missing_values_cells (df s : DataFrame) :
  NoDup (map fst (columns df)) ->
  DataCleaning.impute_missing_values df = Ok s ->
  columns s = columns df /\
  length (rows s) = length (rows df) /\
  forall c, cells_mapped c (fillna (fill_value df c)) (rows df) (rows s).
Proof.
  intros Hnd H. unfold DataCleaning.impute_missing_values in H. bind_inv H as d1 H1.
  injection H as <-.
  assert (Hcols1 : columns d1 = columns df /\
            forall c, cells_mapped c
                        (if bool_decide (c ∈ select_dtypes df [DFloat; DInt])
                         then fillna (median_fill (column df c)) else id)
                        (rows df) (rows d1)).
  { apply (foldM_columnwise DataCleaning.impute_numeric
             (fun d c => fillna (median_fill (column d c)))); [| |by apply select_dtypes_NoDup|done].
    - intros d d' c _ Hc x. by rewrite Hc.
    - intros d c s'. apply impute_numeric_cells. }
  destruct Hcols1 as [Hcols1 Hcells1].
  assert (Hcols2 : columns (foldl DataCleaning.impute_categorical d1
                              (select_dtypes d1 [DObject])) = columns d1 /\
            forall c, cells_mapped c
                        (if bool_decide (c ∈ select_dtypes d1 [DObject])
                         then fillna (VStr "UNKNOWN") else id)
                        (rows d1)
                        (rows (foldl DataCleaning.impute_categorical d1
                                 (select_dtypes d1 [DObject])))).
  { apply (foldM_columnwise (fun d c => Ok (DataCleaning.impute_categorical d c))
             (fun _ _ => fillna (VStr "UNKNOWN"))).
    - done.
    - intros d c s' [= <-]. apply impute_categorical_cells.
    - apply select_dtypes_NoDup. by rewrite Hcols1.
    - apply foldM_pure. }
  destruct Hcols2 as [Hcols2 Hcells2].
  split; [congruence|]. split.
  { rewrite (cells_mapped_length _ _ _ _ (Hcells2 "")).
    apply (cells_mapped_length _ _ _ _ (Hcells1 "")). }
  intros c. specialize (Hcells1 c). specialize (Hcells2 c).
  rewrite (select_dtypes_columns df d1) in Hcells2 |- * by done.
  eapply cells_mapped_ext; [|eapply cells_mapped_trans; [exact Hcells1|exact Hcells2]].
  intros x. simpl. unfold fill_value.
  destruct (bool_decide (c ∈ select_dtypes df [DFloat; DInt])) eqn:E1.
  - apply bool_decide_eq_true in E1.
    rewrite bool_decide_eq_false_2.
    2:{ intros E2. by eapply (numeric_not_object df c c). }
    apply select_dtypes_dtype_of in E1 as (d & -> & Hd); [|done].
    apply elem_of_cons in Hd as [->|Hd]; [done|].
    apply list_elem_of_singleton in Hd as ->. done.
  - apply bool_decide_eq_false in E1.
    destruct (bool_decide (c ∈ select_dtypes df [DObject])) eqn:E2.
    + apply bool_decide_eq_true in E2.
      apply select_dtypes_dtype_of in E2 as (d & -> & Hd); [|done].
      apply list_elem_of_singleton in Hd as ->. done.
    + apply bool_decide_eq_false in E2. simpl.
      destruct (dtype_of df c) as [d|] eqn:Ed; [|by rewrite fillna_null].
      destruct d; try by rewrite fillna_null.
      * exfalso. apply E1. apply select_dtypes_dtype_of; [done|].
        exists DFloat. split; [done|left].
      * exfalso. apply E1. apply select_dtypes_dtype_of; [done|].
        exists DInt. split; [done|right; left].
      * exfalso. apply E2. apply select_dtypes_dtype_of; [done|].
        exists DObject. split; [done|left].
Qed.

Lemma impute_missing_values_cells_witness :
  let s := Samples.value (DataCleaning.impute_missing_values MoreSamples.gaps) in
  columns s = columns MoreSamples.gaps /\
  length (rows s) = length (rows MoreSamples.gaps) /\
  forall c, cells_mapped c (fillna (fill_value MoreSamples.gaps c))
                         (rows MoreSamples.gaps) (rows s).
Proof.
  apply (impute_missing_values_cells MoreSamples.gaps).
  - apply (bool_decide_unpack _). vm_compute. exact I.
  - vm_compute. reflexivity.
Defined.

Section RangeCheckMore.
Import DataCleaning.

Lemma clip01_in_range_id (x : Cell) : out_of_range_cell x = Ok false -> clip01 x = x.
Proof.
  destruct x as [|q|s|b|t]; try done.
  unfold out_of_range_cell, lt_scalar, gt_scalar. simpl. intros [= H].
  apply orb_false_elim in H as [H1 H2]. by rewrite H1, H2.
Qed.

Lemma in_range_in_unit_range (x : Cell) : out_of_range_cell x = Ok false -> in_unit_range x.
Proof.
  destruct x as [|q|s|b|t]; try done.
  unfold out_of_range_cell, lt_scalar, gt_scalar, Qltb. simpl. intros [= H].
  apply orb_false_elim in H as [H1 H2].
  apply negb_false_iff, Qle_bool_iff in H1. apply negb_false_iff, Qle_bool_iff in H2. done.
Qed.

Lemma out_of_range_zero (d : DataFrame) (c : string) (n : nat) :
  out_of_range d c = Ok n -> (0 <? n)%nat = false ->
  Forall (fun x => out_of_range_cell x = Ok false) (column d c).
Proof.
  unfold out_of_range. intros H Hn. bind_inv H as u Hu. bind_inv H as flags Hf.
  injection H as <-. by eapply mapM_no_flag.
Qed.

Lemma clip_vector_col_cells (d s : DataFrame) (c : string) :
  clip_vector_col d c = Ok s ->
  columns s = columns d /\
  cells_mapped c (if has_column d c && bool_decide (dtype_of d c = Some DFloat)
                  then clip01 else id) (rows d) (rows s) /\
  forall c', c' <> c -> cells_mapped c' id (rows d) (rows s).
Proof.
  intros H. split; [by apply clip_vector_col_rows in H as [? _]|].
  unfold clip_vector_col in H.
  destruct (has_column d c && bool_decide (dtype_of d c = Some DFloat)).
  - bind_inv H as n Hn. destruct (0 <? n)%nat eqn:E; injection H as <-.
    + split; [apply cells_mapped_alter|]. intros c' Hne. by apply cells_mapped_alter_ne.
    + split; [|intros; apply cells_mapped_refl].
      pose proof (out_of_range_zero _ _ _ Hn E) as Hall. unfold column in Hall.
      apply Forall_fmap in Hall. clear -Hall.
      induction Hall as [|r l Hr _ IH]; constructor; [|done].
      simpl in Hr. unfold get in Hr. destruct (r !! c) as [x|]; simpl in *; [|done].
      by rewrite clip01_in_range_id.
  - injection H as <-. split; intros; apply cells_mapped_refl.
Qed.

Lemma vector_cols_elem (df : DataFrame) (c : string) :
  dtype_of df c = Some DFloat -> is_vector_col c = true ->
  c ∈ List.filter is_vector_col (map fst (columns df)).
Proof.
  intros Hd Hv. apply elem_of_filter_bool. split; [|done].
  apply dtype_of_elem in Hd. apply list_elem_of_fmap. by exists (c, DFloat).
Qed.

Lemma cleaning_range_check_cells_aux (df s : DataFrame) :
  NoDup (map fst (columns df)) ->
  validate_vector_ranges df = Ok s ->
  columns s = columns df /\
  forall c, cells_mapped c (if clipped_column df c then clip01 else id) (rows df) (rows s).
Proof.
  intros Hnd H. unfold validate_vector_ranges in H.
  destruct (foldM_columnwise clip_vector_col
              (fun d c => if has_column d c && bool_decide (dtype_of d c = Some DFloat)
                          then clip01 else id)) with
    (cols := List.filter is_vector_col (map fst (columns df))) (df := df) (s := s)
    as [Hcols Hcells]; [| |by apply vector_cols_NoDup|done|].
  - intros d d' c Hc _ x.
    by rewrite (has_column_columns d d'), (dtype_of_columns d d').
  - intros d c s'. apply clip_vector_col_cells.
  - split; [done|]. intros c. specialize (Hcells c).
    eapply cells_mapped_ext; [|exact Hcells]. intros x. unfold clipped_column.
    destruct (bool_decide (dtype_of df c = Some DFloat)) eqn:Ed.
    + apply bool_decide_eq_true in Ed. destruct (is_vector_col c) eqn:Ev; simpl.
      * rewrite bool_decide_eq_true_2 by by apply vector_cols_elem.
        assert (has_column df c = true) as ->; [|done].
        apply not_false_iff_true. intros Hc. apply has_column_dtype_of in Hc. congruence.
      * rewrite bool_decide_eq_false_2; [done|].
        intros Hin. apply elem_of_filter_bool in Hin as [_ ?]. congruence.
    + rewrite !andb_false_r. by case_bool_decide.
Qed.

End RangeCheckMore.

(** X9: what the range check of the cleaning stage does to a frame with
    distinct column names, cell by cell: it clips to [0, 1] the float columns
    whose name contains _pref or _level or starts with user_ or item_, and
    changes nothing else.  Afterwards every cell of such a column is null or a
    number in [0, 1]; this includes user_age when that column is a float
    column. *)
Theorem cleaning_range_check_cells (df s : DataFrame) :
  NoDup (map fst (columns df)) ->
  DataCleaning.validate_vector_ranges df = Ok s ->
  columns s = columns df /\
  length (rows s) = length (rows df) /\
  (forall c, cells_mapped c (if clipped_column df c then clip01 else id)
                          (rows df) (rows s)) /\
  (forall c, clipped_column df c = true -> Forall in_unit_range (column s c)) /\
  (dtype_of df "user_age" = Some DFloat -> Forall in_unit_range (column s "user_age")).
Proof.
  intros Hnd H.
  pose proof (fun c => cleaning_range_check_checked df s c Hnd H) as Hchecked.
  destruct (cleaning_range_check_cells_aux _ _ Hnd H) as [Hcols Hcells].
  assert (forall c, clipped_column df c = true -> Forall in_unit_range (column s c)) as Hr.
  { intros c Hc. unfold clipped_column in Hc. apply andb_true_iff in Hc as [Hv Hd].
    apply bool_decide_eq_true in Hd.
    specialize (Hchecked c Hv). unfold range_checked in Hchecked.
    rewrite (has_column_columns df s), (dtype_of_columns df s) in Hchecked by done.
    assert (has_column df c = true) as Hhas.
    { apply not_false_iff_true. intros Hc. apply has_column_dtype_of in Hc. congruence. }
    rewrite Hhas, bool_decide_eq_true_2 in Hchecked by done.
    specialize (Hchecked eq_refl). unfold column. apply Forall_fmap.
    eapply Forall_impl; [exact Hchecked|]. intros r Hin. simpl.
    by apply in_range_in_unit_range. }
  split; [done|]. split; [exact (cells_mapped_length _ _ _ _ (Hcells ""))|].
  split; [done|]. split; [done|].
  intros Hd. apply Hr. unfold clipped_column. rewrite bool_decide_eq_true_2 by done.
  vm_compute. reflexivity.
Qed.

Lemma cleaning_range_check_cells_witness :
  let df := MoreSamples.gaps in
  let s := Samples.value (DataCleaning.validate_vector_ranges df) in
  columns s = columns df /\
  length (rows s) = length (rows df) /\
  (forall c, cells_mapped c (if clipped_column df c then clip01 else id)
                          (rows df) (rows s)) /\
  (forall c, clipped_column df c = true -> Forall in_unit_range (column s c)) /\
  (dtype_of df "user_age" = Some DFloat -> Forall in_unit_range (column s "user_age")).
Proof.
  apply (cleaning_range_check_cells MoreSamples.gaps).
  - apply (bool_decide_unpack _). vm_compute. exact I.
  - vm_compute. reflexivity.
Defined.

(** ** Outliers *)




(** ** Duplicates *)

Section DuplicatesMore.
Import DataCleaning.

Lemma cell_eqb_refl (x : Cell) : cell_eqb x x = true.
Proof.
  destruct x as [|q|s|[]|t]; simpl; try done.
  - by apply Qeq_bool_iff.
  - apply String.eqb_refl.
  - apply Z.eqb_refl.
Qed.

Local Abbreviation matches := (fun k k' : list Cell => forallb id (zip_with cell_eqb k k')).

Lemma drop_duplicates_sublist (key : Row -> list Cell) (seen : list (list Cell))
    (l : list Row) :
  sublist (drop_duplicates key seen l) l.
Proof.
  revert seen. induction l as [|r l IH]; intros seen; simpl; [done|].
  destruct (existsb _ seen); [apply sublist_cons, IH|apply sublist_skip, IH].
Qed.

Lemma drop_duplicates_unseen (key : Row -> list Cell) (seen : list (list Cell))
    (l : list Row) (r : Row) :
  r ∈ drop_duplicates key seen l -> existsb (fun k => matches k (key r)) seen = false.
Proof.
  revert seen. induction l as [|x l IH]; intros seen; simpl; [by intros ?%elem_of_nil|].
  destruct (existsb _ seen) eqn:E; [apply IH|].
  intros [-> | Hin]%elem_of_cons; [done|].
  apply IH in Hin. simpl in Hin. by apply orb_false_elim in Hin as [_ ?].
Qed.

Lemma drop_duplicates_distinct (key : Row -> list Cell) (seen : list (list Cell))
    (l : list Row) (i j : nat) (ri rj : Row) :
  (i < j)%nat ->
  drop_duplicates key seen l !! i = Some ri ->
  drop_duplicates key seen l !! j = Some rj ->
  matches (key ri) (key rj) = false.
Proof.
  revert seen i j. induction l as [|x l IH]; intros seen i j Hij; simpl; [done|].
  destruct (existsb _ seen) eqn:E; [by apply IH|].
  destruct j as [|j]; [lia|]. destruct i as [|i]; simpl.
  - intros [= <-] Hj. apply list_elem_of_lookup_2 in Hj.
    apply drop_duplicates_unseen in Hj. simpl in Hj.
    by apply orb_false_elim in Hj as [? _].
  - apply IH. lia.
Qed.

Lemma drop_duplicates_represented (key : Row -> list Cell) (seen : list (list Cell))
    (l : list Row) (r : Row) :
  (forall r', matches (key r') (key r') = true) ->
  r ∈ l ->
  existsb (fun k => matches k (key r)) seen = true \/
  exists r', r' ∈ drop_duplicates key seen l /\ matches (key r') (key r) = true.
Proof.
  intros Hrefl. revert seen. induction l as [|x l IH]; intros seen; [by intros ?%elem_of_nil|].
  simpl. intros [-> | Hin]%elem_of_cons.
  - destruct (existsb _ seen) eqn:E; [by left|]. right. exists x. split; [left|done].
  - destruct (existsb (fun k => matches k (key x)) seen) eqn:E; [by apply IH|].
    destruct (IH (key x :: seen) Hin) as [Hs|(r' & Hr' & Hm)].
    + simpl in Hs. apply orb_true_iff in Hs as [Hs|Hs]; [|by left].
      right. exists x. split; [left|done].
    + right. exists r'. split; [by right|done].
Qed.

Lemma same_key_matches (r r' : Row) :
  matches [get r "user_id"; get r "recommendation_id"]
          [get r' "user_id"; get r' "recommendation_id"] = same_key r r'.
Proof. unfold same_key. simpl. by rewrite andb_true_r. Qed.

Lemma remove_duplicates_distinct (df : DataFrame) (i j : nat) (ri rj : Row) :
  has_column df "user_id" && has_column df "recommendation_id" = true ->
  (i < j)%nat ->
  rows (remove_duplicates df) !! i = Some ri ->
  rows (remove_duplicates df) !! j = Some rj ->
  same_key ri rj = false.
Proof.
  intros Hc Hij. unfold remove_duplicates. rewrite Hc. simpl. intros Hi Hj.
  rewrite <- same_key_matches.
  exact (drop_duplicates_distinct
           (fun r => [get r "user_id"; get r "recommendation_id"]) [] _ i j ri rj Hij Hi Hj).
Qed.

Lemma remove_duplicates_sublist (df : DataFrame) :
  sublist (rows (remove_duplicates df)) (rows df).
Proof.
  unfold remove_duplicates. destruct (_ && _); simpl; [apply drop_duplicates_sublist|done].
Qed.

End DuplicatesMore.

(** X11: [remove_duplicates].  With both key columns in the frame, it keeps a
    subsequence of the rows in which no two rows have the same
    (user_id, recommendation_id) key, and every row of the input has a row
    with its key among them; two nulls count as the same value.  Without one
    of the key columns the frame comes back unchanged. *)
Theorem remove_duplicates_spec (df : DataFrame) :
  let out := DataCleaning.remove_duplicates df in
  columns out = columns df /\
  sublist (rows out) (rows df) /\
  if has_column df "user_id" && has_column df "recommendation_id" then
    (forall i j ri rj, (i < j)%nat -> rows out !! i = Some ri -> rows out !! j = Some rj ->
                       same_key ri rj = false) /\
    (forall r, r ∈ rows df -> exists r', r' ∈ rows out /\ same_key r' r = true)
  else out = df.
Proof.
  intros out. subst out. split; [apply remove_duplicates_columns|].
  split; [apply remove_duplicates_sublist|].
  destruct (has_column df "user_id" && has_column df "recommendation_id") eqn:Hc.
  - split.
    + intros i j ri rj. by apply remove_duplicates_distinct.
    + intros r Hr. unfold DataCleaning.remove_duplicates. rewrite Hc. simpl.
      destruct (drop_duplicates_represented
                  (fun r => [get r "user_id"; get r "recommendation_id"]) [] (rows df) r)
        as [Hs|(r' & Hr' & Hm)]; [|done|done|].
      * intros r'. rewrite same_key_matches. unfold same_key.
        by rewrite !cell_eqb_refl.
      * exists r'. split; [done|]. by rewrite <- same_key_matches.
  - unfold DataCleaning.remove_duplicates. by rewrite Hc.
Qed.

(** ** The cleaning stage as a whole *)

Section CleanDatasetMore.
Import DataCleaning.

Lemma filterM_length {A : Type} (p : A -> Result bool) (l l' : list A) :
  filterM p l = Ok l' -> (length l' <= length l)%nat.
Proof. intros H. apply filterM_Ok in H as ->. apply List.filter_length_le. Qed.

Lemma clean_dataset_length (df out : DataFrame) :
  clean_dataset df = Ok out -> (length (rows out) <= length (rows df))%nat.
Proof.
  unfold clean_dataset. intros H. bind_inv H as d2 H2. bind_inv H as d3 H3.
  bind_inv H as d4 H4. injection H as <-.
  assert (length (rows (remove_missing_required df)) <= length (rows df))%nat as L1.
  { unfold remove_missing_required. rewrite dropna_all_filter. apply List.filter_length_le. }
  assert (length (rows d2) = length (rows (remove_missing_required df))) as L2.
  { unfold impute_missing_values in H2. bind_inv H2 as d H1. injection H2 as <-.
    transitivity (length (rows d)).
    - apply (foldl_invariant (fun s => length (rows s) = length (rows d))); [|done].
      intros s c _ Hs. destruct (impute_categorical_rows s c) as [-> | ->]; [done|].
      by rewrite length_map.
    - revert H1. apply (foldM_invariant
        (fun s => length (rows s) = length (rows (remove_missing_required df)))); [|done].
      intros s c s' _ Hs Hstep. apply impute_numeric_rows in Hstep as [-> | [v ->]]; [done|].
      by rewrite length_map. }
  assert (length (rows d3) <= length (rows d2))%nat as L3.
  { revert H3. unfold remove_outliers.
    apply (foldM_invariant (fun s => length (rows s) <= length (rows d2))%nat); [|done].
    intros s c s' _ Hs Hstep. unfold remove_outliers_col in Hstep.
    destruct (has_column s c); [|by injection Hstep as <-].
    bind_inv Hstep as xs Hxs.
    destruct (mean xs), (variance xs); try by injection Hstep as <-.
    destruct (Qltb 0 _); [|by injection Hstep as <-].
    bind_inv Hstep as kept Hk. injection Hstep as <-. simpl.
    apply filterM_length in Hk. lia. }
  assert (length (rows d4) = length (rows d3)) as L4.
  { revert H4. unfold validate_vector_ranges.
    apply (foldM_invariant (fun s => length (rows s) = length (rows d3))); [|done].
    intros s c s' _ Hs Hstep. apply clip_vector_col_rows in Hstep as [_ [-> | ->]]; [done|].
    by rewrite length_map. }
  pose proof (sublist_length _ _ (remove_duplicates_sublist d4)). lia.
Qed.

End CleanDatasetMore.

(** X12: what holds of the frame that [clean_dataset] returns for a frame
    with distinct column names.  The columns are those of the input and no
    row was added.  Each of user_id, user_climate_pref, recommendation_score
    and engagement_score that is a column has no null; every cell of a float
    column with a vector-like name is null or in [0, 1]; and with both key
    columns no two rows share a (user_id, recommendation_id) key. *)
Theorem clean_dataset_postconditions (df out : DataFrame) :
  NoDup (map fst (columns df)) ->
  DataCleaning.clean_dataset df = Ok out ->
  columns out = columns df /\
  (length (rows out) <= length (rows df))%nat /\
  (forall col, col ∈ ["user_id"; "user_climate_pref"; "recommendation_score";
                      "engagement_score"] ->
     has_column df col = true -> Forall (fun x => x <> VNull) (column out col)) /\
  (forall col, clipped_column df col = true -> Forall in_unit_range (column out col)) /\
  (has_column df "user_id" && has_column df "recommendation_id" = true ->
   forall i j ri rj, (i < j)%nat -> rows out !! i = Some ri -> rows out !! j = Some rj ->
                     same_key ri rj = false).
Proof.
  intros Hnd H. pose proof (clean_dataset_length _ _ H) as Hlen.
  apply clean_dataset_state in H as [Hcols Hst]; [|done].
  destruct Hst as [Hreq _ _ Hrange Huniq].
  split; [done|]. split; [done|]. split; [|split].
  - intros col Hcol Hhas. rewrite <- (has_column_columns df out) in Hhas by done.
    specialize (Hreq col Hcol Hhas). unfold column. apply Forall_fmap.
    eapply Forall_impl; [exact Hreq|]. intros r Hr. exact Hr.
  - intros col Hc. unfold clipped_column in Hc. apply andb_true_iff in Hc as [Hv Hd].
    apply bool_decide_eq_true in Hd. specialize (Hrange col Hv).
    unfold range_checked in Hrange.
    assert (has_column df col = true) as Hhas.
    { apply not_false_iff_true. intros Hc. apply has_column_dtype_of in Hc. congruence. }
    rewrite (has_column_columns df out), (dtype_of_columns df out) in Hrange by done.
    rewrite Hhas, bool_decide_eq_true_2 in Hrange by done.
    specialize (Hrange eq_refl). unfold column. apply Forall_fmap.
    eapply Forall_impl; [exact Hrange|]. intros r Hin. by apply in_range_in_unit_range.
  - intros Hkeys i j ri rj Hij Hi Hj. rewrite <- Huniq in Hi, Hj.
    eapply remove_duplicates_distinct; [|exact Hij|exact Hi|exact Hj].
    by rewrite !(has_column_columns df out).
Qed.

Lemma clean_dataset_postconditions_witness :
  let df := MoreSamples.gaps in
  let out := Samples.value (DataCleaning.clean_dataset df) in
  columns out = columns df /\
  (length (rows out) <= length (rows df))%nat /\
  (forall col, col ∈ ["user_id"; "user_climate_pref"; "recommendation_score";
                      "engagement_score"] ->
     has_column df col = true -> Forall (fun x => x <> VNull) (column out col)) /\
  (forall col, clipped_column df col = true -> Forall in_unit_range (column out col)) /\
  (has_column df "user_id" && has_column df "recommendation_id" = true ->
   forall i j ri rj, (i < j)%nat -> rows out !! i = Some ri -> rows out !! j = Some rj ->
                     same_key ri rj = false).
Proof.
  apply (clean_dataset_postconditions MoreSamples.gaps).
  - apply (bool_decide_unpack _). vm_compute. exact I.
  - vm_compute. reflexivity.
Defined.

(** ** Anonymization: suppression of rare values *)

Lemma Qeq_bool_trans_l (a b c : Q) : Qeq_bool a b = true -> Qeq_bool b c = Qeq_bool a c.
Proof.
  intros H. apply Qeq_bool_iff in H.
  destruct (Qeq_bool b c) eqn:E1, (Qeq_bool a c) eqn:E2; try done.
  - apply Qeq_bool_iff in E1. apply not_true_iff_false in E2. exfalso. apply E2.
    apply Qeq_bool_iff. by rewrite H.
  - apply Qeq_bool_iff in E2. apply not_true_iff_false in E1. exfalso. apply E1.
    apply Qeq_bool_iff. by rewrite <- H.
Qed.

Lemma cell_eqb_trans_l (x z w : Cell) :
  cell_eqb x z = true -> cell_eqb z w = cell_eqb x w.
Proof.
  destruct x as [|qx|sx|bx|tx], z as [|qz|sz|bz|tz]; simpl; intros H; try done.
  - destruct w as [|qw|sw|bw|tw]; simpl; try done; by apply Qeq_bool_trans_l.
  - destruct w as [|qw|sw|bw|tw]; simpl; try done.
    + by apply Qeq_bool_trans_l.
    + destruct bz, bw; simpl; try done;
        rewrite <- (Qeq_bool_trans_l _ _ _ H); done.
  - apply String.eqb_eq in H as ->. done.
  - destruct w as [|qw|sw|bw|tw]; simpl; try done.
    + by apply Qeq_bool_trans_l.
    + destruct bx, bw; simpl; try done;
        rewrite (Qeq_bool_trans_l _ _ _ H); done.
  - destruct bx, bz; try done.
  - apply Z.eqb_eq in H as ->. done.
Qed.

Lemma cell_eqb_notna (x z : Cell) : cell_eqb x z = true -> notna z = notna x.
Proof. destruct x, z; simpl; done. Qed.

Lemma filter_length_map {A : Type} (p q : A -> bool) (g : A -> A) (l : list A) :
  (forall z, z ∈ l -> p z = true -> q (g z) = true) ->
  (length (List.filter p l) <= length (List.filter q (map g l)))%nat.
Proof.
  induction l as [|x l IH]; intros H; simpl; [done|].
  assert (length (List.filter p l) <= length (List.filter q (map g l)))%nat as IH'.
  { apply IH. intros z Hz. apply H. by right. }
  destruct (p x) eqn:E.
  - rewrite (H x); [simpl; lia|left|done].
  - destruct (q (g x)); simpl; lia.
Qed.

Section SuppressionMore.
Import Anonymization.

Lemma value_count_eqb (cells : list Cell) (x z : Cell) :
  cell_eqb x z = true -> value_count cells z = value_count cells x.
Proof.
  intros H. unfold value_count. f_equal. apply List.filter_ext. intros w.
  by apply cell_eqb_trans_l.
Qed.

Lemma is_rare_eqb (threshold : nat) (cells : list Cell) (x z : Cell) :
  cell_eqb x z = true -> is_rare threshold cells z = is_rare threshold cells x.
Proof.
  intros H. unfold is_rare. by rewrite (cell_eqb_notna _ _ H), (value_count_eqb _ _ _ H).
Qed.

(** Suppression does not lower the count of a value that it keeps. *)
Lemma value_count_suppress (threshold : nat) (cells : list Cell) (y : Cell) :
  is_rare threshold cells y = false ->
  (value_count cells y
   <= value_count (map (fun x => if is_rare threshold cells x then VStr "OTHER" else x) cells)
                  y)%nat.
Proof.
  intros Hy. unfold value_count. apply filter_length_map. intros z _ Hz.
  by rewrite (is_rare_eqb _ _ _ _ Hz), Hy.
Qed.

Lemma generalize_rare_cells (threshold : nat) (df : DataFrame) (col : string) :
  column (generalize_rare threshold df col) col
  = map (fun x => if is_rare threshold (column df col) x then VStr "OTHER" else x)
        (column df col).
Proof.
  unfold generalize_rare. destruct (existsb _ _) eqn:E.
  - by rewrite column_update_eq.
  - transitivity (map id (column df col)); [by rewrite map_id|]. apply map_ext_in.
    intros x Hx. destruct (is_rare threshold (column df col) x) eqn:R; [|done].
    apply not_true_iff_false in E. exfalso. apply E, existsb_exists. eauto.
Qed.

Lemma generalize_rare_k_anonymous (threshold : nat) (df : DataFrame) (col : string) :
  k_anonymous threshold (column (generalize_rare threshold df col) col).
Proof.
  rewrite generalize_rare_cells. set (cells := column df col).
  unfold k_anonymous. apply Forall_forall. intros y Hy.
  apply list_elem_of_fmap in Hy as (x & -> & Hx).
  destruct (is_rare threshold cells x) eqn:R; [by right; left|].
  pose proof (value_count_suppress threshold cells x R) as Hle.
  unfold is_rare in R. apply andb_false_iff in R as [R|R].
  - left. by apply notna_false.
  - right; right. apply Nat.ltb_ge in R. lia.
Qed.

Lemma generalize_rare_columns (threshold : nat) (df : DataFrame) (col : string) :
  columns (generalize_rare threshold df col) = columns df /\
  length (rows (generalize_rare threshold df col)) = length (rows df).
Proof.
  unfold generalize_rare. destruct (existsb _ _); [|done].
  split; [done|]. simpl. by rewrite length_map.
Qed.

Lemma suppression_loop_k_anonymous (threshold : nat) (cols : list string) (col : string)
    (df : DataFrame) :
  col ∈ cols ->
  k_anonymous threshold (column (foldl (generalize_rare threshold) df cols) col).
Proof.
  induction cols as [|c cols IH] using rev_ind; [by intros ?%elem_of_nil|].
  intros Hin. rewrite foldl_app. simpl.
  destruct (decide (c = col)) as [->|Hne]; [apply generalize_rare_k_anonymous|].
  rewrite generalize_rare_other_column by done. apply IH.
  apply elem_of_app in Hin as [?|Hin]; [done|].
  apply list_elem_of_singleton in Hin. congruence.
Qed.

Lemma suppression_loop_other (threshold : nat) (cols : list string) (col : string)
    (df : DataFrame) :
  col ∉ cols -> column (foldl (generalize_rare threshold) df cols) col = column df col.
Proof.
  revert df. induction cols as [|c cols IH]; intros df Hin; simpl; [done|].
  apply not_elem_of_cons in Hin as [Hne Hin].
  rewrite IH by done. by apply generalize_rare_other_column.
Qed.

Lemma suppression_loop_columns (threshold : nat) (cols : list string) (df : DataFrame) :
  columns (foldl (generalize_rare threshold) df cols) = columns df /\
  length (rows (foldl (generalize_rare threshold) df cols)) = length (rows df).
Proof.
  revert df. induction cols as [|c cols IH]; intros df; simpl; [done|].
  destruct (IH (generalize_rare threshold df c)) as [-> ->].
  apply generalize_rare_columns.
Qed.

End SuppressionMore.

(** X13: after [remove_rare_categories] every value of an object column is
    null, the placeholder OTHER, or occurs at least [threshold] times in that
    column of the result; the other columns, the column index and the number
    of rows are unchanged.  Nothing bounds the number of OTHER cells from
    below. *)
Theorem remove_rare_categories_k_anonymous (df : DataFrame) (threshold : nat) :
  let out := Anonymization.remove_rare_categories df threshold in
  columns out = columns df /\
  length (rows out) = length (rows df) /\
  (forall col, col ∈ select_dtypes df [DObject] -> k_anonymous threshold (column out col)) /\
  (forall col, col ∉ select_dtypes df [DObject] -> column out col = column df col).
Proof.
  intros out. subst out. unfold Anonymization.remove_rare_categories.
  destruct (suppression_loop_columns threshold (select_dtypes df [DObject]) df) as [Hc Hl].
  split; [done|]. split; [done|]. split.
  - intros col Hcol. by apply suppression_loop_k_anonymous.
  - intros col Hcol. by apply suppression_loop_other.
Qed.

Section FrequentUsers.
Import Anonymization.
Variable sha256_hexdigest : string -> string.
Variable str_num : Q -> string.
Variable str_time : Z -> string.



End FrequentUsers.



(** ** Anonymization: the columns that leave the frame *)

Lemma has_column_drop (df : DataFrame) (cols : list string) (c : string) :
  has_column (drop_columns df cols) c
  = has_column df c && negb (existsb (String.eqb c) cols).
Proof.
  unfold has_column, drop_columns. cbn [columns].
  induction (columns df) as [|[n d] l IH]; [done|]. cbn [List.filter existsb fst].
  destruct (String.eqb n c) eqn:E.
  - apply String.eqb_eq in E as ->.
    destruct (existsb (String.eqb c) cols) eqn:Ex; cbn [negb existsb fst].
    + rewrite IH. by rewrite andb_false_r.
    + by rewrite String.eqb_refl.
  - destruct (negb (existsb (String.eqb n) cols)); cbn [existsb fst]; [by rewrite E|done].
Qed.

Lemma has_column_insert_cells (df : DataFrame) (col c : string) (d : Dtype)
    (f : Row -> Cell -> Row) (cells : list Cell) :
  has_column (mkDF (set_dtype (columns df) col d) (zip_with f (rows df) cells)) c
  = has_column df c || String.eqb col c.
Proof. apply existsb_set_dtype. Qed.

Lemma existsb_eqb_elem (c : string) (cols : list string) :
  existsb (String.eqb c) cols = true <-> c ∈ cols.
Proof.
  rewrite existsb_exists. split.
  - intros (x & Hx & E). apply String.eqb_eq in E as ->. by apply list_elem_of_In.
  - intros H. exists c. split; [by apply list_elem_of_In|apply String.eqb_refl].
Qed.

Lemma rows_within_assign (df : DataFrame) (col : string) (d : Dtype) (f : Row -> Cell) :
  rows_within df -> rows_within (assign df col d f).
Proof.
  unfold rows_within. intros H. cbn [assign rows]. apply Forall_fmap.
  eapply Forall_impl; [exact H|]. intros r Hr c Hc. cbn in Hc.
  rewrite has_column_assign. destruct (decide (col = c)) as [->|Hne].
  - by rewrite String.eqb_refl, orb_true_r.
  - rewrite lookup_insert_ne in Hc by done. by rewrite Hr.
Qed.

Lemma rows_within_insert_cells (df : DataFrame) (col : string) (d : Dtype)
    (cells : list Cell) :
  rows_within df ->
  rows_within (mkDF (set_dtype (columns df) col d)
                    (zip_with (fun r g => <[col := g]> r) (rows df) cells)).
Proof.
  unfold rows_within. intros H. cbn [rows]. apply Forall_forall. intros r' Hr' c Hc.
  apply elem_of_zip_with in Hr' as (r & g & -> & Hr & _).
  rewrite Forall_forall in H. specialize (H r Hr).
  rewrite has_column_insert_cells. destruct (decide (col = c)) as [->|Hne].
  - by rewrite String.eqb_refl, orb_true_r.
  - rewrite lookup_insert_ne in Hc by done. by rewrite H.
Qed.

Lemma lookup_delete_all (r : Row) (cols : list string) (c : string) :
  foldr (fun c r' => delete c r') r cols !! c = if bool_decide (c ∈ cols) then None else r !! c.
Proof.
  induction cols as [|x cols IH]; simpl; [done|].
  destruct (decide (x = c)) as [->|Hne].
  - rewrite lookup_delete_eq. by rewrite bool_decide_eq_true_2 by left.
  - rewrite lookup_delete_ne by done. rewrite IH.
    destruct (bool_decide (c ∈ cols)) eqn:E.
    + apply bool_decide_eq_true in E. by rewrite bool_decide_eq_true_2 by by right.
    + apply bool_decide_eq_false in E. rewrite bool_decide_eq_false_2; [done|].
      intros [?|?]%elem_of_cons; congruence.
Qed.

Lemma rows_within_drop (df : DataFrame) (cols : list string) :
  rows_within df -> rows_within (drop_columns df cols).
Proof.
  unfold rows_within. intros H. cbn [drop_columns rows]. apply Forall_fmap.
  eapply Forall_impl; [exact H|]. intros r Hr c Hc. cbn in Hc.
  rewrite lookup_delete_all in Hc. rewrite has_column_drop.
  destruct (bool_decide (c ∈ cols)) eqn:E; [by destruct Hc|].
  apply bool_decide_eq_false in E. rewrite Hr by done.
  apply negb_true_iff, not_true_iff_false. by rewrite existsb_eqb_elem.
Qed.

Lemma rows_within_update (df : DataFrame) (col : string) (g : Cell -> Cell) :
  rows_within df -> rows_within (update df col g).
Proof.
  unfold rows_within. intros H. cbn [update rows]. apply Forall_fmap.
  eapply Forall_impl; [exact H|]. intros r Hr c Hc. cbn in Hc.
  change (has_column (update df col g) c) with (has_column df c). apply Hr.
  destruct (decide (col = c)) as [->|Hne].
  - rewrite lookup_alter_eq in Hc. by apply fmap_is_Some in Hc.
  - by rewrite lookup_alter_ne in Hc.
Qed.

Lemma rows_within_None (df : DataFrame) (c : string) :
  rows_within df -> has_column df c = false -> Forall (fun r : Row => r !! c = None) (rows df).
Proof.
  intros H Hc. eapply Forall_impl; [exact H|]. intros r Hr.
  destruct (r !! c) eqn:E; [|done]. rewrite Hr in Hc; [done|]. by rewrite E.
Qed.

Section SensitiveColumns.
Import Anonymization.
Variable sha256_hexdigest : string -> string.
Variable str_num : Q -> string.
Variable str_time : Z -> string.

Lemma remove_pii_has_column (df : DataFrame) (c : string) :
  has_column (remove_pii df) c
  = has_column df c
    && negb (existsb (String.eqb c)
               ["user_id"; "email"; "firstName"; "lastName"; "phoneNumber"; "phone";
                "dateOfBirth"; "avatar"; "recommendation_id"]).
Proof.
  unfold remove_pii.
  set (pii := ["user_id"; "email"; "firstName"; "lastName"; "phoneNumber"; "phone";
               "dateOfBirth"; "avatar"; "recommendation_id"]).
  assert (has_column (drop_columns df (List.filter (has_column df) pii)) c
          = has_column df c && negb (existsb (String.eqb c) pii)) as Hd.
  { clearbody pii.
    rewrite has_column_drop. destruct (has_column df c) eqn:Hc; [|done]. cbn [andb]. f_equal.
    destruct (existsb (String.eqb c) pii) eqn:E.
    - apply existsb_eqb_elem. apply elem_of_filter_bool. split; [|done].
      by apply existsb_eqb_elem.
    - apply not_true_iff_false. intros E'. apply existsb_eqb_elem in E'.
      apply elem_of_filter_bool in E' as [E' _]. apply existsb_eqb_elem in E'. congruence. }
  clearbody pii. destruct (List.filter (has_column df) pii) eqn:Ef; [|done].
  rewrite <- Hd. unfold drop_columns, has_column. cbn [columns existsb negb].
  by rewrite filter_all.
Qed.

Lemma remove_pii_rows_within (df : DataFrame) : rows_within df -> rows_within (remove_pii df).
Proof.
  unfold remove_pii. destruct (List.filter _ _); [done|]. apply rows_within_drop.
Qed.

Lemma remove_pii_column (df : DataFrame) (c : string) :
  has_column (remove_pii df) c = true -> column (remove_pii df) c = column df c.
Proof.
  unfold remove_pii. destruct (List.filter _ _) eqn:E; [done|]. rewrite <- E. clear E.
  intros H. rewrite has_column_drop in H. apply andb_true_iff in H as [_ H].
  apply column_drop. intros Hin. apply existsb_eqb_elem in Hin. by rewrite Hin in H.
Qed.

Lemma remove_pii_columns_sub (df : DataFrame) (c : string) (d : Dtype) :
  (c, d) ∈ columns (remove_pii df) -> (c, d) ∈ columns df.
Proof.
  unfold remove_pii. destruct (List.filter _ _); [done|]. simpl.
  intros H. by apply elem_of_filter_bool in H as [? _].
Qed.

Lemma remove_rare_categories_rows_within (df : DataFrame) (threshold : nat) :
  rows_within df -> rows_within (remove_rare_categories df threshold).
Proof.
  unfold remove_rare_categories. apply foldl_invariant.
  intros s c _ Hs. unfold generalize_rare. destruct (existsb _ _); [|done].
  by apply rows_within_update.
Qed.

Lemma generalize_nationality_has_column (df : DataFrame) (c : string) :
  has_column (generalize_nationality df) c
  = if has_column df "user_nationality"
    then (has_column df c || String.eqb "user_region" c)
         && negb (String.eqb c "user_nationality")
    else has_column df c.
Proof.
  unfold generalize_nationality. destruct (has_column df "user_nationality"); [|done].
  rewrite has_column_drop, has_column_assign. cbn [existsb]. by rewrite orb_false_r.
Qed.

Lemma generalize_nationality_rows_within (df : DataFrame) :
  rows_within df -> rows_within (generalize_nationality df).
Proof.
  intros H. unfold generalize_nationality. destruct (has_column df "user_nationality");
    [|done]. by apply rows_within_drop, rows_within_assign.
Qed.

Lemma bin_age_has_column (df s : DataFrame) (c : string) :
  bin_age df = Ok s ->
  has_column s c
  = if has_column df "user_age"
    then (has_column df c || String.eqb "user_age_group" c) && negb (String.eqb c "user_age")
    else has_column df c.
Proof.
  unfold bin_age. destruct (has_column df "user_age"); [|by intros [= <-]].
  intros H. bind_inv H as groups Hg. injection H as <-.
  rewrite has_column_drop, has_column_insert_cells. cbn [existsb]. by rewrite orb_false_r.
Qed.

Lemma bin_age_rows_within (df s : DataFrame) :
  bin_age df = Ok s -> rows_within df -> rows_within s.
Proof.
  unfold bin_age. destruct (has_column df "user_age"); [|by intros [= <-]].
  intros H Hw. bind_inv H as groups Hg. injection H as <-.
  by apply rows_within_drop, rows_within_insert_cells.
Qed.

Lemma hash_user_ids_has_column (df : DataFrame) (c : string) :
  c <> "user_hash" ->
  has_column (hash_user_ids sha256_hexdigest str_num str_time df) c = has_column df c.
Proof.
  intros Hne. unfold hash_user_ids. destruct (has_column df "user_id"); [|done].
  rewrite has_column_assign.
  assert (String.eqb "user_hash" c = false) as ->; [|by rewrite orb_false_r].
  apply String.eqb_neq. congruence.
Qed.

Lemma hash_user_ids_rows_within (df : DataFrame) :
  rows_within df -> rows_within (hash_user_ids sha256_hexdigest str_num str_time df).
Proof.
  intros H. unfold hash_user_ids. destruct (has_column df "user_id"); [|done].
  by apply rows_within_assign.
Qed.

Lemma anonymize_dataset_sensitive (df out : DataFrame) (c : string) :
  anonymize_dataset sha256_hexdigest str_num str_time df = Ok out ->
  c ∈ sensitive_columns ->
  has_column out c = false.
Proof.
  unfold anonymize_dataset. intros H Hc. bind_inv H as d3 H3. injection H as <-.
  rewrite remove_pii_has_column.
  destruct (suppression_loop_columns 10 (select_dtypes d3 [DObject]) d3) as [Hcols _].
  fold (remove_rare_categories d3 10) in Hcols.
  rewrite (has_column_columns d3 (remove_rare_categories d3 10)) by done.
  rewrite (bin_age_has_column _ _ c H3).
  rewrite !generalize_nationality_has_column.
  unfold sensitive_columns in Hc.
  repeat (apply elem_of_cons in Hc as [-> | Hc];
          [cbn [existsb String.eqb Ascii.eqb Bool.eqb negb andb orb];
           rewrite ?andb_false_r; try done|]).
  all: try by apply elem_of_nil in Hc.
  all: repeat match goal with
              | |- context [has_column ?d ?x] => destruct (has_column d x)
              end; done.
Qed.

Lemma anonymize_dataset_rows_within (df out : DataFrame) :
  anonymize_dataset sha256_hexdigest str_num str_time df = Ok out ->
  rows_within df -> rows_within out.
Proof.
  unfold anonymize_dataset. intros H Hw. bind_inv H as d3 H3. injection H as <-.
  apply remove_pii_rows_within, remove_rare_categories_rows_within.
  eapply bin_age_rows_within; [exact H3|].
  by apply generalize_nationality_rows_within, hash_user_ids_rows_within.
Qed.

End SensitiveColumns.

Section AnonymizedFrame.
Import Anonymization.
Variable sha256_hexdigest : string -> string.
Variable str_num : Q -> string.
Variable str_time : Z -> string.

Lemma drop_columns_length (df : DataFrame) (cols : list string) :
  length (rows (drop_columns df cols)) = length (rows df).
Proof. simpl. by rewrite length_map. Qed.

Lemma remove_pii_length (df : DataFrame) : length (rows (remove_pii df)) = length (rows df).
Proof. unfold remove_pii. destruct (List.filter _ _); [done|]. apply drop_columns_length. Qed.

Lemma anonymize_dataset_length (df out : DataFrame) :
  anonymize_dataset sha256_hexdigest str_num str_time df = Ok out ->
  length (rows out) = length (rows df).
Proof.
  unfold anonymize_dataset. intros H. bind_inv H as d3 H3. injection H as <-.
  rewrite remove_pii_length.
  destruct (suppression_loop_columns 10 (select_dtypes d3 [DObject]) d3) as [_ Hl].
  fold (remove_rare_categories d3 10) in Hl. rewrite Hl.
  assert (length (rows (generalize_nationality
                          (hash_user_ids sha256_hexdigest str_num str_time df)))
          = length (rows df)) as L2.
  { unfold generalize_nationality, hash_user_ids.
    destruct (has_column df "user_id"); simpl;
      destruct (has_column _ "user_nationality"); simpl; by rewrite ?length_map. }
  rewrite <- L2. unfold bin_age in H3.
  destruct (has_column _ "user_age"); [|by injection H3 as <-].
  bind_inv H3 as groups Hg. injection H3 as <-. rewrite drop_columns_length. simpl.
  rewrite length_zip_with. apply mapM_length in Hg. unfold column in Hg.
  rewrite length_map in Hg. lia.
Qed.

Lemma anonymize_dataset_k_anonymous (df out : DataFrame) (col : string) :
  anonymize_dataset sha256_hexdigest str_num str_time df = Ok out ->
  col ∈ select_dtypes out [DObject] ->
  k_anonymous 10 (column out col).
Proof.
  unfold anonymize_dataset. intros H Hcol. bind_inv H as d3 H3. injection H as <-.
  apply select_dtypes_object in Hcol.
  assert (has_column (remove_pii (remove_rare_categories d3 10)) col = true) as Hhas.
  { apply existsb_exists. exists (col, DObject).
    split; [by apply list_elem_of_In|apply String.eqb_refl]. }
  rewrite (remove_pii_column _ _ Hhas).
  apply remove_pii_columns_sub in Hcol.
  destruct (suppression_loop_columns 10 (select_dtypes d3 [DObject]) d3) as [Hcols _].
  fold (remove_rare_categories d3 10) in Hcols. rewrite Hcols in Hcol.
  apply suppression_loop_k_anonymous. eapply select_dtypes_in; [exact Hcol|left].
Qed.

End AnonymizedFrame.

(** X15: the frame that [anonymize_dataset] returns has none of the columns
    user_id, email, firstName, lastName, phoneNumber, phone, dateOfBirth,
    avatar, recommendation_id, user_nationality and user_age, and when the
    rows of the input hold cells of its columns only, no row of the result
    holds a cell under one of these names.  No row is dropped. *)
Theorem anonymized_frame_has_no_sensitive_column
    (sha256_hexdigest : string -> string) (str_num : Q -> string) (str_time : Z -> string)
    (df out : DataFrame) :
  Anonymization.anonymize_dataset sha256_hexdigest str_num str_time df = Ok out ->
  length (rows out) = length (rows df) /\
  Forall (fun c => has_column out c = false) sensitive_columns /\
  (rows_within df ->
   Forall (fun c => Forall (fun r : Row => r !! c = None) (rows out)) sensitive_columns).
Proof.
  intros H. split; [by eapply anonymize_dataset_length|].
  assert (Forall (fun c => has_column out c = false) sensitive_columns) as Hs.
  { apply Forall_forall. intros c Hc. by eapply anonymize_dataset_sensitive. }
  split; [done|]. intros Hw.
  eapply Forall_impl; [exact Hs|]. intros c Hc. simpl in Hc.
  apply rows_within_None; [|done]. by eapply anonymize_dataset_rows_within.
Qed.

Lemma anonymized_frame_has_no_sensitive_column_witness :
  let df := MoreSamples.ten_visits in
  let out := Samples.value (Anonymization.anonymize_dataset Samples.sha256_hexdigest
                              Samples.str_num Samples.str_time df) in
  length (rows out) = length (rows df) /\
  Forall (fun c => has_column out c = false) sensitive_columns /\
  (rows_within df ->
   Forall (fun c => Forall (fun r : Row => r !! c = None) (rows out)) sensitive_columns).
Proof.
  apply (anonymized_frame_has_no_sensitive_column Samples.sha256_hexdigest
           Samples.str_num Samples.str_time MoreSamples.ten_visits).
  vm_compute. reflexivity.
Defined.

(** X16: in the frame that [anonymize_dataset] returns, every value of an
    object column is null, the placeholder OTHER, or occurs at least 10 times
    in its column. *)
Theorem anonymized_frame_k_anonymous
    (sha256_hexdigest : string -> string) (str_num : Q -> string) (str_time : Z -> string)
    (df out : DataFrame) (col : string) :
  Anonymization.anonymize_dataset sha256_hexdigest str_num str_time df = Ok out ->
  col ∈ select_dtypes out [DObject] ->
  k_anonymous 10 (column out col).
Proof. apply anonymize_dataset_k_anonymous. Qed.

Lemma anonymized_frame_k_anonymous_witness :
  k_anonymous 10
    (column (Samples.value (Anonymization.anonymize_dataset Samples.sha256_hexdigest
                              Samples.str_num Samples.str_time MoreSamples.ten_visits))
            "user_hash").
Proof.
  apply (anonymized_frame_k_anonymous Samples.sha256_hexdigest Samples.str_num
           Samples.str_time MoreSamples.ten_visits).
  - vm_compute. reflexivity.
  - apply (bool_decide_unpack _). vm_compute. exact I.
Defined.

(** ** Anonymization: age groups and regions *)

Lemma Qle_bool_false (a b : Q) : Qle_bool a b = false -> (b < a)%Q.
Proof.
  intros H. apply Qnot_le_lt. intros Hle. apply Qle_bool_iff in Hle. congruence.
Qed.

Lemma Qltb_true (a b : Q) : Qltb a b = true <-> (a < b)%Q.
Proof.
  unfold Qltb. rewrite negb_true_iff. split.
  - apply Qle_bool_false.
  - intros H. apply not_true_iff_false. intros E. apply Qle_bool_iff in E.
    by apply Qle_not_lt in E.
Qed.

Lemma Qltb_false (a b : Q) : Qltb a b = false <-> (b <= a)%Q.
Proof. unfold Qltb. rewrite negb_false_iff. apply Qle_bool_iff. Qed.

Ltac Q_bools :=
  repeat match goal with
         | H : Qle_bool _ _ = true |- _ => apply Qle_bool_iff in H
         | H : Qle_bool _ _ = false |- _ => apply Qle_bool_false in H
         | H : Qltb _ _ = true |- _ => apply Qltb_true in H
         | H : Qltb _ _ = false |- _ => apply Qltb_false in H
         | H : Qeq_bool _ _ = true |- _ => apply Qeq_bool_iff in H
         | H : Qeq_bool _ _ = false |- _ => apply Qeq_bool_neq in H
         end.

(** X17: the age groups of [bin_age].  An age from 0 to 25 is in the group
    '18-25' (ages below 18 included), then the groups are (25, 35], (35, 50],
    (50, 65] and (65, 100]; an age below 0 or above 100 gets no group. *)
Theorem age_group_bins (x : Q) :
  let group := Anonymization.cut Config.AGE_BINS Config.AGE_LABELS x in
  ((x < 0)%Q \/ (100 < x)%Q -> group = None) /\
  ((0 <= x)%Q /\ (x <= 25)%Q -> group = Some "18-25") /\
  ((25 < x)%Q /\ (x <= 35)%Q -> group = Some "26-35") /\
  ((35 < x)%Q /\ (x <= 50)%Q -> group = Some "36-50") /\
  ((50 < x)%Q /\ (x <= 65)%Q -> group = Some "51-65") /\
  ((65 < x)%Q /\ (x <= 100)%Q -> group = Some "65+").
Proof.
  intros group. subst group.
  unfold Anonymization.cut, Config.AGE_BINS, Config.AGE_LABELS.
  cbn [Anonymization.bin_label].
  destruct (Qeq_bool x 0) eqn:E0, (Qltb 0 x) eqn:L0, (Qle_bool x 25) eqn:L25,
    (Qltb 25 x) eqn:G25, (Qle_bool x 35) eqn:L35, (Qltb 35 x) eqn:G35,
    (Qle_bool x 50) eqn:L50, (Qltb 50 x) eqn:G50, (Qle_bool x 65) eqn:L65,
    (Qltb 65 x) eqn:G65, (Qle_bool x 100) eqn:L100;
    cbn [andb]; Q_bools;
    (repeat split; intros Hx; first [reflexivity | exfalso; lra]).
Qed.

Lemma region_of_regions (c : Cell) :
  exists s, Anonymization.region_of c = VStr s /\ s ∈ regions.
Proof.
  assert (Forall (fun kv : string * string => kv.2 ∈ regions) Config.COUNTRY_TO_REGION) as Hall.
  { apply (bool_decide_unpack _). vm_compute. exact I. }
  assert ("Other" ∈ regions) as Hother.
  { apply (bool_decide_unpack _). vm_compute. exact I. }
  unfold Anonymization.region_of. destruct c as [|q|country|b|t]; try by eexists.
  destruct (find _ Config.COUNTRY_TO_REGION) as [kv|] eqn:E; [|by eexists].
  exists kv.2. split; [done|]. apply find_some in E as [Hin _].
  rewrite Forall_forall in Hall. by apply Hall, list_elem_of_In.
Qed.

(** X18: [generalize_nationality] on a frame with a user_nationality column
    takes that column out and writes a user_region column in which every
    cell is the name of one of the seven regions of the table or 'Other';
    a nationality that is not a string (a null, a number) is 'Other'.  No
    cell of user_region is null, and the rows keep their number. *)
Theorem generalize_nationality_regions (df : DataFrame) :
  has_column df "user_nationality" = true ->
  let out := Anonymization.generalize_nationality df in
  has_column out "user_nationality" = false /\
  has_column out "user_region" = true /\
  length (rows out) = length (rows df) /\
  column out "user_region" = map Anonymization.region_of (column df "user_nationality") /\
  Forall (fun c => exists s, c = VStr s /\ s ∈ regions) (column out "user_region") /\
  (forall c, (forall s, c <> VStr s) -> Anonymization.region_of c = VStr "Other").
Proof.
  intros Hc out. subst out.
  split; [by rewrite generalize_nationality_has_column, Hc, andb_false_r|].
  split; [by rewrite generalize_nationality_has_column, Hc, orb_true_r|].
  unfold Anonymization.generalize_nationality. rewrite Hc.
  split; [simpl; by rewrite !length_map|].
  assert (column (drop_columns
                    (assign df "user_region" DObject
                       (fun r => Anonymization.region_of (get r "user_nationality")))
                    ["user_nationality"]) "user_region"
          = map Anonymization.region_of (column df "user_nationality")) as ->.
  { rewrite column_drop by not_in_list. rewrite column_assign_eq.
    unfold column. by rewrite map_map. }
  split; [done|]. split.
  - apply Forall_fmap, Forall_forall. intros c _. apply region_of_regions.
  - intros c Hns. destruct c; try done. by destruct (Hns s).
Qed.

Lemma generalize_nationality_regions_witness :
  let df := MoreSamples.ten_visits in
  let out := Anonymization.generalize_nationality df in
  has_column out "user_nationality" = false /\
  has_column out "user_region" = true /\
  length (rows out) = length (rows df) /\
  column out "user_region" = map Anonymization.region_of (column df "user_nationality") /\
  Forall (fun c => exists s, c = VStr s /\ s ∈ regions) (column out "user_region") /\
  (forall c, (forall s, c <> VStr s) -> Anonymization.region_of c = VStr "Other").
Proof.
  apply (generalize_nationality_regions MoreSamples.ten_visits).
  vm_compute. reflexivity.
Defined.

(** ** Temporal features *)

Section CellsAtMore.
Variable col : string.

Lemma cells_at_assign_ne (cond : option Cell -> Prop) (df : DataFrame) (c : string)
    (d : Dtype) (f : Row -> Cell) :
  c <> col -> cells_at col cond (rows df) -> cells_at col cond (rows (assign df c d f)).
Proof.
  intros Hne H. cbn [assign rows]. apply Forall_fmap. eapply Forall_impl; [exact H|].
  intros r Hr. simpl. by rewrite lookup_insert_ne.
Qed.

Lemma cells_at_assign_eq (cond : option Cell -> Prop) (df : DataFrame) (d : Dtype)
    (f : Row -> Cell) :
  (forall r, cond (Some (f r))) -> cells_at col cond (rows (assign df col d f)).
Proof.
  intros H. cbn [assign rows]. apply Forall_fmap, Forall_forall. intros r _. simpl.
  by rewrite lookup_insert_eq.
Qed.

Lemma cells_at_insert_cells_ne {B : Type} (cond : option Cell -> Prop) (l : list Row)
    (c : string) (g : B -> Cell) (k : list B) :
  c <> col -> cells_at col cond l ->
  cells_at col cond (zip_with (fun r y => <[c := g y]> r) l k).
Proof.
  intros Hne H. apply Forall_zip_with_l; [|done]. intros r y Hr.
  by rewrite lookup_insert_ne.
Qed.

Lemma cells_at_insert_cells_eq {B : Type} (cond : option Cell -> Prop) (l : list Row)
    (g : B -> Cell) (k : list B) :
  Forall (fun y => cond (Some (g y))) k ->
  cells_at col cond (zip_with (fun r y => <[col := g y]> r) l k).
Proof.
  intros H. revert l. induction H as [|y k Hy _ IH]; intros [|r l]; simpl; try constructor.
  - by rewrite lookup_insert_eq.
  - apply IH.
Qed.

Lemma cells_at_alter_eq (cond0 cond : option Cell -> Prop) (g : Cell -> Cell) (l : list Row) :
  (forall o, cond0 o -> cond (g <$> o)) ->
  cells_at col cond0 l -> cells_at col cond (map (alter g col) l).
Proof.
  intros Hg H. apply Forall_fmap. eapply Forall_impl; [exact H|].
  intros r Hr. simpl. rewrite lookup_alter_eq. by apply Hg.
Qed.

Lemma cells_at_column (P : Cell -> Prop) (l : list Row) :
  cells_at col (fun o => P (default VNull o)) l -> Forall P (map (fun r => get r col) l).
Proof. intros H. apply Forall_fmap. exact H. Qed.

End CellsAtMore.

Section TemporalMore.
Import Config FeatureEngineering.
Variable parse_datetime : string -> option (option Z).
Variable now : Z.

Lemma clip_cell_between (lo hi : Z) (c : Cell) :
  lo <= hi -> c = VNull \/ (exists q, c = VNum q) ->
  null_or_between (inject_Z lo) (inject_Z hi) (clip_cell lo hi c).
Proof.
  intros Hle [-> | [q ->]]; [done|]. unfold clip_cell.
  assert (inject_Z lo <= inject_Z hi)%Q as Hq by (by rewrite <- Zle_Qle).
  destruct (Qltb q (inject_Z lo)) eqn:E1; [simpl; split; [apply Qle_refl|done]|].
  destruct (Qltb (inject_Z hi) q) eqn:E2; [simpl; split; [done|apply Qle_refl]|].
  Q_bools. done.
Qed.

Lemma add_user_age_cells (df : DataFrame) :
  has_column df "dateOfBirth" = true ->
  cells_at "user_age" (fun o => null_or_between 18 100 (default VNull o))
           (rows (add_user_age parse_datetime now df)).
Proof.
  intros Hc. unfold add_user_age. rewrite Hc. cbn [update rows].
  eapply (cells_at_alter_eq _ (fun o => exists c, o = Some c /\
                                          (c = VNull \/ exists q, c = VNum q))).
  - intros o (c & -> & Hc'). simpl. by apply (clip_cell_between 18 100).
  - apply cells_at_assign_eq. intros r. eexists. split; [done|].
    destruct (get r "dateOfBirth"); try by left.
    simpl. right. eauto.
Qed.

Lemma add_user_age_other (df : DataFrame) (c : string) :
  c <> "dateOfBirth" -> c <> "user_age" ->
  column (add_user_age parse_datetime now df) c = column df c /\
  has_column (add_user_age parse_datetime now df) c = has_column df c.
Proof.
  intros H1 H2. unfold add_user_age. destruct (has_column df "dateOfBirth"); [|done].
  split.
  - rewrite column_update_ne by done. by rewrite !column_assign_ne.
  - change (has_column (update ?d ?a ?g) c) with (has_column d c).
    rewrite !has_column_assign.
    assert (String.eqb "dateOfBirth" c = false) as -> by (apply String.eqb_neq; congruence).
    assert (String.eqb "user_age" c = false) as -> by (apply String.eqb_neq; congruence).
    by rewrite !orb_false_r.
Qed.

Lemma add_timestamp_Ok (df s : DataFrame) :
  add_timestamp parse_datetime df = Ok s ->
  forall (c : string) (cond : option Cell -> Prop),
    c ∉ ["timestamp"; "season"; "is_weekend"] ->
    cells_at c cond (rows df) -> cells_at c cond (rows s).
Proof.
  unfold add_timestamp. destruct (has_column df "createdAt"); [|by intros [= <-]].
  intros H c cond Hc Hcells. bind_inv H as stamps Hs. injection H as <-.
  apply not_elem_of_cons in Hc as [H1 Hc]. apply not_elem_of_cons in Hc as [H2 Hc].
  apply not_elem_of_cons in Hc as [H3 _].
  apply cells_at_assign_ne; [done|]. apply cells_at_assign_ne; [done|]. cbn [rows].
  by apply cells_at_insert_cells_ne.
Qed.

Lemma add_timestamp_cells (df s : DataFrame) :
  has_column df "createdAt" = true ->
  add_timestamp parse_datetime df = Ok s ->
  has_column s "timestamp" = true /\
  cells_at "timestamp"
    (fun o => exists c, o = Some c /\ (c = VNull \/ exists t, c = VTime t)) (rows s) /\
  cells_at "is_weekend" (fun o => exists b, o = Some (VBool b)) (rows s).
Proof.
  intros Hc. unfold add_timestamp. rewrite Hc. intros H. bind_inv H as stamps Hs.
  injection H as <-. split; [|split].
  - rewrite !has_column_assign. unfold has_column. cbn [columns].
    rewrite existsb_set_dtype. by rewrite String.eqb_refl, orb_true_r.
  - apply cells_at_assign_ne; [done|]. apply cells_at_assign_ne; [done|]. cbn [rows].
    apply (cells_at_insert_cells_eq "timestamp" _ _ cell_of_time).
    apply Forall_forall. intros t _. eexists. split; [done|]. destruct t; simpl; eauto.
  - apply cells_at_assign_eq. intros r. unfold is_weekend_of.
    destruct (get r "timestamp"); eauto.
Qed.

Lemma add_days_until_departure_Ok (df s : DataFrame) :
  add_days_until_departure parse_datetime df = Ok s ->
  (forall (c : string) (cond : option Cell -> Prop),
     c ∉ ["departureDate"; "days_until_departure"] ->
     cells_at c cond (rows df) -> cells_at c cond (rows s)) /\
  (has_column df "departureDate" && has_column df "timestamp" = true ->
   cells_at "days_until_departure"
            (fun o => null_or_between 0 365 (default VNull o)) (rows s)).
Proof.
  unfold add_days_until_departure.
  destruct (has_column df "departureDate" && has_column df "timestamp");
    [|intros [= <-]; split; [done|discriminate]].
  intros H. bind_inv H as stamps Hs. injection H as <-. split.
  - intros c cond Hc Hcells.
    apply not_elem_of_cons in Hc as [H1 Hc]. apply not_elem_of_cons in Hc as [H2 _].
    cbn [update rows]. apply cells_at_alter; [by left|].
    apply (cells_at_insert_cells_ne c cond _ "days_until_departure" id); [done|].
    by apply (cells_at_assign_ne c cond df "departureDate" DDatetime).
  - intros _. cbn [update rows].
    eapply (cells_at_alter_eq _ (fun o => exists c, o = Some c /\
                                            (c = VNull \/ exists q, c = VNum q))).
    + intros o (c & -> & Hc'). simpl. by apply (clip_cell_between 0 365).
    + apply Forall_forall. intros r' Hr'.
      apply elem_of_zip_with in Hr' as (r & y & -> & Hr & Hy).
      rewrite lookup_insert_eq. eexists. split; [done|].
      apply elem_of_zip_with in Hy as (r0 & t & -> & _ & _).
      destruct (get r0 "departureDate"); try by left. destruct t; eauto.
Qed.

End TemporalMore.

Section TemporalTheorems.
Import Config FeatureEngineering.
Variable parse_datetime : string -> option (option Z).
Variable now : Z.

Lemma add_timestamp_has_column (df s : DataFrame) (c : string) :
  add_timestamp parse_datetime df = Ok s -> has_column df c = true -> has_column s c = true.
Proof.
  unfold add_timestamp. destruct (has_column df "createdAt"); [|by intros [= <-]].
  intros H Hc. bind_inv H as stamps Hs. injection H as <-.
  rewrite !has_column_assign. unfold has_column at 1. cbn [columns].
  rewrite existsb_set_dtype. fold (has_column df c). by rewrite Hc.
Qed.


Lemma temporal_ranges (df out : DataFrame) :
  calculate_temporal_features parse_datetime now df = Ok out ->
  (has_column df "dateOfBirth" = true ->
   Forall (null_or_between 18 100) (column out "user_age")) /\
  (has_column df "createdAt" = true ->
   Forall (fun c => exists b, c = VBool b) (column out "is_weekend")) /\
  (has_column df "departureDate" = true -> has_column df "createdAt" = true ->
   Forall (null_or_between 0 365) (column out "days_until_departure")) /\
  Forall (fun c => c = VNum 0) (column out "days_since_last_search") /\
  Forall (fun c => c = VNum 0) (column out "days_since_last_booking").
Proof.
  unfold calculate_temporal_features. intros H. bind_inv H as d2 H2. bind_inv H as d3 H3.
  injection H as <-.
  destruct (add_days_until_departure_Ok _ _ _ H3) as [Hkeep Hdays].
  split; [|split; [|split; [|split]]].
  - intros Hc. apply (cells_at_column "user_age").
    apply cells_at_assign_ne; [done|]. apply cells_at_assign_ne; [done|].
    apply Hkeep; [not_in_list|].
    eapply add_timestamp_Ok; [exact H2|not_in_list|]. by apply add_user_age_cells.
  - intros Hc.
    destruct (add_user_age_other parse_datetime now df "createdAt") as [_ Hhas]; [done..|].
    rewrite <- Hhas in Hc. destruct (add_timestamp_cells _ _ _ Hc H2) as (_ & _ & Hw).
    apply (cells_at_column "is_weekend" (fun c => exists b, c = VBool b)).
    apply cells_at_assign_ne; [done|]. apply cells_at_assign_ne; [done|].
    apply Hkeep; [not_in_list|].
    eapply Forall_impl; [exact Hw|]. intros r [b ->]. by exists b.
  - intros Hdep Hc.
    destruct (add_user_age_other parse_datetime now df "createdAt") as [_ Hhas]; [done..|].
    destruct (add_user_age_other parse_datetime now df "departureDate") as [_ Hhas']; [done..|].
    rewrite <- Hhas in Hc. rewrite <- Hhas' in Hdep.
    destruct (add_timestamp_cells _ _ _ Hc H2) as (Hts & _ & _).
    apply (add_timestamp_has_column _ _ _ H2) in Hdep.
    apply (cells_at_column "days_until_departure").
    apply cells_at_assign_ne; [done|]. apply cells_at_assign_ne; [done|].
    apply Hdays. by rewrite Hdep, Hts.
  - apply (cells_at_column "days_since_last_search" (fun c => c = VNum 0)).
    apply cells_at_assign_ne; [done|]. by apply cells_at_assign_eq.
  - apply (cells_at_column "days_since_last_booking" (fun c => c = VNum 0)).
    by apply cells_at_assign_eq.
Qed.


End TemporalTheorems.

(** X19: the ranges of the temporal features.  In the frame that
    [calculate_temporal_features] returns, user_age (written when the frame
    has dateOfBirth) is null or between 18 and 100; is_weekend (written when
    it has createdAt) is a boolean in every row, never null;
    days_until_departure (written when it has departureDate and createdAt) is
    null or between 0 and 365; and the two recency columns are 0 in every
    row. *)
Theorem temporal_feature_ranges
    (parse_datetime : string -> option (option Z)) (now : Z) (df out : DataFrame) :
  FeatureEngineering.calculate_temporal_features parse_datetime now df = Ok out ->
  (has_column df "dateOfBirth" = true ->
   Forall (null_or_between 18 100) (column out "user_age")) /\
  (has_column df "createdAt" = true ->
   Forall (fun c => exists b, c = VBool b) (column out "is_weekend")) /\
  (has_column df "departureDate" = true -> has_column df "createdAt" = true ->
   Forall (null_or_between 0 365) (column out "days_until_departure")) /\
  Forall (fun c => c = VNum 0) (column out "days_since_last_search") /\
  Forall (fun c => c = VNum 0) (column out "days_since_last_booking").
Proof. apply temporal_ranges. Qed.

Lemma temporal_feature_ranges_witness :
  let df := Samples.unparseable_others in
  let out := Samples.value (FeatureEngineering.calculate_temporal_features
                              Samples.parse_datetime 0 df) in
  (has_column df "dateOfBirth" = true ->
   Forall (null_or_between 18 100) (column out "user_age")) /\
  (has_column df "createdAt" = true ->
   Forall (fun c => exists b, c = VBool b) (column out "is_weekend")) /\
  (has_column df "departureDate" = true -> has_column df "createdAt" = true ->
   Forall (null_or_between 0 365) (column out "days_until_departure")) /\
  Forall (fun c => c = VNum 0) (column out "days_since_last_search") /\
  Forall (fun c => c = VNum 0) (column out "days_since_last_booking").
Proof.
  apply (temporal_feature_ranges Samples.parse_datetime 0 Samples.unparseable_others).
  vm_compute. reflexivity.
Defined.



(** ** The validators *)

Section ValidatorsMore.
Import Config Validators.

Lemma foldM_check {A : Type} (p : A -> bool) (e : Exn) (l : list A) :
  foldM (fun _ x => if p x then Raise e else Ok tt) tt l
  = if existsb p l then Raise e else Ok tt.
Proof.
  induction l as [|x l IH]; simpl; [done|]. destruct (p x); simpl; [done|]. exact IH.
Qed.

Lemma missing_count_positive (df : DataFrame) (c : string) :
  (0 <? missing_count df c)%nat = true <-> Exists (fun x => x = VNull) (column df c).
Proof.
  unfold missing_count. induction (column df c) as [|x l IH]; simpl.
  - split; [done|]. by intros ?%Exists_nil.
  - rewrite Exists_cons. destruct x; simpl; try (rewrite IH; split; [by right|]; by intros [|]).
    split; [by left|]. done.
Qed.

Lemma validate_required_columns_outcome_aux (df : DataFrame) :
  match validate_required_columns df with
  | Ok b =>
      b = true /\
      Forall (fun c => has_column df c = true /\ Forall (fun x => x <> VNull) (column df c))
             REQUIRED_COLUMNS
  | Raise e =>
      e = ValueError /\
      Exists (fun c => has_column df c = false \/ Exists (fun x => x = VNull) (column df c))
             REQUIRED_COLUMNS
  end.
Proof.
  unfold validate_required_columns.
  destruct (List.filter (fun c => negb (has_column df c)) REQUIRED_COLUMNS) as [|c0 l] eqn:Ef.
  - assert (forall c, c ∈ REQUIRED_COLUMNS -> has_column df c = true) as Hall.
    { intros c Hc. destruct (has_column df c) eqn:E; [done|].
      assert (c ∈ List.filter (fun c => negb (has_column df c)) REQUIRED_COLUMNS) as Hin.
      { apply elem_of_filter_bool. by rewrite E. }
      rewrite Ef in Hin. by apply elem_of_nil in Hin. }
    rewrite foldM_check.
    destruct (existsb _ REQUIRED_COLUMNS) eqn:Ex; simpl.
    + split; [done|]. apply existsb_exists in Ex as (c & Hc & Hm).
      apply Exists_exists. exists c. split; [by apply list_elem_of_In|].
      right. by apply missing_count_positive.
    + split; [done|]. apply Forall_forall. intros c Hc. split; [by apply Hall|].
      apply Forall_forall. intros x Hx ->.
      apply not_true_iff_false in Ex. apply Ex. apply existsb_exists.
      exists c. split; [by apply list_elem_of_In|]. apply missing_count_positive.
      apply Exists_exists. eauto.
  - split; [done|]. apply Exists_exists. exists c0.
    assert (c0 ∈ List.filter (fun c => negb (has_column df c)) REQUIRED_COLUMNS) as Hin.
    { rewrite Ef. left. }
    apply elem_of_filter_bool in Hin as [Hin Hc]. split; [done|]. left.
    by apply negb_true_iff.
Qed.

Lemma out_of_range_cell_Raise (x : Cell) (e : Exn) :
  out_of_range_cell x = Raise e -> e = TypeError.
Proof.
  unfold out_of_range_cell, lt_scalar, gt_scalar. destruct x; simpl; congruence.
Qed.

Lemma out_of_range_Raise (d : DataFrame) (c : string) (e : Exn) :
  has_column d c = true -> out_of_range d c = Raise e -> e = TypeError.
Proof.
  intros Hc. unfold out_of_range.
  destruct (comparable_column d c) as [[]|e'] eqn:E; simpl.
  - destruct (mapM out_of_range_cell (column d c)) as [flags|e'] eqn:Hm; simpl; [done|].
    intros [= <-]. apply mapM_Raise in Hm as (x & _ & Hx).
    by eapply out_of_range_cell_Raise.
  - intros [= <-]. apply comparable_column_Raise in E as [[_ E]|[-> _]]; [congruence|done].
Qed.

Lemma clip_range_col_Raise (d : DataFrame) (c : string) (e : Exn) :
  clip_range_col d c = Raise e -> e = TypeError.
Proof.
  unfold clip_range_col. destruct (has_column d c) eqn:Hc; [|done].
  destruct (out_of_range d c) as [n|e'] eqn:E; simpl.
  - by destruct (0 <? n)%nat.
  - intros [= <-]. by eapply out_of_range_Raise.
Qed.

Lemma clip_range_col_Ok (d s : DataFrame) (c : string) :
  clip_range_col d c = Ok s ->
  columns s = columns d /\
  (forall c', c' <> c -> column s c' = column d c') /\
  (has_column d c = true -> Forall (fun x => is_Ok (out_of_range_cell x)) (column d c)).
Proof.
  unfold clip_range_col. destruct (has_column d c) eqn:Hc; [|by intros [= <-]].
  intros H. bind_inv H as n Hn.
  assert (Forall (fun x => is_Ok (out_of_range_cell x)) (column d c)) as Hall.
  { unfold out_of_range in Hn. bind_inv Hn as u Hu. bind_inv Hn as flags Hf.
    by apply mapM_Ok_Forall in Hf. }
  destruct (0 <? n)%nat; injection H as <-; (split; [done|]); (split; [|done]).
  - intros c' Hne. by apply column_update_ne.
  - done.
Qed.

Lemma range_loop_raises (cols : list string) (d : DataFrame) (col s : string) :
  col ∈ cols -> has_column d col = true -> VStr s ∈ column d col ->
  foldM clip_range_col d cols = Raise TypeError.
Proof.
  revert d. induction cols as [|c cols IH]; intros d Hin Hc Hs; [by apply elem_of_nil in Hin|].
  simpl. destruct (clip_range_col d c) as [d'|e] eqn:E; simpl.
  - destruct (clip_range_col_Ok _ _ _ E) as (Hcols & Hother & Hok).
    destruct (decide (c = col)) as [->|Hne].
    + specialize (Hok Hc). rewrite Forall_forall in Hok. by destruct (Hok _ Hs).
    + apply IH.
      * apply elem_of_cons in Hin as [?|?]; [congruence|done].
      * by rewrite (has_column_columns d d').
      * by rewrite Hother.
  - apply clip_range_col_Raise in E. by subst.
Qed.

End ValidatorsMore.

(** X21: [validate_required_columns] returns True exactly when every one of
    the nine required columns is a column of the frame and holds no null; it
    never returns False, and in every other case it raises ValueError. *)
Theorem validate_required_columns_outcome (df : DataFrame) :
  match Validators.validate_required_columns df with
  | Ok b =>
      b = true /\
      Forall (fun c => has_column df c = true /\ Forall (fun x => x <> VNull) (column df c))
             Config.REQUIRED_COLUMNS
  | Raise e =>
      e = ValueError /\
      Exists (fun c => has_column df c = false \/ Exists (fun x => x = VNull) (column df c))
             Config.REQUIRED_COLUMNS
  end.
Proof. apply validate_required_columns_outcome_aux. Qed.

Lemma range_check_raises (df : DataFrame) (col s : string) :
  has_column df col = true ->
  Validators.is_range_col col = true ->
  VStr s ∈ column df col ->
  Validators.validate_vector_ranges df = Raise TypeError /\
  ~ is_Ok (Validators.validate_dataset df).
Proof.
  intros Hc Hr Hs.
  assert (Validators.validate_vector_ranges df = Raise TypeError) as Hraise.
  { unfold Validators.validate_vector_ranges. eapply range_loop_raises; [|done..].
    apply elem_of_filter_bool. split; [|done].
    unfold has_column in Hc. apply existsb_exists in Hc as ([n d] & Hin & E).
    apply String.eqb_eq in E. simpl in E. subst n.
    apply list_elem_of_fmap. exists (col, d). split; [done|]. by apply list_elem_of_In. }
  split; [done|].
  intros [out H]. unfold Validators.validate_dataset in H.
  bind_inv H as b Hb. rewrite Hraise in H. done.
Qed.

(** X22: the range check of the validators raises TypeError on every frame
    that has a column whose name ends in _pref, _level or _type with a string
    in it, whatever the other columns hold; [validate_dataset] does not
    return on such a frame. *)
Theorem validators_range_check_raises_on_strings (df : DataFrame) (col s : string) :
  has_column df col = true ->
  Validators.is_range_col col = true ->
  VStr s ∈ column df col ->
  Validators.validate_vector_ranges df = Raise TypeError /\
  ~ is_Ok (Validators.validate_dataset df).
Proof. apply range_check_raises. Qed.

Lemma validators_range_check_raises_on_strings_witness :
  Validators.validate_vector_ranges Samples.labeled = Raise TypeError /\
  ~ is_Ok (Validators.validate_dataset Samples.labeled).
Proof.
  apply (validators_range_check_raises_on_strings Samples.labeled
           "interaction_type" "BOOKED").
  - vm_compute. reflexivity.
  - vm_compute. reflexivity.
  - apply list_elem_of_lookup. exists 0%nat. vm_compute. reflexivity.
Defined.

(** ** The interaction_type column from Label Construction to the split *)

Section StringColumn.
Variable col : string.

Local Abbreviation is_string := (fun o : option Cell => exists s, o = Some (VStr s)).

Lemma is_string_fillna (v : Cell) (o : option Cell) : is_string o -> is_string (fillna v <$> o).
Proof. intros [s ->]. by exists s. Qed.

Lemma is_string_clip01 (o : option Cell) : is_string o -> is_string (clip01 <$> o).
Proof. intros [s ->]. by exists s. Qed.

Lemma cells_at_drop (cond : option Cell -> Prop) (df : DataFrame) (cols : list string) :
  col ∉ cols -> cells_at col cond (rows df) -> cells_at col cond (rows (drop_columns df cols)).
Proof.
  intros Hc H. cbn [drop_columns rows]. apply Forall_fmap. eapply Forall_impl; [exact H|].
  intros r Hr. simpl. rewrite lookup_delete_all. by rewrite bool_decide_eq_false_2.
Qed.

Lemma string_column_sampling (permutation : nat -> list nat) (df out : DataFrame) (ratio : Q) :
  NegativeSampling.add_negative_samples permutation df ratio = Ok out ->
  string_column df col -> string_column out col.
Proof.
  unfold NegativeSampling.add_negative_samples. intros H [Hc Hr].
  bind_inv H as u Hu. bind_inv H as pos Hpos. bind_inv H as sampled Hs.
  injection H as <-. split; [done|]. cbn [rows].
  apply Forall_take_rows, Forall_app. split.
  - by eapply Forall_filterM.
  - destruct (_ <? _)%Z in Hs.
    + unfold NegativeSampling.sample in Hs. destruct (_ <? _)%Z in Hs; [done|].
      injection Hs as <-. by apply Forall_take_rows, Forall_filter_bool.
    + injection Hs as <-. by apply Forall_filter_bool.
Qed.

Lemma string_column_cleaning (df out : DataFrame) :
  DataCleaning.clean_dataset df = Ok out -> string_column df col -> string_column out col.
Proof.
  unfold DataCleaning.clean_dataset. intros H [Hc Hr].
  bind_inv H as d2 H2. bind_inv H as d3 H3. bind_inv H as d4 H4. injection H as <-.
  pose proof (dropna_all_columns df ["user_id"; "user_climate_pref"; "recommendation_score";
                                     "engagement_score"]) as C1.
  fold (DataCleaning.remove_missing_required df) in C1.
  pose proof (impute_missing_values_columns _ _ H2) as C2.
  destruct (remove_outliers_rows _ _ H3) as [C3 S3].
  destruct (cleaning_range_check_rows _ _ H4) as [C4 S4].
  pose proof (remove_duplicates_columns d4) as C5.
  split.
  - rewrite <- Hc. apply has_column_columns. congruence.
  - apply (remove_duplicates_sub d4 (fun r => is_string (r !! col))).
    apply (S4 col is_string); [apply is_string_clip01|].
    apply (S3 (fun r => is_string (r !! col))).
    apply (impute_missing_values_keeps _ _ col is_string
             (fun v o => is_string_fillna v o) H2).
    by apply (dropna_all_sub df _ col is_string).
Qed.

Lemma string_column_anonymization (sha256_hexdigest : string -> string)
    (str_num : Q -> string) (str_time : Z -> string) (df out : DataFrame) :
  col ∉ ["user_hash"; "user_region"; "user_age_group"] ->
  col ∉ sensitive_columns ->
  Anonymization.anonymize_dataset sha256_hexdigest str_num str_time df = Ok out ->
  string_column df col -> string_column out col.
Proof.
  intros Hnew Hsens. unfold Anonymization.anonymize_dataset. intros H [Hc Hr].
  bind_inv H as d3 H3. injection H as <-.
  apply not_elem_of_cons in Hnew as [N1 Hnew]. apply not_elem_of_cons in Hnew as [N2 Hnew].
  apply not_elem_of_cons in Hnew as [N3 _].
  assert (col <> "user_nationality" /\ col <> "user_age" /\
          col ∉ ["user_id"; "email"; "firstName"; "lastName"; "phoneNumber"; "phone";
                 "dateOfBirth"; "avatar"; "recommendation_id"]) as (S1 & S2 & S3).
  { unfold sensitive_columns in Hsens. split; [|split].
    - intros ->. apply Hsens. apply (bool_decide_unpack _). by vm_compute.
    - intros ->. apply Hsens. apply (bool_decide_unpack _). by vm_compute.
    - intros Hin. apply Hsens.
      repeat (apply elem_of_cons in Hin as [-> | Hin];
              [apply (bool_decide_unpack _); by vm_compute|]).
      by apply elem_of_nil in Hin. }
  set (d1 := Anonymization.hash_user_ids sha256_hexdigest str_num str_time df) in *.
  assert (string_column d1 col) as [C1 R1].
  { split; [unfold d1; by rewrite hash_user_ids_has_column|].
    unfold d1, Anonymization.hash_user_ids. destruct (has_column df "user_id"); [|done].
    by apply cells_at_assign_ne. }
  set (d2 := Anonymization.generalize_nationality d1) in *.
  assert (string_column d2 col) as [C2 R2].
  { split.
    - unfold d2. rewrite generalize_nationality_has_column, C1.
      destruct (has_column d1 "user_nationality"); [|done]. simpl.
      apply negb_true_iff, String.eqb_neq. done.
    - unfold d2, Anonymization.generalize_nationality.
      destruct (has_column d1 "user_nationality"); [|done].
      apply cells_at_drop; [by apply not_elem_of_cons; split; [|apply not_elem_of_nil]|].
      by apply cells_at_assign_ne. }
  assert (string_column d3 col) as [C3 R3].
  { split.
    - rewrite (bin_age_has_column _ _ col H3), C2.
      destruct (has_column d2 "user_age"); [|done]. simpl.
      apply negb_true_iff, String.eqb_neq. done.
    - unfold Anonymization.bin_age in H3. destruct (has_column d2 "user_age");
        [|by injection H3 as <-].
      bind_inv H3 as groups Hg. injection H3 as <-.
      apply cells_at_drop; [by apply not_elem_of_cons; split; [|apply not_elem_of_nil]|].
      cbn [rows]. by apply (cells_at_insert_cells_ne col _ _ "user_age_group" id). }
  split.
  - rewrite remove_pii_has_column.
    destruct (suppression_loop_columns 10 (select_dtypes d3 [DObject]) d3) as [Hcols _].
    fold (Anonymization.remove_rare_categories d3 10) in Hcols.
    rewrite (has_column_columns d3 (Anonymization.remove_rare_categories d3 10)) by done.
    rewrite C3. cbn [andb]. apply negb_true_iff, not_true_iff_false.
    intros E. by apply existsb_eqb_elem in E.
  - assert (cells_at col is_string (rows (Anonymization.remove_rare_categories d3 10))) as R4.
    { unfold Anonymization.remove_rare_categories.
      apply (foldl_invariant (fun d => cells_at col is_string (rows d))); [|done].
      intros d c _ Hd. unfold Anonymization.generalize_rare.
      destruct (existsb _ _); [|done]. cbn [update rows].
      apply cells_at_alter; [|done]. right. intros o [s ->]. simpl.
      destruct (Anonymization.is_rare _ _ _); eauto. }
    unfold Anonymization.remove_pii. destruct (List.filter _ _) eqn:E; [done|].
    rewrite <- E. apply cells_at_drop; [|done].
    intros Hin. apply elem_of_filter_bool in Hin as [Hin _]. done.
Qed.

End StringColumn.

Lemma construct_labels_string_column (parse_datetime : string -> option (option Z))
    (str_num : Q -> string) (str_time : Z -> string) (df out : DataFrame) :
  LabelConstruction.construct_labels parse_datetime str_num str_time df = Ok out ->
  string_column out "interaction_type".
Proof.
  intros H. split.
  - rewrite (construct_labels_has_column _ _ _ _ _ _ H). by rewrite orb_true_r.
  - apply construct_labels_rows in H as (scores & _ & ->).
    apply Forall_zip_with_all. intros r s. unfold labelled_row.
    rewrite lookup_insert_ne by done. rewrite lookup_insert_eq. eauto.
Qed.

(** X23: the validators cannot pass on what the pipeline produces.  Label
    Construction writes the string column interaction_type; Negative
    Sampling, cleaning and anonymization keep it as a column of strings; and
    its name ends in _type.  So on every frame with the columns of the
    anonymized frame and at least one of its rows - the train and the test
    partition, when not empty, are such frames - the range check of the
    validators raises TypeError and [validate_dataset] does not return. *)
Theorem pipeline_output_never_validates
    (parse_datetime : string -> option (option Z))
    (str_num : Q -> string) (str_time : Z -> string)
    (permutation : nat -> list nat) (sha256_hexdigest : string -> string)
    (featured labeled balanced cleaned final part : DataFrame) (ratio : Q) :
  LabelConstruction.construct_labels parse_datetime str_num str_time featured = Ok labeled ->
  NegativeSampling.add_negative_samples permutation labeled ratio = Ok balanced ->
  DataCleaning.clean_dataset balanced = Ok cleaned ->
  Anonymization.anonymize_dataset sha256_hexdigest str_num str_time cleaned = Ok final ->
  columns part = columns final ->
  rows part ⊆ rows final ->
  rows part <> [] ->
  string_column final "interaction_type" /\
  Validators.validate_vector_ranges part = Raise TypeError /\
  ~ is_Ok (Validators.validate_dataset part).
Proof.
  intros H1 H2 H3 H4 Hcols Hsub Hne.
  apply construct_labels_string_column in H1.
  apply (string_column_sampling _ _ _ _ _ H2) in H1.
  apply (string_column_cleaning _ _ _ H3) in H1.
  apply (string_column_anonymization "interaction_type" _ _ _ _ _) in H4;
    [|apply (bool_decide_unpack _); by vm_compute
     |apply (bool_decide_unpack _); by vm_compute|done].
  split; [done|]. destruct H4 as [Hc Hr].
  destruct (rows part) as [|r l] eqn:Hrows; [done|].
  assert (r ∈ rows final) as Hin by (apply Hsub; left).
  unfold cells_at in Hr. rewrite Forall_forall in Hr. destruct (Hr r Hin) as [s Hs].
  apply (range_check_raises part "interaction_type" s).
  - by rewrite (has_column_columns final part).
  - by vm_compute.
  - unfold column. rewrite Hrows. cbn [map]. unfold get at 1. rewrite Hs. left.
Qed.

Lemma pipeline_output_never_validates_witness :
  string_column Samples.final "interaction_type" /\
  Validators.validate_vector_ranges Samples.final = Raise TypeError /\
  ~ is_Ok (Validators.validate_dataset Samples.final).
Proof.
  apply (pipeline_output_never_validates Samples.parse_datetime Samples.str_num
           Samples.str_time Samples.permutation Samples.sha256_hexdigest
           Samples.interactions Samples.labeled Samples.balanced Samples.cleaned
           Samples.final Samples.final 2).
  - vm_compute. reflexivity.
  - vm_compute. reflexivity.
  - vm_compute. reflexivity.
  - vm_compute. reflexivity.
  - reflexivity.
  - done.
  - vm_compute. discriminate.
Defined.

(** ** Export: which files exist afterwards *)

Lemma split_and_export_outcome
    (train_test_split : DataFrame -> Q -> Result (DataFrame * DataFrame))
    (df : DataFrame) (version : string) (test_size : Q) (st : ExportDataset.Store) :
  match ExportDataset.split_and_export train_test_split df version test_size st with
  | (Ok parts, st') =>
      train_test_split df test_size = Ok parts /\
      has_column df "engagement_score" = true /\
      rows df <> [] /\
      st' = st ++ [ExportDataset.train_path version; ExportDataset.test_path version;
                   ExportDataset.sample_csv_path version]
  | (Raise _, st') => st' = st
  end.
Proof.
  unfold ExportDataset.split_and_export, ExportDataset.io_bind, ExportDataset.io_lift,
    ExportDataset.io_ret, ExportDataset.write_file, ExportDataset.require_column.
  destruct (has_column df "engagement_score"); [|done].
  destruct (train_test_split df test_size) as [parts|e]; [|done].
  destruct (rows df) as [|r l]; [done|]. cbn.
  split; [done|]. split; [done|]. split; [done|]. by rewrite <- !app_assoc.
Qed.

(** X24: [split_and_export] writes all of its three files or none (a write
    is taken to succeed).  When it returns, the frame has an engagement_score
    column and at least one row, the partitions are those of the split, and
    the train file, the test file and the sample CSV were written in this
    order; when it raises, it has written nothing. *)
Theorem split_and_export_all_or_nothing
    (train_test_split : DataFrame -> Q -> Result (DataFrame * DataFrame))
    (df : DataFrame) (version : string) (test_size : Q) (st : ExportDataset.Store) :
  match ExportDataset.split_and_export train_test_split df version test_size st with
  | (Ok parts, st') =>
      train_test_split df test_size = Ok parts /\
      has_column df "engagement_score" = true /\
      rows df <> [] /\
      st' = st ++ [ExportDataset.train_path version; ExportDataset.test_path version;
                   ExportDataset.sample_csv_path version]
  | (Raise _, st') => st' = st
  end.
Proof. apply split_and_export_outcome. Qed.

(** X25: the files that step 10 of the pipeline leaves (a write is taken to
    succeed).  It only adds files, in the order train, test, sample CSV,
    metadata, plots, report: what it has written when it ends is a prefix of
    this list.  It returns exactly when all six were written, and the
    metadata it returns carries the version and row counts that add up. *)
Theorem step10_files
    (train_test_split : DataFrame -> Q -> Result (DataFrame * DataFrame))
    (final_df : DataFrame) (version : string) (st : ExportDataset.Store) :
  let run := ExportDataset.run_etl_pipeline_step10 train_test_split final_df version st in
  let files := [ExportDataset.train_path version; ExportDataset.test_path version;
                ExportDataset.sample_csv_path version; ExportDataset.metadata_path version;
                ExportDataset.plot_path version; ExportDataset.report_path version] in
  exists written,
    run.2 = st ++ written /\
    written `prefix_of` files /\
    match run.1 with
    | Ok metadata =>
        written = files /\
        ExportDataset.md_total_rows metadata
        = (ExportDataset.md_train_rows metadata + ExportDataset.md_test_rows metadata)%nat /\
        ExportDataset.md_version metadata = version
    | Raise _ => written <> files
    end.
Proof.
  intros run files.
  pose proof (split_and_export_outcome train_test_split final_df version
                Config.TEST_SIZE st) as Hsplit.
  assert (run = ExportDataset.run_etl_pipeline_step10 train_test_split final_df version st)
    as Hrun by done.
  clearbody run.
  unfold ExportDataset.run_etl_pipeline_step10, ExportDataset.io_bind in Hrun.
  destruct (ExportDataset.split_and_export train_test_split final_df version
              Config.TEST_SIZE st) as [[parts|e] st1].
  2:{ subst run st1. exists []. cbn. rewrite app_nil_r.
      split; [done|]. split; [apply prefix_nil|done]. }
  destruct Hsplit as (_ & _ & _ & ->).
  unfold ExportDataset.io_lift, ExportDataset.io_ret, ExportDataset.generate_metadata,
    ExportDataset.generate_quality_report, ExportDataset.write_file,
    ExportDataset.io_bind, ExportDataset.io_lift in Hrun.
  destruct (Validators.validate_dataset parts.1) as [train|e].
  2:{ subst run. exists (take 3 files). cbn. split; [done|].
      split; [by eexists|done]. }
  destruct (Validators.validate_dataset parts.2) as [test|e].
  2:{ subst run. exists (take 3 files). cbn. split; [done|].
      split; [by eexists|done]. }
  destruct (ExportDataset.require_column train "engagement_score") as [[]|e].
  2:{ subst run. exists (take 3 files). cbn. split; [done|].
      split; [by eexists|done]. }
  destruct (ExportDataset.column_mean train "booking_probability") as [rate|e].
  2:{ subst run. exists (take 3 files). cbn. split; [done|].
      split; [by eexists|done]. }
  destruct (length (rows train) + length (rows test) =? 0)%nat.
  - subst run. exists (take 4 files). cbn. split; [by rewrite <- !app_assoc|].
    split; [by eexists|done].
  - subst run. exists files. cbn. split; [by rewrite <- !app_assoc|].
    split; [done|]. done.
Qed.

(** ** How cleaning and anonymization fail *)

Lemma numeric_values_Raise (cells : list Cell) (e : Exn) :
  numeric_values cells = Raise e -> e = TypeError.
Proof.
  unfold numeric_values. destruct (mapM cmp_value cells) as [vs|e'] eqn:E; [done|].
  simpl. intros [= <-]. apply mapM_Raise in E as (x & _ & Hx). by eapply cmp_value_Raise.
Qed.

Lemma foldM_Raise {A S : Type} (f : S -> A -> Result S) (l : list A) (s : S) (e : Exn) :
  foldM f s l = Raise e -> exists s' x, x ∈ l /\ f s' x = Raise e.
Proof.
  revert s. induction l as [|x l IH]; intros s H; simpl in H; [done|].
  destruct (f s x) as [s1|e'] eqn:E; simpl in H.
  - destruct (IH _ H) as (s' & y & Hy & Hf). exists s', y. split; [by right|done].
  - injection H as ->. exists s, x. split; [left|done].
Qed.

(** X26: [clean_dataset] raises nothing but TypeError: the only operations
    of the stage that can fail are the median, the mean and the standard
    deviation of a column and the comparisons of a column with a number, and
    they fail on a value that is not a number. *)
Theorem clean_dataset_raises_only_type_error (df : DataFrame) (e : Exn) :
  DataCleaning.clean_dataset df = Raise e -> e = TypeError.
Proof.
  unfold DataCleaning.clean_dataset. intros H.
  destruct (DataCleaning.impute_missing_values _) as [d2|e2] eqn:H2; simpl in H.
  2:{ injection H as ->. unfold DataCleaning.impute_missing_values in H2.
      destruct (foldM DataCleaning.impute_numeric _ _) as [d|e'] eqn:Hf; [done|].
      simpl in H2. injection H2 as ->. apply foldM_Raise in Hf as (s & c & _ & Hc).
      unfold DataCleaning.impute_numeric in Hc. destruct (0 <? _)%nat; [|done].
      destruct (numeric_values _) as [xs|e'] eqn:Hn; simpl in Hc.
      - by destruct (median xs).
      - injection Hc as ->. by eapply numeric_values_Raise. }
  destruct (DataCleaning.remove_outliers d2) as [d3|e3] eqn:H3; simpl in H.
  2:{ injection H as ->. unfold DataCleaning.remove_outliers in H3.
      apply foldM_Raise in H3 as (s & c & _ & Hc).
      unfold DataCleaning.remove_outliers_col in Hc. destruct (has_column s c); [|done].
      destruct (numeric_values _) as [xs|e'] eqn:Hn; simpl in Hc.
      2:{ injection Hc as ->. by eapply numeric_values_Raise. }
      destruct (mean xs), (variance xs); try done. destruct (Qltb 0 _); [|done].
      destruct (filterM _ _) as [kept|e'] eqn:Hk; [done|]. simpl in Hc. injection Hc as ->.
      apply filterM_Raise in Hk as (r & _ & Hr). unfold DataCleaning.outlier_mask in Hr.
      destruct (cmp_value _) as [v|e'] eqn:Hv; [done|]. simpl in Hr. injection Hr as ->.
      by eapply cmp_value_Raise. }
  destruct (DataCleaning.validate_vector_ranges d3) as [d4|e4] eqn:H4; simpl in H; [done|].
  injection H as ->. unfold DataCleaning.validate_vector_ranges in H4.
  apply foldM_Raise in H4 as (s & c & _ & Hc).
  unfold DataCleaning.clip_vector_col in Hc.
  destruct (has_column s c) eqn:Hhas; [|done]. destruct (bool_decide _); [|done]. simpl in Hc.
  destruct (out_of_range s c) as [n|e'] eqn:Ho; simpl in Hc.
  - by destruct (0 <? n)%nat.
  - injection Hc as ->. by eapply out_of_range_Raise.
Qed.

Lemma clean_dataset_raises_only_type_error_witness :
  DataCleaning.clean_dataset MoreSamples.unreadable_budget = Raise TypeError /\
  TypeError = TypeError.
Proof.
  split; [vm_compute; reflexivity|].
  apply (clean_dataset_raises_only_type_error MoreSamples.unreadable_budget TypeError).
  vm_compute. reflexivity.
Defined.

